(** * Social-Genius browser-use API: task lifecycle and session persistence

    A shallow embedding of [src/api/browser-use/server.py]: the outcome
    classifier of [perform_google_auth], the task dictionary [tasks] with
    [create_task], [cleanup_old_tasks] and [terminate_task], the two-tier
    session store ([save_browser_session], [load_browser_session],
    [extract_browser_session], [check_session]) and the executor
    [perform_google_auth] itself.

    Modelling conventions.
    - Python dictionaries keyed by strings are [gmap string _].
    - A [datetime] is the number of microseconds it denotes, a [Z]; a
      [timedelta] is a number of microseconds.  [isoformat] followed by
      [fromisoformat] is the identity on naive datetimes, so a stored
      timestamp is kept as the instant it denotes.
    - Text is a [string] of characters; [str.lower] is modelled on the
      ASCII letters.
    - Code that may raise lives in the monad [M]: a state monad over the
      process state [world] whose result is either a value or a Python
      exception.  [try_except] is [try: ... except Exception:].
    - What the outside world does (the agent run, the file system, the
      browser) is an explicit input of the operation that consults it. *)

From Stdlib Require Import ZArith Ascii String List Bool Lia.
From stdpp Require Import base option gmap strings list fin_maps.

Local Open Scope string_scope.
Local Open Scope Z_scope.

(* ===================================================================== *)
(** ** Python string primitives *)
(* ===================================================================== *)

Module PyStr.

(** [c.lower()] on one ASCII character. *)
Definition lower_ascii (c : ascii) : ascii :=
  let n := nat_of_ascii c in
  if ((65 <=? n)%nat && (n <=? 90)%nat)%bool then ascii_of_nat (n + 32) else c.

(** [c.upper()] on one ASCII character. *)
Definition upper_ascii (c : ascii) : ascii :=
  let n := nat_of_ascii c in
  if ((97 <=? n)%nat && (n <=? 122)%nat)%bool then ascii_of_nat (n - 32) else c.

Definition is_cased (c : ascii) : bool :=
  let n := nat_of_ascii c in
  (((65 <=? n)%nat && (n <=? 90)%nat) || ((97 <=? n)%nat && (n <=? 122)%nat))%bool.

(** [s.lower()] *)
Fixpoint lower (s : string) : string :=
  match s with
  | EmptyString => EmptyString
  | String c s' => String (lower_ascii c) (lower s')
  end.

(** [s.replace(a, b)] for single characters [a] and [b]. *)
Fixpoint replace_char (a b : ascii) (s : string) : string :=
  match s with
  | EmptyString => EmptyString
  | String c s' => String (if Ascii.eqb c a then b else c) (replace_char a b s')
  end.

(** [s.title()]: a cased character is upper-cased when it follows an
    uncased one (or starts the string) and lower-cased otherwise. *)
Fixpoint title_from (previous_is_cased : bool) (s : string) : string :=
  match s with
  | EmptyString => EmptyString
  | String c s' =>
      String (if is_cased c
              then (if previous_is_cased then lower_ascii c else upper_ascii c)
              else c)
             (title_from (is_cased c) s')
  end.

Definition title (s : string) : string := title_from false s.

(** [p in s]: [p] occurs in [s] as a contiguous substring. *)
Fixpoint contains (s p : string) : bool :=
  match s with
  | EmptyString => String.prefix p EmptyString
  | String _ s' => (String.prefix p s || contains s' p)%bool
  end.

(** [s[:n]] *)
Definition take (n : nat) (s : string) : string := String.substring 0 n s.

(** [any(p in s for p in phrases)] *)
Definition any_in (phrases : list string) (s : string) : bool :=
  existsb (contains s) phrases.

End PyStr.

(* ===================================================================== *)
(** ** The outcome classifier (perform_google_auth, lines 650-777) *)
(* ===================================================================== *)

Module Classifier.
Import PyStr.

Definition success_indicators : list string :=
  [ "successfully logged in";
    "login successful";
    "logged in successfully";
    "reached google account";
    "reached a google account page";
    "reached the google account dashboard";
    "reached the account dashboard" ].

(** The dictionary literal [failure_indicators]; a Python dictionary
    iterates in insertion order, so it is the list of its items. *)
Definition failure_indicators : list (string * list string) :=
  [ ("WRONG_PASSWORD",
      [ "password is incorrect"; "wrong password"; "password was incorrect";
        "your password was incorrect"; "check your password" ]);
    ("EMAIL_NOT_FOUND",
      [ "couldn't find your google account"; "couldn't find account";
        "email not found"; "no account found" ]);
    ("SUSPICIOUS_ACTIVITY",
      [ "unusual activity"; "suspicious activity"; "unusual sign in";
        "suspicious login attempt"; "security alert"; "security challenge" ]);
    ("VERIFICATION_REQUIRED",
      [ "verification required"; "verify it's you"; "confirm your identity";
        "additional verification"; "needs additional verification" ]);
    ("TWO_FACTOR_REQUIRED",
      [ "2-step verification"; "two-factor"; "2fa";
        "enter verification code"; "enter the code" ]);
    ("ACCOUNT_DISABLED",
      [ "account disabled"; "account has been disabled"; "account suspended" ]);
    ("TOO_MANY_ATTEMPTS",
      [ "too many failed attempts"; "try again later"; "temporary lock";
        "account is locked" ]);
    ("CAPTCHA_CHALLENGE",
      [ "captcha"; "security check"; "prove you're not a robot"; "recaptcha" ]) ].

(** The [for err_code, indicators in failure_indicators.items()] loop with
    its [break]; the result is the pair [(error_code, error_message)]. *)
Fixpoint scan_failures (items : list (string * list string))
         (final_result_lower : string) : string * string :=
  match items with
  | [] => ("LOGIN_FAILED", "Failed to log in to Google")
  | (err_code, indicators) :: rest =>
      if any_in indicators final_result_lower
      then (err_code,
            "Authentication failed: " +:+ title (replace_char "_" " " err_code))
      else scan_failures rest final_result_lower
  end.

Inductive verdict :=
| Authenticated
| Rejected (error_code error_message : string).

(** The branch structure of lines 720-777 on the lower-cased text. *)
Definition classify_lower (final_result_lower : string) : verdict :=
  if any_in success_indicators final_result_lower
  then Authenticated
  else let '(error_code, error_message) :=
         scan_failures failure_indicators final_result_lower in
       Rejected error_code error_message.

Definition classify (final_result : string) : verdict :=
  classify_lower (lower final_result).

Definition verdict_code (v : verdict) : option string :=
  match v with
  | Authenticated => None
  | Rejected c _ => Some c
  end.

End Classifier.

(* ===================================================================== *)
(** ** Exceptions and the process state *)
(* ===================================================================== *)

(** The Python exceptions the modelled code can meet.  All of them are
    subclasses of [Exception]; only [TimeoutError] is caught by
    [except asyncio.TimeoutError]. *)
Inductive exn :=
| TimeoutError
| KeyError (key : string)
| HTTPException (status_code : nat) (detail : string)
| Exception (msg : string).

(** [str(e)] *)
Definition str_exn (e : exn) : string :=
  match e with
  | TimeoutError => ""
  | KeyError key => "'" +:+ key +:+ "'"
  | HTTPException _ detail => detail
  | Exception msg => msg
  end.

Inductive status := pending | completed | failed.

Definition status_name (s : status) : string :=
  match s with
  | pending => "pending"
  | completed => "completed"
  | failed => "failed"
  end.

(** The dictionary stored under a task's ["result"] key; a key that a given
    write does not set is [None]. *)
Record result := {
  success : bool;
  error : option string;
  error_code : option string;
  result_message : option string;
  screenshot : option string;
  screenshots_dir : option string;
  session_saved : option bool;
  cookies_count : option nat;
  details : option string
}.

(** One entry of [tasks].  [message] is [None] while the key is absent. *)
Record task := {
  task_status : status;
  created_at : Z;
  completed_at : option Z;
  task_result : option result;
  message : option string
}.

(** The argument of [tasks[task_id].update({...})]: every such call in the
    file sets "status", "completed_at" and "result"; "message" is set by
    some of them only. *)
Record task_update := {
  upd_status : status;
  upd_completed_at : Z;
  upd_message : option string;
  upd_result : result
}.

(** [dict.update]: the keys of the argument are overwritten, the others
    are kept. *)
Definition dict_update (t : task) (u : task_update) : task :=
  {| task_status := upd_status u;
     created_at := created_at t;
     completed_at := Some (upd_completed_at u);
     task_result := Some (upd_result u);
     message := match upd_message u with
                | Some m => Some m
                | None => message t
                end |}.

Record cookie := {
  cookie_name : string;
  cookie_value : string;
  cookie_domain : string;
  cookie_path : string
}.

(** A string that is stored where an ISO timestamp is expected: either the
    [isoformat()] of an instant or some other text. *)
Inductive iso_string :=
| IsoOf (instant : Z)
| NotIso (text : string).

Definition isoformat (t : Z) : iso_string := IsoOf t.

(** [datetime.fromisoformat] raises [ValueError] on other text. *)
Definition fromisoformat (s : iso_string) : exn + Z :=
  match s with
  | IsoOf t => inr t
  | NotIso text => inl (Exception ("Invalid isoformat string: " +:+ text))
  end.

Definition iso_string_eqb (a b : iso_string) : bool :=
  match a, b with
  | IsoOf x, IsoOf y => Z.eqb x y
  | NotIso x, NotIso y => String.eqb x y
  | _, _ => false
  end.

(** A session dictionary.  [last_updated] is [None] when the key is absent
    (the fallback record of [extract_browser_session]); "user_agent" and
    "metadata" are never read back, so an absent key and an empty value are
    not told apart for them. *)
Record session_data := {
  cookies : list cookie;
  local_storage : gmap string string;
  session_storage : gmap string string;
  last_updated : option iso_string;
  user_agent : option string;
  metadata : gmap string string
}.

(** The content of a file of [session_dir]: a complete pickle of a session
    dictionary, or a file that was opened for writing and not completed. *)
Inductive pickle_file :=
| Pickled (d : session_data)
| Truncated.

(** The process state: the module-level dictionaries [tasks] and
    [browser_sessions], the files of [session_dir], the configured user
    agent of the global [browser], and the log of the
    [tasks[task_id].update] calls performed so far (most recent last). *)
Record world := {
  tasks : gmap string task;
  browser_sessions : gmap string session_data;
  session_files : gmap string pickle_file;
  browser_user_agent : option string;
  task_writes : list (string * task_update)
}.

Definition set_tasks (f : gmap string task -> gmap string task) (w : world) : world :=
  {| tasks := f (tasks w);
     browser_sessions := browser_sessions w;
     session_files := session_files w;
     browser_user_agent := browser_user_agent w;
     task_writes := task_writes w |}.

Definition set_browser_sessions
           (f : gmap string session_data -> gmap string session_data) (w : world) : world :=
  {| tasks := tasks w;
     browser_sessions := f (browser_sessions w);
     session_files := session_files w;
     browser_user_agent := browser_user_agent w;
     task_writes := task_writes w |}.

Definition set_session_files
           (f : gmap string pickle_file -> gmap string pickle_file) (w : world) : world :=
  {| tasks := tasks w;
     browser_sessions := browser_sessions w;
     session_files := f (session_files w);
     browser_user_agent := browser_user_agent w;
     task_writes := task_writes w |}.

Definition log_task_write (task_id : string) (u : task_update) (w : world) : world :=
  {| tasks := tasks w;
     browser_sessions := browser_sessions w;
     session_files := session_files w;
     browser_user_agent := browser_user_agent w;
     task_writes := task_writes w ++ [(task_id, u)] |}.

(* ===================================================================== *)
(** ** The monad of code that may raise *)
(* ===================================================================== *)

Definition M (A : Type) : Type := world -> (exn + A) * world.

Definition ret {A} (a : A) : M A := fun w => (inr a, w).

Definition raise {A} (e : exn) : M A := fun w => (inl e, w).

Definition bind {A B} (m : M A) (k : A -> M B) : M B :=
  fun w => match m w with
           | (inr a, w') => k a w'
           | (inl e, w') => (inl e, w')
           end.

(** [try: body except Exception as e: handler(e)] *)
Definition try_except {A} (body : M A) (handler : exn -> M A) : M A :=
  fun w => match body w with
           | (inr a, w') => (inr a, w')
           | (inl e, w') => handler e w'
           end.

(** [try: body except asyncio.TimeoutError: handler] *)
Definition try_except_timeout {A} (body : M A) (handler : M A) : M A :=
  fun w => match body w with
           | (inl TimeoutError, w') => handler w'
           | other => other
           end.

Definition get_world : M world := fun w => (inr w, w).

Definition modify (f : world -> world) : M unit := fun w => (inr tt, f w).

(** An operation of the outside world that either succeeds or raises. *)
Definition of_outcome {A} (o : exn + A) : M A :=
  match o with
  | inr a => ret a
  | inl e => raise e
  end.

Declare Scope py_scope.
Delimit Scope py_scope with py.
Notation "x <- m ;; k" := (bind m (fun x => k))
  (at level 100, m at next level, right associativity) : py_scope.
Notation "m ;;; k" := (bind m (fun _ => k))
  (at level 100, right associativity) : py_scope.
Local Open Scope py_scope.

(* ===================================================================== *)
(** ** Task storage (lines 89-154, 824-863) *)
(* ===================================================================== *)

Definition microseconds_per_second : Z := 1000000.
Definition seconds (n : Z) : Z := n * microseconds_per_second.
Definition minutes (n : Z) : Z := seconds (60 * n).
Definition hours (n : Z) : Z := minutes (60 * n).
Definition days (n : Z) : Z := hours (24 * n).

(** [task_cleanup_time = timedelta(hours=1)] *)
Definition task_cleanup_time : Z := hours 1.

(** [tasks[task_id].update(u)]: [KeyError] when [task_id] is not a key. *)
Definition tasks_update (task_id : string) (u : task_update) : M unit :=
  fun w => match tasks w !! task_id with
           | None => (inl (KeyError task_id), w)
           | Some t =>
               (inr tt,
                log_task_write task_id u (set_tasks (insert task_id (dict_update t u)) w))
           end.

(** [create_task]; the fresh [uuid4] and the clock reading are inputs. *)
Definition create_task (task_id : string) (now : Z) : M string :=
  modify (set_tasks (insert task_id
            {| task_status := pending;
               created_at := now;
               completed_at := None;
               task_result := None;
               message := None |})) ;;;
  ret task_id.

(** The condition under which the first loop of [cleanup_old_tasks] appends
    a task to [to_delete]. *)
Definition cleanup_selects (now : Z) (t : task) : bool :=
  match task_status t with
  | completed | failed =>
      match completed_at t with
      | Some at_ => Z.gtb (now - at_) task_cleanup_time
      | None => false
      end
  | pending => false
  end.

(** [cleanup_old_tasks]: collect the ids, then delete them one by one. *)
Definition cleanup_old_tasks (now : Z) (ts : gmap string task) : gmap string task :=
  let to_delete :=
    List.map fst (List.filter (fun it => cleanup_selects now (snd it)) (map_to_list ts)) in
  List.fold_left (fun acc task_id => delete task_id acc) to_delete ts.

(** [get_task_status]: sweep, then read; 404 when the id is unknown. *)
Definition get_task_status (now : Z) (task_id : string) : M task :=
  modify (set_tasks (cleanup_old_tasks now)) ;;;
  w <- get_world ;;
  match tasks w !! task_id with
  | None => raise (HTTPException 404 "Task not found")
  | Some t => ret t
  end.

Definition terminated_update (now : Z) : task_update :=
  {| upd_status := failed;
     upd_completed_at := now;
     upd_message := Some "Task terminated by user";
     upd_result :=
       {| success := false;
          error := Some "Task terminated by user";
          error_code := Some "TERMINATED";
          result_message := None;
          screenshot := None;
          screenshots_dir := None;
          session_saved := None;
          cookies_count := None;
          details := None |} |}.

(** [terminate_task]; the value is the "message" of the response. *)
Definition terminate_task (now : Z) (task_id : string) : M string :=
  w <- get_world ;;
  match tasks w !! task_id with
  | None => raise (HTTPException 404 "Task not found")
  | Some t =>
      match task_status t with
      | pending =>
          tasks_update task_id (terminated_update now) ;;;
          ret "Task terminated"
      | st => ret ("Task is already " +:+ status_name st)
      end
  end.

(* ===================================================================== *)
(** ** Session storage (lines 93-96, 156-283, 920-961) *)
(* ===================================================================== *)

(** [pathlib] on a POSIX system, as far as [session_dir / name] needs it:
    a path is parsed into a root and the fields between slashes, empty
    fields and "." fields are dropped, an absolute right operand replaces
    the left one, and the path prints as the root followed by the fields
    joined by slashes.  A ".." field is kept as it is. *)
Module PyPath.

(** [s.split("/")] *)
Fixpoint fields (s : string) : list string :=
  match s with
  | EmptyString => [EmptyString]
  | String c s' =>
      if Ascii.eqb c "/" then EmptyString :: fields s'
      else match fields s' with
           | f :: fs => String c f :: fs
           | [] => [String c EmptyString]
           end
  end.

Definition kept (field : string) : bool :=
  negb (String.eqb field "" || String.eqb field ".").

Definition parts (s : string) : list string := List.filter kept (fields s).

(** The root of a path: exactly two leading slashes are kept, any other
    number of leading slashes is one slash. *)
Definition root (s : string) : string :=
  if (String.prefix "//" s && negb (String.prefix "///" s))%bool then "//"
  else if String.prefix "/" s then "/"
  else "".

(** ["/".join(l)] *)
Fixpoint join (l : list string) : string :=
  match l with
  | [] => EmptyString
  | [x] => x
  | x :: l' => x +:+ "/" +:+ join l'
  end.

(** [str(PurePosixPath(dir) / name)] for a relative directory [dir]
    without empty or "." fields. *)
Definition under (dir : list string) (name : string) : string :=
  if String.prefix "/" name then root name +:+ join (parts name)
  else join (dir ++ parts name)%list.

End PyPath.

(** [session_dir / f"{business_id}.pickle"] with
    [session_dir = Path("browser_sessions")].  The business id is not
    sanitised: slashes in it make directories, "./" and doubled slashes
    vanish, and an id that starts with a slash leaves the directory.  Files
    are told apart by this path; ".." fields and links are not resolved. *)
Definition session_file (business_id : string) : string :=
  PyPath.under ["browser_sessions"] (business_id +:+ ".pickle").

(** What the file system does with
    [with open(session_file, "wb") as f: pickle.dump(session_data, f)]. *)
Inductive write_outcome :=
| Written
| OpenFails (msg : string)
| DumpFails (msg : string).

Definition write_pickle (disk : write_outcome) (path : string) (d : session_data) : M unit :=
  match disk with
  | Written => modify (set_session_files (insert path (Pickled d)))
  | OpenFails msg => raise (Exception msg)
  | DumpFails msg =>
      modify (set_session_files (insert path Truncated)) ;;;
      raise (Exception msg)
  end.

(** [pickle.load] of an opened file. *)
Definition read_pickle (f : pickle_file) : M session_data :=
  match f with
  | Pickled d => ret d
  | Truncated => raise (Exception "Ran out of input")
  end.

(** [x or {}] *)
Definition or_empty (x : option (gmap string string)) : gmap string string :=
  match x with
  | Some m => m
  | None => ∅
  end.

Definition save_browser_session (now : Z) (disk : write_outcome)
           (business_id : string) (cookies_ : list cookie)
           (local_storage_ session_storage_ metadata_ : option (gmap string string))
  : M bool :=
  try_except
    (w <- get_world ;;
     let session_data_ :=
       {| cookies := cookies_;
          local_storage := or_empty local_storage_;
          session_storage := or_empty session_storage_;
          last_updated := Some (isoformat now);
          user_agent := browser_user_agent w;
          metadata := or_empty metadata_ |} in
     (* Save in memory *)
     modify (set_browser_sessions (insert business_id session_data_)) ;;;
     (* Save to disk for persistence *)
     write_pickle disk (session_file business_id) session_data_ ;;;
     ret true)
    (fun _ => ret false).

Definition load_browser_session (business_id : string) : M (option session_data) :=
  try_except
    (w <- get_world ;;
     match browser_sessions w !! business_id with
     | Some d => ret (Some d)
     | None =>
         match session_files w !! session_file business_id with
         | None => ret None
         | Some f =>
             d <- read_pickle f ;;
             modify (set_browser_sessions (insert business_id d)) ;;;
             ret (Some d)
         end
     end)
    (fun _ => ret None).

(** What the browser answers to the three queries of
    [extract_browser_session]. *)
Record browsing_context := {
  context_cookies : exn + list cookie;
  evaluate_local_storage : exn + gmap string string;
  evaluate_session_storage : exn + gmap string string
}.

Definition extract_fallback : session_data :=
  {| cookies := [];
     local_storage := ∅;
     session_storage := ∅;
     last_updated := None;
     user_agent := None;
     metadata := ∅ |}.

Definition extract_browser_session (now : Z) (ctx : browsing_context) : M session_data :=
  try_except
    (cookies_ <- of_outcome (context_cookies ctx) ;;
     local_storage_ <-
       try_except (of_outcome (evaluate_local_storage ctx)) (fun _ => ret ∅) ;;
     session_storage_ <-
       try_except (of_outcome (evaluate_session_storage ctx)) (fun _ => ret ∅) ;;
     w <- get_world ;;
     ret {| cookies := cookies_;
            local_storage := local_storage_;
            session_storage := session_storage_;
            last_updated := Some (isoformat now);
            user_agent := browser_user_agent w;
            metadata := ∅ |})
    (fun _ => ret extract_fallback).

(** The response of [check_session]. *)
Record session_check := {
  has_session : bool;
  check_cookies_count : option nat;
  check_last_updated : option iso_string;
  is_expired : option bool;
  check_error : option string;
  check_message : string
}.

(** The expiration test of lines 938-946 on the value of
    [session.get("last_updated", "unknown")]. *)
Definition expiration_check (now : Z) (last_updated_ : iso_string) : bool :=
  if iso_string_eqb last_updated_ (NotIso "unknown") then false
  else match fromisoformat last_updated_ with
       | inr last_updated_date => Z.gtb (now - last_updated_date) (days 7)
       | inl _ => true
       end.

Definition check_session (now : Z) (business_id : string) : M session_check :=
  try_except
    (session <- load_browser_session business_id ;;
     match session with
     | None =>
         ret {| has_session := false;
                check_cookies_count := None;
                check_last_updated := None;
                is_expired := None;
                check_error := None;
                check_message := "No session found for this business" |}
     | Some s =>
         let cookies_count_ := length (cookies s) in
         let last_updated_ := default (NotIso "unknown") (last_updated s) in
         ret {| has_session := true;
                check_cookies_count := Some cookies_count_;
                check_last_updated := Some last_updated_;
                is_expired := Some (expiration_check now last_updated_);
                check_error := None;
                check_message := "Session exists" |}
     end)
    (fun e =>
       ret {| has_session := false;
              check_cookies_count := None;
              check_last_updated := None;
              is_expired := None;
              check_error := Some (str_exn e);
              check_message := "Error checking session" |}).

(* ===================================================================== *)
(** ** The executor perform_google_auth (lines 337-822) *)
(* ===================================================================== *)

(** How [await asyncio.wait_for(agent.run(), timeout=timeout/1000)] ends:
    the agent returns and [result.final_result()] is a text or [None], the
    deadline elapses, or the agent raises. *)
Inductive run_outcome :=
| Returns (final_result : option string)
| TimesOut
| Raises (msg : string).

(** What the outside world does during one run of the executor.  A step
    that can raise is [None] when it succeeds and [Some msg] when it raises
    an exception whose [str] is [msg]. *)
Record auth_env := {
  prologue : option string;             (* lines 347-367 *)
  makedirs_task : option string;        (* line 424 *)
  agent_created : option string;        (* line 532 *)
  agent_run : run_outcome;              (* line 589 *)
  makedirs_final : option string;       (* lines 628-632 *)
  final_screenshot : option string;     (* line 636 *)
  agent_context : browsing_context;     (* line 727 *)
  extracted_at : Z;
  disk_write : write_outcome;           (* line 734 *)
  saved_at : Z;
  finished_at : Z                       (* the clock at the terminal write *)
}.

Definition raise_if (o : option string) : M unit :=
  match o with
  | None => ret tt
  | Some msg => raise (Exception msg)
  end.

(** Lines 586-624: the awaited run, the [except Exception: ... raise] around
    it, and [result.final_result()[:200]], which raises [TypeError] on
    [None]. *)
Definition run_agent (env : auth_env) : M string :=
  try_except
    (match agent_run env with
     | Returns (Some text) => ret text
     | Returns None => raise (Exception "'NoneType' object is not subscriptable")
     | TimesOut => raise TimeoutError
     | Raises msg => raise (Exception msg)
     end)
    (fun execution_error => raise execution_error).

Definition success_update (env : auth_env) (business_id task_id : string)
           (session_data_ : option session_data) : task_update :=
  let screenshots_dir_ := "screenshots/" +:+ business_id +:+ "/" +:+ task_id in
  {| upd_status := completed;
     upd_completed_at := finished_at env;
     upd_message := None;
     upd_result :=
       {| success := true;
          error := None;
          error_code := None;
          result_message := Some "Successfully authenticated with Google";
          screenshot := Some (screenshots_dir_ +:+ "/final_state.png");
          screenshots_dir := Some screenshots_dir_;
          session_saved := Some true;
          cookies_count :=
            Some (match session_data_ with
                  | Some d => length (cookies d)
                  | None => 0%nat
                  end);
          details := None |} |}.

Definition failure_update (env : auth_env) (business_id task_id : string)
           (error_code_ error_message_ final_result : string) : task_update :=
  let screenshots_dir_ := "screenshots/" +:+ business_id +:+ "/" +:+ task_id in
  {| upd_status := completed;
     upd_completed_at := finished_at env;
     upd_message := None;
     upd_result :=
       {| success := false;
          error := Some error_message_;
          error_code := Some error_code_;
          result_message := Some error_message_;
          screenshot := Some (screenshots_dir_ +:+ "/final_state.png");
          screenshots_dir := Some screenshots_dir_;
          session_saved := None;
          cookies_count := None;
          details := Some (PyStr.take 500 final_result) |} |}.

Definition timeout_update (env : auth_env) : task_update :=
  {| upd_status := failed;
     upd_completed_at := finished_at env;
     upd_message := Some "Authentication task timed out";
     upd_result :=
       {| success := false;
          error := Some "Authentication task timed out";
          error_code := Some "TIMEOUT";
          result_message := None;
          screenshot := None;
          screenshots_dir := None;
          session_saved := None;
          cookies_count := None;
          details := None |} |}.

Definition exception_update (env : auth_env) (e : exn) : task_update :=
  let error_message_ := str_exn e in
  {| upd_status := failed;
     upd_completed_at := finished_at env;
     upd_message := Some ("Error during authentication: " +:+ error_message_);
     upd_result :=
       {| success := false;
          error := Some ("Authentication task failed: " +:+ error_message_);
          error_code := Some "AUTH_ERROR";
          result_message := None;
          screenshot := None;
          screenshots_dir := None;
          session_saved := None;
          cookies_count := None;
          details := None |} |}.

(** Lines 725-749: extract the session and, when asked to and when there
    are cookies, save it.  The value is [session_data] when that local was
    assigned. *)
Definition persist_session_step (env : auth_env) (business_id : string)
           (persist_session : option bool) : M (option session_data) :=
  session_data_ <-
    try_except
      (d <- extract_browser_session (extracted_at env) (agent_context env) ;;
       ret (Some d))
      (fun _ => ret None) ;;
  match session_data_ with
  | None => ret None
  | Some d =>
      try_except
        (if (default true persist_session && negb (bool_decide (cookies d = [])))%bool
         then
           save_browser_session (saved_at env) (disk_write env) business_id
             (cookies d) (Some (local_storage d)) (Some (session_storage d)) None ;;;
           ret tt
         else ret tt)
        (fun _ => ret tt) ;;;
      ret (Some d)
  end.

(** [perform_google_auth].  The statements before the outer [try] (the
    trace id, [import psutil] and the system information of lines 347-367)
    are outside every handler: when one of them raises, the exception
    leaves the function.  [persist_session] is
    [advanced_options.get("persist_session")], [None] when the key is
    absent.  Steps that catch and log their own exceptions (the screenshots
    at critical points, the registration of callbacks, the capture of the
    page HTML) have no effect on the state and are not written down. *)
Definition perform_google_auth (env : auth_env) (task_id business_id : string)
           (persist_session : option bool) : M unit :=
  raise_if (prologue env) ;;;
  try_except
    (raise_if (makedirs_task env) ;;;
     raise_if (agent_created env) ;;;
     try_except_timeout
       (final_result <- run_agent env ;;
        raise_if (makedirs_final env) ;;;
        raise_if (final_screenshot env) ;;;
        match Classifier.classify final_result with
        | Classifier.Authenticated =>
            session_data_ <- persist_session_step env business_id persist_session ;;
            tasks_update task_id (success_update env business_id task_id session_data_)
        | Classifier.Rejected error_code_ error_message_ =>
            tasks_update task_id
              (failure_update env business_id task_id error_code_ error_message_ final_result)
        end)
       (tasks_update task_id (timeout_update env)))
    (fun e => tasks_update task_id (exception_update env e)).

(** [google_auth]: create the task, fill in the session options and
    schedule the executor; the scheduled run is the value. *)
Definition google_auth (task_id : string) (now : Z) (env : auth_env)
           (business_id : string) (persist_session : option bool) : M (string * M unit) :=
  id <- create_task task_id now ;;
  let persist_session_ := Some (default true persist_session) in
  ret (id, perform_google_auth env id business_id persist_session_).

(** Running an operation from a state. *)
Definition run {A} (m : M A) (w : world) : (exn + A) * world := m w.

(** A process that has just started on an empty session directory. *)
Definition empty_world : world :=
  {| tasks := ∅;
     browser_sessions := ∅;
     session_files := ∅;
     browser_user_agent := None;
     task_writes := [] |}.

(** The browser_sessions dictionary of a fresh process over the same
    disk. *)
Definition restart (w : world) : world := set_browser_sessions (fun _ => ∅) w.

(* ===================================================================== *)
(** * Specification vocabulary and sample inputs *)
(* ===================================================================== *)

(** A task is due for removal: it is terminal and its completion lies
    strictly more than the retention window before [now]. *)
Definition expired (now : Z) (t : task) : Prop :=
  task_status t <> pending /\
  exists finished, completed_at t = Some finished /\ task_cleanup_time < now - finished.

(** A task that reached the status [st] at the instant [finished]. *)
Definition finished_task (st : status) (finished : Z) : task :=
  {| task_status := st;
     created_at := 0;
     completed_at := Some finished;
     task_result := None;
     message := None |}.

(** The dictionary [session_data] that [save_browser_session] builds. *)
Definition saved_record (now : Z) (w : world) (cookies_ : list cookie)
           (local_storage_ session_storage_ metadata_ : option (gmap string string))
  : session_data :=
  {| cookies := cookies_;
     local_storage := or_empty local_storage_;
     session_storage := or_empty session_storage_;
     last_updated := Some (isoformat now);
     user_agent := browser_user_agent w;
     metadata := or_empty metadata_ |}.

(** The record built by the [try] body of [extract_browser_session] when
    the cookie query answers [cs]. *)
Definition extracted_record (now : Z) (ctx : browsing_context) (w : world)
           (cs : list cookie) : session_data :=
  {| cookies := cs;
     local_storage :=
       match evaluate_local_storage ctx with inr m => m | inl _ => ∅ end;
     session_storage :=
       match evaluate_session_storage ctx with inr m => m | inl _ => ∅ end;
     last_updated := Some (isoformat now);
     user_agent := browser_user_agent w;
     metadata := ∅ |}.

(** The value of [extract_browser_session]. *)
Definition extraction (now : Z) (ctx : browsing_context) (w : world) : session_data :=
  match context_cookies ctx with
  | inr cs => extracted_record now ctx w cs
  | inl _ => extract_fallback
  end.

(** A browser whose cookie query raises. *)
Definition cookies_unavailable : browsing_context :=
  {| context_cookies := inl (Exception "Target page, context or browser has been closed");
     evaluate_local_storage := inr ∅;
     evaluate_session_storage := inr ∅ |}.

(** Two sample cookies. *)
Definition sid_cookie : cookie :=
  {| cookie_name := "SID"; cookie_value := "abc";
     cookie_domain := ".google.com"; cookie_path := "/" |}.

Definition hsid_cookie : cookie :=
  {| cookie_name := "HSID"; cookie_value := "def";
     cookie_domain := ".google.com"; cookie_path := "/" |}.

(** A process with one session in memory, saved at [stamp]. *)
Definition week_old_world (stamp : Z) : world :=
  set_browser_sessions
    (insert "biz-1" (saved_record stamp empty_world [sid_cookie] None None None))
    empty_world.

(** The state after lines 725-749. *)
Definition after_persist (env : auth_env) (business_id : string)
           (persist_session : option bool) (w : world) : world :=
  let d := extraction (extracted_at env) (agent_context env) w in
  if (default true persist_session && negb (bool_decide (cookies d = [])))%bool
  then snd (save_browser_session (saved_at env) (disk_write env) business_id
              (cookies d) (Some (local_storage d)) (Some (session_storage d)) None w)
  else w.

(** The course of one run, read off the environment in the order of the
    events: a statement before the [try] raises; or a step of the set-up
    raises; or the agent raises, runs into the deadline or returns no text;
    or a step between the run and the classification raises; or the text
    reaches the classifier. *)
Inductive job_course :=
| AbortedBeforeTry (msg : string)
| Classified (final_result : string)
| DeadlineElapsed
| UnexpectedException (msg : string).

(** The course that the environment [env] leads to. *)
Definition course_of (env : auth_env) : job_course :=
  match prologue env with
  | Some msg => AbortedBeforeTry msg
  | None =>
      match makedirs_task env, agent_created env with
      | Some msg, _ => UnexpectedException msg
      | None, Some msg => UnexpectedException msg
      | None, None =>
          match agent_run env with
          | TimesOut => DeadlineElapsed
          | Raises msg => UnexpectedException msg
          | Returns None => UnexpectedException "'NoneType' object is not subscriptable"
          | Returns (Some text) =>
              match makedirs_final env, final_screenshot env with
              | Some msg, _ => UnexpectedException msg
              | None, Some msg => UnexpectedException msg
              | None, None => Classified text
              end
          end
      end
  end.

(** The terminal write that belongs to a course.  A run that is aborted
    before the [try] writes nothing; the value given for it is used by no
    statement about such a run. *)
Definition terminal_write (env : auth_env) (task_id business_id : string)
           (w : world) : task_update :=
  match course_of env with
  | AbortedBeforeTry msg => exception_update env (Exception msg)
  | Classified text =>
      match Classifier.classify text with
      | Classifier.Authenticated =>
          success_update env business_id task_id
            (Some (extraction (extracted_at env) (agent_context env) w))
      | Classifier.Rejected c m => failure_update env business_id task_id c m text
      end
  | DeadlineElapsed => timeout_update env
  | UnexpectedException msg => exception_update env (Exception msg)
  end.

(** The state in which the terminal write happens. *)
Definition before_write (env : auth_env) (business_id : string)
           (persist_session : option bool) (w : world) : world :=
  match course_of env with
  | Classified text =>
      match Classifier.classify text with
      | Classifier.Authenticated => after_persist env business_id persist_session w
      | Classifier.Rejected _ _ => w
      end
  | _ => w
  end.

(** The success flag of a verdict. *)
Definition is_authenticated (v : Classifier.verdict) : bool :=
  match v with
  | Classifier.Authenticated => true
  | Classifier.Rejected _ _ => false
  end.

(** A browser that answers every query; it holds the two sample cookies. *)
Definition quiet_context : browsing_context :=
  {| context_cookies := inr [sid_cookie; hsid_cookie];
     evaluate_local_storage := inr ∅;
     evaluate_session_storage := inr ∅ |}.

(** An environment in which every step succeeds and the agent returns
    [text] 40 seconds after the start. *)
Definition smooth_env (text : string) : auth_env :=
  {| prologue := None;
     makedirs_task := None;
     agent_created := None;
     agent_run := Returns (Some text);
     makedirs_final := None;
     final_screenshot := None;
     agent_context := quiet_context;
     extracted_at := seconds 40;
     disk_write := Written;
     saved_at := seconds 40;
     finished_at := seconds 40 |}.

(** [env] with another end of the agent run. *)
Definition with_run (o : run_outcome) (env : auth_env) : auth_env :=
  {| prologue := prologue env;
     makedirs_task := makedirs_task env;
     agent_created := agent_created env;
     agent_run := o;
     makedirs_final := makedirs_final env;
     final_screenshot := final_screenshot env;
     agent_context := agent_context env;
     extracted_at := extracted_at env;
     disk_write := disk_write env;
     saved_at := saved_at env;
     finished_at := finished_at env |}.

(** A fresh process in which the task [task-1] was submitted at time 0. *)
Definition submitted_world : world :=
  snd (run (create_task "task-1" 0) empty_world).

(** [env] with another behaviour of the disk. *)
Definition with_disk (o : write_outcome) (env : auth_env) : auth_env :=
  {| prologue := prologue env;
     makedirs_task := makedirs_task env;
     agent_created := agent_created env;
     agent_run := agent_run env;
     makedirs_final := makedirs_final env;
     final_screenshot := final_screenshot env;
     agent_context := agent_context env;
     extracted_at := extracted_at env;
     disk_write := o;
     saved_at := saved_at env;
     finished_at := finished_at env |}.

(** ... and then terminated at second 5, while pending. *)
Definition terminated_world : world :=
  snd (run (terminate_task (seconds 5) "task-1") submitted_world).

(** [env] with another end of the statements before the [try]. *)
Definition with_prologue (o : option string) (env : auth_env) : auth_env :=
  {| prologue := o;
     makedirs_task := makedirs_task env;
     agent_created := agent_created env;
     agent_run := agent_run env;
     makedirs_final := makedirs_final env;
     final_screenshot := final_screenshot env;
     agent_context := agent_context env;
     extracted_at := extracted_at env;
     disk_write := disk_write env;
     saved_at := saved_at env;
     finished_at := finished_at env |}.

(** ... and then, two hours after the submission, some task is polled:
    the sweep of the poll removes the terminated task. *)
Definition swept_world : world :=
  snd (run (get_task_status (hours 2) "task-2") terminated_world).

(** An environment in which every step succeeds and the agent returns
    [text] two hours and thirty seconds after the start (the request asked
    for a timeout of three hours). *)
Definition slow_env (text : string) : auth_env :=
  {| prologue := None;
     makedirs_task := None;
     agent_created := None;
     agent_run := Returns (Some text);
     makedirs_final := None;
     final_screenshot := None;
     agent_context := quiet_context;
     extracted_at := hours 2 + seconds 30;
     disk_write := Written;
     saved_at := hours 2 + seconds 30;
     finished_at := hours 2 + seconds 30 |}.

(** The record that the termination leaves. *)
Definition terminated_record : task :=
  {| task_status := failed;
     created_at := 0;
     completed_at := Some (seconds 5);
     task_result := Some (upd_result (terminated_update (seconds 5)));
     message := Some "Task terminated by user" |}.

(** The record after the executor's late success write. *)
Definition overwritten_record : task :=
  {| task_status := completed;
     created_at := 0;
     completed_at := Some (seconds 40);
     task_result :=
       Some {| success := true;
               error := None;
               error_code := None;
               result_message := Some "Successfully authenticated with Google";
               screenshot := Some "screenshots/biz-1/task-1/final_state.png";
               screenshots_dir := Some "screenshots/biz-1/task-1";
               session_saved := Some true;
               cookies_count := Some 2%nat;
               details := None |};
     message := Some "Task terminated by user" |}.

(* ===================================================================== *)
(** * Further operations of the server *)
(* ===================================================================== *)

(** ** More Python string primitives *)

Module PyText.

(** [c.isspace()] on one ASCII character: tab, line feed, vertical tab,
    form feed, carriage return, the four separators 28-31 and the space. *)
Definition is_space (c : ascii) : bool :=
  let n := nat_of_ascii c in
  (((9 <=? n)%nat && (n <=? 13)%nat) || ((28 <=? n)%nat && (n <=? 32)%nat))%bool.

Definition is_digit (c : ascii) : bool :=
  let n := nat_of_ascii c in
  ((48 <=? n)%nat && (n <=? 57)%nat)%bool.

Definition is_empty (s : string) : bool :=
  match s with
  | EmptyString => true
  | String _ _ => false
  end.

(** [s.lstrip()] *)
Fixpoint lstrip (s : string) : string :=
  match s with
  | EmptyString => EmptyString
  | String c s' => if is_space c then lstrip s' else s
  end.

(** [s.rstrip()] *)
Fixpoint rstrip (s : string) : string :=
  match s with
  | EmptyString => EmptyString
  | String c s' =>
      let r := rstrip s' in
      if (is_space c && is_empty r)%bool then EmptyString else String c r
  end.

(** [s.strip()] *)
Definition strip (s : string) : string := rstrip (lstrip s).

(** [s.split(sep)] for a non-empty [sep], read from left to right; [skip]
    counts the characters of a separator that are still to be passed.  The
    head of the result is the field under construction. *)
Fixpoint split_from (sep : string) (skip : nat) (s : string) : list string :=
  match s with
  | EmptyString => [EmptyString]
  | String c s' =>
      match skip with
      | S k => split_from sep k s'
      | O =>
          if String.prefix sep s
          then EmptyString :: split_from sep (String.length sep - 1) s'
          else match split_from sep 0 s' with
               | field :: fields => String c field :: fields
               | [] => [String c EmptyString]
               end
      end
  end.

Definition split (sep s : string) : list string := split_from sep 0 s.

(** [l[i]] where the index is known to exist. *)
Definition item (i : nat) (l : list string) : string := nth i l EmptyString.

(** [s.isdigit()] on ASCII text *)
Fixpoint all_digits (s : string) : bool :=
  match s with
  | EmptyString => true
  | String c s' => (is_digit c && all_digits s')%bool
  end.

Definition isdigit (s : string) : bool := (negb (is_empty s) && all_digits s)%bool.

(** The number that a string of decimal digits denotes. *)
Fixpoint int_from (acc : nat) (s : string) : nat :=
  match s with
  | EmptyString => acc
  | String c s' => int_from (10 * acc + (nat_of_ascii c - 48)) s'
  end.

Definition decimal (s : string) : nat := int_from 0 s.

(** [sys.int_info.default_max_str_digits] *)
Definition int_max_str_digits : nat := 4300.

(** [int(s)] for a string of decimal digits, as of Python 3.11 (and the
    security releases of 3.7 to 3.10): [ValueError] when the string has
    more digits than the limit. *)
Definition int (s : string) : exn + nat :=
  if (String.length s <=? int_max_str_digits)%nat then inr (decimal s)
  else inl (Exception "Exceeds the limit (4300 digits) for integer string conversion").

Definition newline : string := String (ascii_of_nat 10) EmptyString.

(** [message.split("\n")[0] if "\n" in message else message] *)
Definition first_line (message : string) : string :=
  if PyStr.contains message newline
  then item 0 (split newline message)
  else message.

End PyText.

(** ** The progress callback (lines 496-529) *)

(** The keys of the dictionary [tracking] that [track_progress_callback]
    writes.  "success_detected" is only ever set to [True]; [false] stands
    for the absent key. *)
Record tracking := {
  steps_completed : list (Z * string);
  progress_percent : option nat;
  success_detected : bool;
  success_message : option string
}.

Definition tracker_success_phrases : list string :=
  [ "successfully logged in"; "login successful"; "logged in successfully";
    "reached google account" ].

(** [min(90, n * 8)] for [n = int(step_num)] *)
Definition step_percent (n : nat) : nat := Nat.min 90 (n * 8).

(** The [if "PROGRESS:" in message:] block: the trace it leaves, and
    whether it ended or raised (the step is appended before [int] is
    called). *)
Definition track_progress (now : Z) (message : string) (tr : tracking)
  : (exn + unit) * tracking :=
  if PyStr.contains message "PROGRESS:" then
    let progress_line :=
      PyText.item 0
        (PyText.split PyText.newline
           (PyText.strip (PyText.item 1 (PyText.split "PROGRESS:" message)))) in
    let tr1 :=
      {| steps_completed := steps_completed tr ++ [(now, progress_line)];
         progress_percent := progress_percent tr;
         success_detected := success_detected tr;
         success_message := success_message tr |} in
    if (PyStr.contains progress_line "Step " &&
        PyStr.contains progress_line " completed")%bool
    then
      let step_num :=
        PyText.item 0
          (PyText.split " " (PyText.item 1 (PyText.split "Step " progress_line))) in
      if PyText.isdigit step_num then
        match PyText.int step_num with
        | inr n =>
            (inr tt,
             {| steps_completed := steps_completed tr1;
                progress_percent := Some (step_percent n);
                success_detected := success_detected tr1;
                success_message := success_message tr1 |})
        | inl e => (inl e, tr1)
        end
      else (inr tt, tr1)
    else (inr tt, tr1)
  else (inr tt, tr).

(** The [success_phrases] block. *)
Definition track_success (message : string) (tr : tracking) : tracking :=
  if PyStr.any_in tracker_success_phrases (PyStr.lower message) then
    {| steps_completed := steps_completed tr;
       progress_percent := progress_percent tr;
       success_detected := true;
       success_message := Some (PyText.first_line message) |}
  else tr.

(** [track_progress_callback]; the block on error phrases only logs.  When
    the first block raises, the handler of the outer [try] logs the
    exception and the rest of the callback is skipped.  With ASCII text the
    only step that can raise is [int]: the indexings are guarded by the
    [in] tests. *)
Definition track_progress_callback (now : Z) (message : string) (tr : tracking)
  : tracking :=
  match track_progress now message tr with
  | (inr _, tr1) => track_success message tr1
  | (inl _, tr1) => tr1
  end.

Definition empty_tracking : tracking :=
  {| steps_completed := [];
     progress_percent := None;
     success_detected := false;
     success_message := None |}.

(** ** Applying a session to a browser (lines 215-250) *)

(** What a browser instance does when a session is applied to it: whether
    it has a [page] and the page an [evaluate], which cookies
    [page.context.add_cookies] refuses and which scripts [page.evaluate]
    refuses (by raising). *)
Record browser_instance := {
  has_page : bool;
  page_has_evaluate : bool;
  add_cookies_raises : cookie -> bool;
  evaluate_raises : string -> bool
}.

(** The calls that a browser accepted, oldest first. *)
Record browser_effects := {
  cookies_added : list cookie;
  scripts_evaluated : list string
}.

Definition no_effects : browser_effects :=
  {| cookies_added := []; scripts_evaluated := [] |}.

(** [f"localStorage.setItem('{key}', '{value}')"] and its sessionStorage
    twin. *)
Definition set_item_script (storage key value : string) : string :=
  storage +:+ ".setItem('" +:+ key +:+ "', '" +:+ value +:+ "')".

(** One turn of the cookie loop: [add_cookies([cookie])] inside its own
    [try]; without a [page] the attribute access raises. *)
Definition add_cookie (b : browser_instance) (fx : browser_effects) (c : cookie)
  : browser_effects :=
  if (negb (has_page b) || add_cookies_raises b c)%bool then fx
  else {| cookies_added := cookies_added fx ++ [c];
          scripts_evaluated := scripts_evaluated fx |}.

(** One turn of a storage loop. *)
Definition set_item (b : browser_instance) (storage : string)
           (fx : browser_effects) (kv : string * string) : browser_effects :=
  let script := set_item_script storage (fst kv) (snd kv) in
  if evaluate_raises b script then fx
  else {| cookies_added := cookies_added fx;
          scripts_evaluated := scripts_evaluated fx ++ [script] |}.

(** A storage block: skipped when the dictionary is empty or the browser
    has no [page.evaluate]. *)
Definition apply_storage (b : browser_instance) (storage : string)
           (items : gmap string string) (fx : browser_effects) : browser_effects :=
  if (negb (bool_decide (items = ∅)) && has_page b && page_has_evaluate b)%bool
  then fold_left (set_item b storage) (map_to_list items) fx
  else fx.

(** [apply_session_to_browser]: the value and the calls made. *)
Definition apply_session_to_browser (b : browser_instance)
           (session_data_ : option session_data) (fx : browser_effects)
  : bool * browser_effects :=
  match session_data_ with
  | None => (false, fx)
  | Some s =>
      if bool_decide (cookies s = []) then (false, fx)
      else
        let fx1 := fold_left (add_cookie b) (cookies s) fx in
        let fx2 := apply_storage b "localStorage" (local_storage s) fx1 in
        let fx3 := apply_storage b "sessionStorage" (session_storage s) fx2 in
        (true, fx3)
  end.

(** ** Session validation (lines 963-1068) *)

(** What the outside world does during one call of [validate_session]. *)
Record validate_env := {
  x_session_id : option string;               (* the X-Session-ID header *)
  validation_agent_created : option string;   (* line 989 *)
  validation_browser : browser_instance;      (* line 995 *)
  validation_run : run_outcome;               (* line 1004, timeout 30 *)
  validation_makedirs : option string;        (* line 1018 *)
  validation_timestamp : string;              (* line 1019 *)
  validation_screenshot : option string;      (* line 1021 *)
  validation_context : browsing_context;      (* line 1025 *)
  validation_extracted_at : Z;
  first_disk_write : write_outcome;           (* line 1029 *)
  first_saved_at : Z;
  second_disk_write : write_outcome;          (* line 1043 *)
  second_saved_at : Z
}.

(** The response of [validate_session]. *)
Record validation := {
  valid : bool;
  validation_message : string;
  validation_screenshot_path : option string;
  validation_error : option string
}.

Definition logged_in_indicators : list string :=
  [ "logged in"; "google account"; "personal info"; "you're signed in";
    "welcome to your account" ].

(** [validation_result.final_result().lower()] after the awaited run. *)
Definition validation_text (env : validate_env) : M string :=
  match validation_run env with
  | Returns (Some text) => ret (PyStr.lower text)
  | Returns None => raise (Exception "'NoneType' object has no attribute 'lower'")
  | TimesOut => raise TimeoutError
  | Raises msg => raise (Exception msg)
  end.

(** Lines 1025-1049: re-extract the session and save it, a second time
    with the metadata when the header is a non-empty string. *)
Definition refresh_session (env : validate_env) (business_id : string) : M unit :=
  updated_session <-
    extract_browser_session (validation_extracted_at env) (validation_context env) ;;
  if bool_decide (cookies updated_session = []) then ret tt
  else
    save_browser_session (first_saved_at env) (first_disk_write env) business_id
      (cookies updated_session) (Some (local_storage updated_session))
      (Some (session_storage updated_session)) None ;;;
    match x_session_id env with
    | Some (String c rest) =>
        save_browser_session (second_saved_at env) (second_disk_write env) business_id
          (cookies updated_session) (Some (local_storage updated_session))
          (Some (session_storage updated_session))
          (Some {[ "associated_session_id" := String c rest ]}) ;;;
        ret tt
    | _ => ret tt
    end.

(** [validate_session]; the session ids of the header and of the request
    cookies are only logged.  The calls that applying the session makes
    on the browser are not part of the process state: only the value of
    [apply_session_to_browser] is used. *)
Definition validate_session (env : validate_env) (business_id : string)
  : M validation :=
  try_except
    (session <- load_browser_session business_id ;;
     match session with
     | None =>
         ret {| valid := false;
                validation_message := "No session found for this business";
                validation_screenshot_path := None;
                validation_error := None |}
     | Some s =>
         raise_if (validation_agent_created env) ;;;
         if negb (fst (apply_session_to_browser (validation_browser env) (Some s)
                         no_effects))
         then
           ret {| valid := false;
                  validation_message := "Failed to apply session to browser";
                  validation_screenshot_path := None;
                  validation_error := None |}
         else
           final_text <- validation_text env ;;
           let is_logged_in := PyStr.any_in logged_in_indicators final_text in
           raise_if (validation_makedirs env) ;;;
           let screenshot_path :=
             "screenshots/session_validation/" +:+ business_id +:+ "_" +:+
             validation_timestamp env +:+ ".png" in
           raise_if (validation_screenshot env) ;;;
           if is_logged_in then
             refresh_session env business_id ;;;
             ret {| valid := true;
                    validation_message := "Session is valid and working";
                    validation_screenshot_path := Some screenshot_path;
                    validation_error := None |}
           else
             ret {| valid := false;
                    validation_message := "Session is not valid (not logged in)";
                    validation_screenshot_path := Some screenshot_path;
                    validation_error := None |}
     end)
    (fun e =>
       ret {| valid := false;
              validation_message := "Error validating session";
              validation_screenshot_path := None;
              validation_error := Some (str_exn e) |}).

(** ** The life of the process *)

(** What can happen to the process: the endpoints, the background run of
    a job, and a restart (the dictionaries are lost, the files stay). *)
Inductive event :=
| Submit (task_id : string) (now : Z)
| Execute (env : auth_env) (task_id business_id : string) (persist_session : option bool)
| Poll (now : Z) (task_id : string)
| Terminate (now : Z) (task_id : string)
| CheckSession (now : Z) (business_id : string)
| ValidateSession (env : validate_env) (business_id : string)
| Restart.

Definition handle (e : event) (w : world) : world :=
  match e with
  | Submit task_id now => snd (run (create_task task_id now) w)
  | Execute env task_id business_id persist_session =>
      snd (run (perform_google_auth env task_id business_id persist_session) w)
  | Poll now task_id => snd (run (get_task_status now task_id) w)
  | Terminate now task_id => snd (run (terminate_task now task_id) w)
  | CheckSession now business_id => snd (run (check_session now business_id) w)
  | ValidateSession env business_id => snd (run (validate_session env business_id) w)
  | Restart => set_tasks (fun _ => ∅) (restart w)
  end.

Inductive reachable : world -> Prop :=
| reachable_start (ua : option string) :
    reachable {| tasks := ∅; browser_sessions := ∅; session_files := ∅;
                 browser_user_agent := ua; task_writes := [] |}
| reachable_step (e : event) (w : world) :
    reachable w -> reachable (handle e w).

(** The three keys that every write to a task sets are consistent: a
    pending task has neither completion time nor result; a terminal task
    has both, [failed] goes with an unsuccessful result coded TIMEOUT,
    AUTH_ERROR or TERMINATED, and [completed] with a success or one of the
    classifier's codes. *)
Definition task_consistent (t : task) : Prop :=
  match task_status t with
  | pending => completed_at t = None /\ task_result t = None
  | failed =>
      exists finished r,
        completed_at t = Some finished /\ task_result t = Some r /\
        success r = false /\
        exists c, error_code r = Some c /\ In c ["TIMEOUT"; "AUTH_ERROR"; "TERMINATED"]
  | completed =>
      exists finished r,
        completed_at t = Some finished /\ task_result t = Some r /\
        ((success r = true /\ error_code r = None /\ session_saved r = Some true) \/
         (success r = false /\
          exists c, error_code r = Some c /\
                    In c [ "LOGIN_FAILED"; "WRONG_PASSWORD"; "EMAIL_NOT_FOUND";
                           "SUSPICIOUS_ACTIVITY"; "VERIFICATION_REQUIRED";
                           "TWO_FACTOR_REQUIRED"; "ACCOUNT_DISABLED";
                           "TOO_MANY_ATTEMPTS"; "CAPTCHA_CHALLENGE" ]))
  end.

(** A stored session as the endpoints leave it: at least one cookie and a
    timestamp that parses. *)
Definition session_usable (d : session_data) : Prop :=
  cookies d <> [] /\ exists t, last_updated d = Some (isoformat t).

Definition sessions_usable (w : world) : Prop :=
  (forall k d, browser_sessions w !! k = Some d -> session_usable d) /\
  (forall path d, session_files w !! path = Some (Pickled d) -> session_usable d).

(** The character [c0] does not occur in [s]. *)
Fixpoint avoids (c0 : ascii) (s : string) : bool :=
  match s with
  | EmptyString => true
  | String c s' => (negb (Ascii.eqb c c0) && avoids c0 s')%bool
  end.

(** The last character of [s] exists and is no white space. *)
Fixpoint ends_unspaced (s : string) : bool :=
  match s with
  | EmptyString => false
  | String c EmptyString => negb (PyText.is_space c)
  | String _ s' => ends_unspaced s'
  end.

(** The cookies that a browser accepts. *)
Definition accepts_cookie (b : browser_instance) (c : cookie) : bool :=
  (has_page b && negb (add_cookies_raises b c))%bool.

(** An operation keeps a property of the process state, whether it
    returns or raises. *)
Definition keeps {A} (P : world -> Prop) (m : M A) : Prop :=
  forall w, P w -> P (snd (m w)).

(** The tasks and the log of task writes are the given ones. *)
Definition tasks_are (ts : gmap string task) (log : list (string * task_update))
           (w : world) : Prop :=
  tasks w = ts /\ task_writes w = log.

Definition tasks_consistent (w : world) : Prop :=
  forall task_id t, tasks w !! task_id = Some t -> task_consistent t.

(** A sample history: a job is submitted, terminated, and then finishes
    with a success text and persists its session; the process restarts. *)
Definition sample_history : world :=
  handle Restart
    (handle (Execute (smooth_env "Login successful.") "task-1" "biz-1" None)
       (handle (Terminate (seconds 5) "task-1")
          (handle (Submit "task-2" (seconds 1))
             (handle (Submit "task-1" 0) empty_world)))).

Definition sample_running : world :=
  handle (Execute (smooth_env "Login successful.") "task-1" "biz-1" None)
    (handle (Terminate (seconds 5) "task-1")
       (handle (Submit "task-2" (seconds 1))
          (handle (Submit "task-1" 0) empty_world))).

(** A browser that accepts everything; one without a page; one that
    refuses the cookie named HSID. *)
Definition willing_browser : browser_instance :=
  {| has_page := true; page_has_evaluate := true;
     add_cookies_raises := fun _ => false; evaluate_raises := fun _ => false |}.

Definition picky_browser : browser_instance :=
  {| has_page := true; page_has_evaluate := true;
     add_cookies_raises := fun c => String.eqb (cookie_name c) "HSID";
     evaluate_raises := fun _ => false |}.

(** A validation in which every step succeeds, the agent answers [text]
    and the request carries the header value [header]. *)
Definition smooth_validation (text : string) (header : option string) : validate_env :=
  {| x_session_id := header;
     validation_agent_created := None;
     validation_browser := willing_browser;
     validation_run := Returns (Some text);
     validation_makedirs := None;
     validation_timestamp := "20240101_120000";
     validation_screenshot := None;
     validation_context := quiet_context;
     validation_extracted_at := days 2;
     first_disk_write := Written;
     first_saved_at := days 2;
     second_disk_write := Written;
     second_saved_at := days 2 + seconds 1 |}.

(* ===================================================================== *)
(** * Properties *)
(* ===================================================================== *)

(** ** Strings *)

Lemma append_nil_l (s : string) : "" +:+ s = s.
Proof. reflexivity. Qed.

Lemma append_cons (c : ascii) (s1 s2 : string) :
  String c s1 +:+ s2 = String c (s1 +:+ s2).
Proof. reflexivity. Qed.

Lemma prefix_iff_append (p s : string) :
  String.prefix p s = true <-> exists rest, s = p +:+ rest.
Proof.
  revert s. induction p as [|a p IH]; intros s.
  - split; [intros _; exists s; reflexivity | intros _; destruct s; reflexivity].
  - destruct s as [|b s]; simpl.
    + split; [discriminate | intros [rest H]; rewrite append_cons in H; discriminate].
    + destruct (Ascii.ascii_dec a b) as [->|Hne].
      * rewrite IH. split; intros [rest H]; exists rest;
          rewrite append_cons in *; congruence.
      * split; [discriminate | intros [rest H]; rewrite append_cons in H; congruence].
Qed.

Lemma contains_nil (p : string) :
  PyStr.contains "" p = String.prefix p "".
Proof. reflexivity. Qed.

Lemma contains_cons (c : ascii) (s p : string) :
  PyStr.contains (String c s) p =
  (String.prefix p (String c s) || PyStr.contains s p)%bool.
Proof. reflexivity. Qed.

(** [contains s p] is Python's [p in s]: [p] occurs somewhere in [s]. *)
Lemma contains_iff_occurs (s p : string) :
  PyStr.contains s p = true <-> exists before after, s = before +:+ p +:+ after.
Proof.
  induction s as [|c s IH].
  - rewrite contains_nil, prefix_iff_append. split.
    + intros [rest H]. exists "", rest. exact H.
    + intros [before [after H]]. destruct before.
      * exists after. exact H.
      * rewrite append_cons in H. discriminate.
  - rewrite contains_cons, orb_true_iff, IH, prefix_iff_append. split.
    + intros [[rest H] | [before [after H]]].
      * exists "", rest. exact H.
      * exists (String c before), after. rewrite append_cons. congruence.
    + intros [before [after H]]. destruct before as [|b before].
      * left. exists after. exact H.
      * right. exists before, after. rewrite append_cons in H. congruence.
Qed.

Lemma any_in_true_iff (phrases : list string) (s : string) :
  PyStr.any_in phrases s = true <->
  exists p, In p phrases /\ PyStr.contains s p = true.
Proof. unfold PyStr.any_in. apply existsb_exists. Qed.

Example title_wrong_password :
  PyStr.title (PyStr.replace_char "_" " " "WRONG_PASSWORD") = "Wrong Password".
Proof. reflexivity. Qed.

Example title_two_factor :
  PyStr.title (PyStr.replace_char "_" " " "TWO_FACTOR_REQUIRED") = "Two Factor Required".
Proof. reflexivity. Qed.

(** ** The outcome classifier *)

Section ClassifierFacts.
Import PyStr Classifier.

Lemma scan_failures_skips before items low :
  (forall c ps, In (c, ps) before -> any_in ps low = false) ->
  scan_failures (before ++ items) low = scan_failures items low.
Proof.
  induction before as [|[c ps] before IH]; intros Hnone; simpl.
  - reflexivity.
  - rewrite (Hnone c ps) by (left; reflexivity).
    apply IH. intros c' ps' Hin. apply (Hnone c' ps'). right. exact Hin.
Qed.

Lemma scan_failures_hit code phrases rest low :
  any_in phrases low = true ->
  scan_failures ((code, phrases) :: rest) low =
  (code, "Authentication failed: " +:+ title (replace_char "_" " " code)).
Proof. intros H. simpl. rewrite H. reflexivity. Qed.

Lemma scan_failures_default items low :
  (forall c ps, In (c, ps) items -> any_in ps low = false) ->
  scan_failures items low = ("LOGIN_FAILED", "Failed to log in to Google").
Proof.
  intros H. rewrite <- (app_nil_r items). rewrite scan_failures_skips by exact H.
  reflexivity.
Qed.

(** The order of the table is the order of the dictionary literal. *)
Lemma failure_indicators_order :
  List.map fst failure_indicators =
  [ "WRONG_PASSWORD"; "EMAIL_NOT_FOUND"; "SUSPICIOUS_ACTIVITY";
    "VERIFICATION_REQUIRED"; "TWO_FACTOR_REQUIRED"; "ACCOUNT_DISABLED";
    "TOO_MANY_ATTEMPTS"; "CAPTCHA_CHALLENGE" ].
Proof. reflexivity. Qed.

Example classify_plain_failure :
  classify "Could not log in." = Rejected "LOGIN_FAILED" "Failed to log in to Google".
Proof. vm_compute. reflexivity. Qed.

Example classify_empty_text :
  classify "" = Rejected "LOGIN_FAILED" "Failed to log in to Google".
Proof. vm_compute. reflexivity. Qed.

Example classify_captcha_only :
  classify "Blocked by a reCAPTCHA." =
  Rejected "CAPTCHA_CHALLENGE" "Authentication failed: Captcha Challenge".
Proof. vm_compute. reflexivity. Qed.

Example classify_captcha_then_password :
  classify "A CAPTCHA appeared, and then: Wrong password." =
  Rejected "WRONG_PASSWORD" "Authentication failed: Wrong Password".
Proof. vm_compute. reflexivity. Qed.

Example classify_success_with_error_word :
  classify "Successfully logged in after one error page." = Authenticated.
Proof. vm_compute. reflexivity. Qed.

End ClassifierFacts.

(** C3. First match wins over the ordered failure table: when the
    lower-cased text contains no success phrase, the pair [(code, phrases)]
    of the table has a phrase in the text and no pair listed before it has
    one, the classifier returns [code], whatever the pairs listed after it
    contain. *)
Theorem classifier_first_match_wins
        (text : string) (before after : list (string * list string))
        (code : string) (phrases : list string) :
  Classifier.failure_indicators = (before ++ (code, phrases) :: after)%list ->
  PyStr.any_in Classifier.success_indicators (PyStr.lower text) = false ->
  (forall c ps, In (c, ps) before -> PyStr.any_in ps (PyStr.lower text) = false) ->
  PyStr.any_in phrases (PyStr.lower text) = true ->
  Classifier.classify text =
  Classifier.Rejected code
    ("Authentication failed: " +:+ PyStr.title (PyStr.replace_char "_" " " code)).
Proof.
  intros Htable Hsuccess Hbefore Hhit.
  unfold Classifier.classify, Classifier.classify_lower.
  rewrite Hsuccess, Htable.
  rewrite scan_failures_skips by exact Hbefore.
  rewrite scan_failures_hit by exact Hhit.
  reflexivity.
Qed.

(** Text with both "captcha" and "wrong password" is WRONG_PASSWORD. *)
Lemma classifier_first_match_wins_witness :
  Classifier.classify "A CAPTCHA appeared, and then: Wrong password." =
  Classifier.Rejected "WRONG_PASSWORD" "Authentication failed: Wrong Password".
Proof.
  apply (classifier_first_match_wins
           "A CAPTCHA appeared, and then: Wrong password."
           [] (List.tl Classifier.failure_indicators)
           "WRONG_PASSWORD"
           [ "password is incorrect"; "wrong password"; "password was incorrect";
             "your password was incorrect"; "check your password" ]).
  - reflexivity.
  - vm_compute. reflexivity.
  - intros c ps H. destruct H.
  - vm_compute. reflexivity.
Defined.

(** C4. A success phrase in the lower-cased text decides the verdict:
    the classifier returns success whatever else the text contains. *)
Theorem classifier_success_precedence (text phrase : string) :
  In phrase Classifier.success_indicators ->
  PyStr.contains (PyStr.lower text) phrase = true ->
  Classifier.classify text = Classifier.Authenticated.
Proof.
  intros Hin Hcontains.
  unfold Classifier.classify, Classifier.classify_lower.
  assert (PyStr.any_in Classifier.success_indicators (PyStr.lower text) = true) as ->.
  { apply any_in_true_iff. exists phrase. split; assumption. }
  reflexivity.
Qed.

Lemma classifier_success_precedence_witness :
  PyStr.contains (PyStr.lower "Error page shown, then successfully logged in; wrong password earlier.")
                 "error" = true /\
  Classifier.classify "Error page shown, then successfully logged in; wrong password earlier." =
  Classifier.Authenticated.
Proof.
  split.
  - vm_compute. reflexivity.
  - apply (classifier_success_precedence _ "successfully logged in").
    + simpl. left. reflexivity.
    + vm_compute. reflexivity.
Defined.

(** ** Task storage *)

Lemma cleanup_selects_iff (now : Z) (t : task) :
  cleanup_selects now t = true <-> expired now t.
Proof.
  unfold cleanup_selects, expired.
  destruct (task_status t), (completed_at t) as [finished|];
    rewrite ?Z.gtb_ltb, ?Z.ltb_lt; split;
    try (intros [H _]; congruence); try discriminate;
    try (intros [_ [x [Hx _]]]; discriminate).
  all: try (intros H; split; [discriminate | exists finished; split; [reflexivity | exact H]]).
  all: intros [_ [x [Hx Hlt]]]; injection Hx as ->; exact Hlt.
Qed.

Lemma lookup_fold_delete (ids : list string) (ts : gmap string task) (k : string) :
  fold_left (fun acc task_id => delete task_id acc) ids ts !! k =
  if decide (k ∈ ids) then None else ts !! k.
Proof.
  revert ts. induction ids as [|i ids IH]; intros ts; simpl.
  - destruct (decide (k ∈ [])) as [Hin|_]; [| reflexivity].
    apply elem_of_nil in Hin. destruct Hin.
  - rewrite IH. destruct (decide (k ∈ ids)) as [Hin|Hnin].
    + destruct (decide (k ∈ i :: ids)) as [_|Hn]; [reflexivity |].
      exfalso. apply Hn. right. exact Hin.
    + destruct (decide (i = k)) as [->|Hne].
      * rewrite lookup_delete_eq.
        destruct (decide (k ∈ k :: ids)) as [_|Hn]; [reflexivity |].
        exfalso. apply Hn. left.
      * rewrite lookup_delete_ne by exact Hne.
        destruct (decide (k ∈ i :: ids)) as [Hin|_]; [| reflexivity].
        apply elem_of_cons in Hin as [?|?]; [congruence | contradiction].
Qed.

Lemma in_to_delete (now : Z) (ts : gmap string task) (k : string) :
  In k (List.map fst
          (List.filter (fun it => cleanup_selects now (snd it)) (map_to_list ts))) <->
  exists t, ts !! k = Some t /\ cleanup_selects now t = true.
Proof.
  rewrite in_map_iff. split.
  - intros [[k' t] [Hk Hin]]. simpl in Hk. subst k'.
    apply filter_In in Hin as [Hin Hsel]. simpl in Hsel.
    apply list_elem_of_In, elem_of_map_to_list in Hin. eauto.
  - intros [t [Hlook Hsel]]. exists (k, t). split; [reflexivity |].
    apply filter_In. split; [| exact Hsel].
    apply list_elem_of_In, elem_of_map_to_list. exact Hlook.
Qed.

(** The sweep as a lookup table. *)
Lemma cleanup_old_tasks_lookup (now : Z) (ts : gmap string task) (k : string) :
  cleanup_old_tasks now ts !! k =
  match ts !! k with
  | Some t => if cleanup_selects now t then None else Some t
  | None => None
  end.
Proof.
  unfold cleanup_old_tasks. rewrite lookup_fold_delete.
  destruct (decide _) as [Hin|Hnin].
  - apply list_elem_of_In, in_to_delete in Hin as [t [-> ->]]. reflexivity.
  - destruct (ts !! k) as [t|] eqn:Hlook; [| reflexivity].
    destruct (cleanup_selects now t) eqn:Hsel; [| reflexivity].
    exfalso. apply Hnin. apply list_elem_of_In, in_to_delete. eauto.
Qed.


(** Completed 61 minutes ago: removed; 59 minutes ago, exactly one hour ago,
    or still pending: kept. *)
Example cleanup_61_and_59_minutes :
  let now := hours 5 in
  let ts : gmap string task :=
    <[ "old" := finished_task completed (now - minutes 61) ]>
      (<[ "recent" := finished_task failed (now - minutes 59) ]>
         (<[ "edge" := finished_task completed (now - minutes 60) ]>
            (<[ "running" :=
                  {| task_status := pending; created_at := 0; completed_at := None;
                     task_result := None; message := None |} ]> ∅))) in
  cleanup_old_tasks now ts !! "old" = None /\
  cleanup_old_tasks now ts !! "recent" = ts !! "recent" /\
  cleanup_old_tasks now ts !! "edge" = ts !! "edge" /\
  cleanup_old_tasks now ts !! "running" = ts !! "running" /\
  is_Some (ts !! "old") /\ is_Some (ts !! "recent").
Proof.
  cbv zeta. rewrite !cleanup_old_tasks_lookup.
  repeat split; try (vm_compute; reflexivity); vm_compute; eauto.
Qed.

(** ** Session storage *)

Lemma save_written now k cs ls ss md w :
  run (save_browser_session now Written k cs ls ss md) w =
  (inr true,
   set_session_files (insert (session_file k) (Pickled (saved_record now w cs ls ss md)))
     (set_browser_sessions (insert k (saved_record now w cs ls ss md)) w)).
Proof. reflexivity. Qed.

Lemma save_open_fails now msg k cs ls ss md w :
  run (save_browser_session now (OpenFails msg) k cs ls ss md) w =
  (inr false, set_browser_sessions (insert k (saved_record now w cs ls ss md)) w).
Proof. reflexivity. Qed.

Lemma save_dump_fails now msg k cs ls ss md w :
  run (save_browser_session now (DumpFails msg) k cs ls ss md) w =
  (inr false,
   set_session_files (insert (session_file k) Truncated)
     (set_browser_sessions (insert k (saved_record now w cs ls ss md)) w)).
Proof. reflexivity. Qed.

Lemma load_from_memory k d w :
  browser_sessions w !! k = Some d ->
  run (load_browser_session k) w = (inr (Some d), w).
Proof.
  intros H. unfold run, load_browser_session, try_except, bind, get_world.
  rewrite H. reflexivity.
Qed.

Lemma load_from_disk k d w :
  browser_sessions w !! k = None ->
  session_files w !! session_file k = Some (Pickled d) ->
  run (load_browser_session k) w =
  (inr (Some d), set_browser_sessions (insert k d) w).
Proof.
  intros Hmem Hdisk. unfold run, load_browser_session, try_except, bind, get_world.
  rewrite Hmem, Hdisk. reflexivity.
Qed.

Lemma load_truncated k w :
  browser_sessions w !! k = None ->
  session_files w !! session_file k = Some Truncated ->
  run (load_browser_session k) w = (inr None, w).
Proof.
  intros Hmem Hdisk. unfold run, load_browser_session, try_except, bind, get_world.
  rewrite Hmem, Hdisk. reflexivity.
Qed.

Lemma load_nothing k w :
  browser_sessions w !! k = None ->
  session_files w !! session_file k = None ->
  run (load_browser_session k) w = (inr None, w).
Proof.
  intros Hmem Hdisk. unfold run, load_browser_session, try_except, bind, get_world.
  rewrite Hmem, Hdisk. reflexivity.
Qed.

(** [load_browser_session] never raises. *)
Lemma load_total k w :
  exists o w', run (load_browser_session k) w = (inr o, w').
Proof.
  destruct (browser_sessions w !! k) as [d|] eqn:Hmem.
  - eauto using load_from_memory.
  - destruct (session_files w !! session_file k) as [[d|]|] eqn:Hdisk.
    + eauto using load_from_disk.
    + eauto using load_truncated.
    + eauto using load_nothing.
Qed.

Lemma extract_browser_session_run (now : Z) (ctx : browsing_context) (w : world) :
  extract_browser_session now ctx w = (inr (extraction now ctx w), w).
Proof.
  unfold extraction, extracted_record,
    extract_browser_session, try_except, bind, of_outcome, get_world, ret, raise.
  destruct (context_cookies ctx) as [e|cs]; [reflexivity |].
  destruct (evaluate_local_storage ctx), (evaluate_session_storage ctx); reflexivity.
Qed.

(** C5, as the code has it.  [extract_browser_session] never raises and
    leaves the process state alone.  When the cookie query succeeds the
    record holds its cookies, and a storage query that fails contributes an
    empty map while the other fields are kept.  When the cookie query fails
    the outer handler returns the fallback record: no cookies, empty maps,
    no timestamp. *)
Theorem extract_degrades_to_fallback (now : Z) (ctx : browsing_context) (w : world) :
  exists d,
    run (extract_browser_session now ctx) w = (inr d, w) /\
    (forall cs, context_cookies ctx = inr cs ->
       cookies d = cs /\
       last_updated d = Some (isoformat now) /\
       (forall m, evaluate_local_storage ctx = inr m -> local_storage d = m) /\
       (forall e, evaluate_local_storage ctx = inl e -> local_storage d = ∅) /\
       (forall m, evaluate_session_storage ctx = inr m -> session_storage d = m) /\
       (forall e, evaluate_session_storage ctx = inl e -> session_storage d = ∅)) /\
    (forall e, context_cookies ctx = inl e ->
       d = extract_fallback /\ cookies d = [] /\
       local_storage d = ∅ /\ session_storage d = ∅ /\ last_updated d = None).
Proof.
  exists (extraction now ctx w). split; [apply extract_browser_session_run |].
  unfold extraction, extracted_record. split.
  - intros cs ->. simpl. repeat split; intros x ->; reflexivity.
  - intros e ->. repeat split.
Qed.

(** C5, as the claim has it, fails: with a failing cookie query the
    function returns a record with an empty cookie list and no error. *)
Lemma extract_cookie_failure_is_swallowed :
  ~ (forall (now : Z) (ctx : browsing_context) (w : world) (e : exn),
        context_cookies ctx = inl e ->
        exists e' w', run (extract_browser_session now ctx) w = (inl e', w')) /\
  (exists d,
      run (extract_browser_session 0 cookies_unavailable) empty_world = (inr d, empty_world) /\
      cookies d = []).
Proof.
  split.
  - intros Hclaim.
    destruct (Hclaim 0 cookies_unavailable empty_world _ eq_refl) as [e' [w' H]].
    unfold run in H. rewrite extract_browser_session_run in H. discriminate.
  - exists extract_fallback. split; reflexivity.
Qed.

(** C7. After a save that returns [True], loading the same key returns a
    record with the saved cookies (so with as many cookies): from the
    in-memory dictionary, and also from the file once the in-memory
    dictionary has been emptied, in which case the record is put back in
    memory. *)
Theorem save_load_round_trip
        (now : Z) (disk : write_outcome) (k : string) (cs : list cookie)
        (ls ss md : option (gmap string string)) (w w1 : world) :
  run (save_browser_session now disk k cs ls ss md) w = (inr true, w1) ->
  (exists d,
      run (load_browser_session k) w1 = (inr (Some d), w1) /\
      cookies d = cs /\ length (cookies d) = length cs) /\
  (exists d w2,
      browser_sessions (restart w1) = ∅ /\
      run (load_browser_session k) (restart w1) = (inr (Some d), w2) /\
      cookies d = cs /\ length (cookies d) = length cs /\
      browser_sessions w2 !! k = Some d /\
      session_files w2 = session_files w1).
Proof.
  intros Hsave.
  destruct disk as [|msg|msg];
    [rewrite save_written in Hsave
    | rewrite save_open_fails in Hsave; discriminate
    | rewrite save_dump_fails in Hsave; discriminate].
  injection Hsave as <-.
  set (d := saved_record now w cs ls ss md).
  split.
  - exists d. split; [| split; reflexivity].
    apply load_from_memory. simpl. apply lookup_insert_eq.
  - exists d. eexists. split; [reflexivity |]. split.
    + apply load_from_disk.
      * simpl. apply lookup_empty.
      * simpl. apply lookup_insert_eq.
    + repeat split. simpl. apply lookup_insert_eq.
Qed.

Lemma save_load_round_trip_witness :
  exists w1,
    run (save_browser_session 1000 Written "biz-1" [sid_cookie; hsid_cookie] None None None)
        empty_world = (inr true, w1) /\
    (exists d, run (load_browser_session "biz-1") w1 = (inr (Some d), w1) /\
               length (cookies d) = 2%nat) /\
    (exists d w2, run (load_browser_session "biz-1") (restart w1) = (inr (Some d), w2) /\
                  length (cookies d) = 2%nat).
Proof.
  eexists. split; [reflexivity |].
  destruct (save_load_round_trip 1000 Written "biz-1" [sid_cookie; hsid_cookie]
              None None None empty_world _ eq_refl)
    as [[d [Hload [_ Hlen]]] [d' [w2 [_ [Hload' [_ [Hlen' _]]]]]]].
  split.
  - exists d. split; [exact Hload | exact Hlen].
  - exists d', w2. split; [exact Hload' | exact Hlen'].
Defined.

Lemma check_session_found now k d w w' :
  run (load_browser_session k) w = (inr (Some d), w') ->
  run (check_session now k) w =
  (inr {| has_session := true;
          check_cookies_count := Some (length (cookies d));
          check_last_updated := Some (default (NotIso "unknown") (last_updated d));
          is_expired :=
            Some (expiration_check now (default (NotIso "unknown") (last_updated d)));
          check_error := None;
          check_message := "Session exists" |},
   w').
Proof.
  unfold run. intros Hload. unfold check_session, try_except, bind.
  rewrite Hload. reflexivity.
Qed.

Lemma expiration_check_iso now t :
  expiration_check now (IsoOf t) = Z.gtb (now - t) (days 7).
Proof. reflexivity. Qed.

(** A timestamp that does not parse counts as expired; the placeholder
    "unknown" of a record without timestamp does not. *)
Example expiration_check_unparseable :
  expiration_check 0 (NotIso "yesterday") = true /\
  expiration_check 0 (NotIso "unknown") = false.
Proof. split; reflexivity. Qed.

(** C8. For a stored record whose [last_updated] parses to the instant
    [t], the session check answers [is_expired = true] exactly when
    [now - t] is strictly more than seven days: true at seven days and one
    second, false at six days and 23 hours (and at seven days sharp). *)
Theorem check_session_expiry
        (now : Z) (k : string) (w w' : world) (d : session_data) (t : Z) :
  run (load_browser_session k) w = (inr (Some d), w') ->
  last_updated d = Some (isoformat t) ->
  exists r,
    run (check_session now k) w = (inr r, w') /\
    has_session r = true /\
    check_cookies_count r = Some (length (cookies d)) /\
    (is_expired r = Some true <-> days 7 < now - t) /\
    (is_expired r = Some false <-> now - t <= days 7) /\
    (now - t = days 7 + seconds 1 -> is_expired r = Some true) /\
    (now - t = days 6 + hours 23 -> is_expired r = Some false).
Proof.
  intros Hload Hstamp. eexists. split; [apply (check_session_found now k d w w' Hload) |].
  simpl. rewrite Hstamp. simpl. unfold isoformat. rewrite expiration_check_iso.
  rewrite Z.gtb_ltb.
  destruct (Z.ltb_spec (days 7) (now - t)) as [Hlt|Hge].
  - repeat split; try congruence; try lia; try discriminate.
    + intros H. revert Hlt. rewrite H. vm_compute. discriminate.
  - repeat split; try congruence; try lia; try discriminate.
    + intros H. revert Hge. rewrite H. vm_compute. intros Hc. exfalso. apply Hc. reflexivity.
Qed.

Lemma check_session_expiry_witness :
  (exists r w', run (check_session (days 7 + seconds 1) "biz-1") (week_old_world 0) = (inr r, w') /\
                is_expired r = Some true) /\
  (exists r w', run (check_session (days 6 + hours 23) "biz-1") (week_old_world 0) = (inr r, w') /\
                is_expired r = Some false).
Proof.
  split.
  - destruct (check_session_expiry (days 7 + seconds 1) "biz-1" (week_old_world 0)
                (week_old_world 0)
                (saved_record 0 empty_world [sid_cookie] None None None) 0)
      as [r [Hrun [_ [_ [_ [_ [Hold _]]]]]]].
    + reflexivity.
    + reflexivity.
    + exists r, (week_old_world 0). split; [exact Hrun | apply Hold; reflexivity].
  - destruct (check_session_expiry (days 6 + hours 23) "biz-1" (week_old_world 0)
                (week_old_world 0)
                (saved_record 0 empty_world [sid_cookie] None None None) 0)
      as [r [Hrun [_ [_ [_ [_ [_ Hyoung]]]]]]].
    + reflexivity.
    + reflexivity.
    + exists r, (week_old_world 0). split; [exact Hrun | apply Hyoung; reflexivity].
Defined.

(** C10. When the file write raises, [save_browser_session] returns
    [False] although it has already stored the new record in the
    in-memory dictionary: loading the key afterwards returns the new record,
    whatever was in memory before, while the file either is as it was
    before the call or is left truncated. *)
Theorem save_failure_keeps_memory_write
        (now : Z) (disk : write_outcome) (k : string) (cs : list cookie)
        (ls ss md : option (gmap string string)) (w : world) :
  disk <> Written ->
  exists w1 d,
    run (save_browser_session now disk k cs ls ss md) w = (inr false, w1) /\
    d = saved_record now w cs ls ss md /\
    browser_sessions w1 !! k = Some d /\
    run (load_browser_session k) w1 = (inr (Some d), w1) /\
    cookies d = cs /\
    (session_files w1 !! session_file k = session_files w !! session_file k \/
     session_files w1 !! session_file k = Some Truncated).
Proof.
  intros Hdisk.
  destruct disk as [|msg|msg]; [congruence | |].
  - eexists. exists (saved_record now w cs ls ss md).
    split; [apply save_open_fails |].
    assert (browser_sessions
              (set_browser_sessions (insert k (saved_record now w cs ls ss md)) w) !! k =
            Some (saved_record now w cs ls ss md)) as Hmem
        by (simpl; apply lookup_insert_eq).
    repeat split; [exact Hmem | apply load_from_memory; exact Hmem | left; reflexivity].
  - eexists. exists (saved_record now w cs ls ss md).
    split; [apply save_dump_fails |].
    assert (browser_sessions
              (set_session_files (insert (session_file k) Truncated)
                 (set_browser_sessions (insert k (saved_record now w cs ls ss md)) w)) !! k =
            Some (saved_record now w cs ls ss md)) as Hmem
        by (simpl; apply lookup_insert_eq).
    repeat split; [exact Hmem | apply load_from_memory; exact Hmem |].
    right. simpl. apply lookup_insert_eq.
Qed.

(** A record with one cookie is in memory and on disk; saving two cookies
    fails on the disk; the next load returns the two cookies, and after a
    restart the old record comes back from the file. *)
Lemma save_failure_keeps_memory_write_witness :
  let w0 := snd (run (save_browser_session 1000 Written "biz-1" [sid_cookie] None None None)
                     empty_world) in
  exists w1 d,
    run (save_browser_session 2000 (OpenFails "disk full") "biz-1"
           [sid_cookie; hsid_cookie] None None None) w0 = (inr false, w1) /\
    run (load_browser_session "biz-1") w1 = (inr (Some d), w1) /\
    cookies d = [sid_cookie; hsid_cookie] /\
    (exists d0 w2, run (load_browser_session "biz-1") (restart w1) = (inr (Some d0), w2) /\
                   cookies d0 = [sid_cookie]).
Proof.
  intros w0.
  destruct (save_failure_keeps_memory_write 2000 (OpenFails "disk full") "biz-1"
              [sid_cookie; hsid_cookie] None None None w0)
    as [w1 [d [Hsave [Hd [_ [Hload [Hcookies _]]]]]]].
  - discriminate.
  - exists w1, d. split; [exact Hsave |]. split; [exact Hload |]. split; [exact Hcookies |].
    rewrite save_open_fails in Hsave. injection Hsave as <-.
    eexists. eexists. split.
    + apply load_from_disk.
      * simpl. apply lookup_empty.
      * simpl. apply lookup_insert_eq.
    + reflexivity.
Defined.

(** ** The executor *)

Lemma tasks_update_present task_id u t w :
  tasks w !! task_id = Some t ->
  tasks_update task_id u w =
  (inr tt, log_task_write task_id u (set_tasks (insert task_id (dict_update t u)) w)).
Proof. intros H. unfold tasks_update. rewrite H. reflexivity. Qed.

Lemma tasks_update_absent task_id u w :
  tasks w !! task_id = None ->
  tasks_update task_id u w = (inl (KeyError task_id), w).
Proof. intros H. unfold tasks_update. rewrite H. reflexivity. Qed.

Lemma save_browser_session_total now disk k cs ls ss md w :
  exists b w',
    save_browser_session now disk k cs ls ss md w = (inr b, w') /\
    tasks w' = tasks w /\ task_writes w' = task_writes w.
Proof. destruct disk; do 2 eexists; (split; [reflexivity | split; reflexivity]). Qed.

Lemma persist_session_step_run env business_id persist_session w :
  persist_session_step env business_id persist_session w =
  (inr (Some (extraction (extracted_at env) (agent_context env) w)),
   after_persist env business_id persist_session w).
Proof.
  unfold persist_session_step, after_persist, bind, try_except.
  rewrite extract_browser_session_run. cbv beta iota. unfold ret at 1. cbv beta iota.
  destruct (default true persist_session &&
            negb (bool_decide (cookies (extraction (extracted_at env) (agent_context env) w) = [])))%bool.
  - destruct (save_browser_session_total (saved_at env) (disk_write env) business_id
                (cookies (extraction (extracted_at env) (agent_context env) w))
                (Some (local_storage (extraction (extracted_at env) (agent_context env) w)))
                (Some (session_storage (extraction (extracted_at env) (agent_context env) w)))
                None w) as [b [w' [-> _]]].
    reflexivity.
  - reflexivity.
Qed.

Lemma after_persist_frame env business_id persist_session w :
  tasks (after_persist env business_id persist_session w) = tasks w /\
  task_writes (after_persist env business_id persist_session w) = task_writes w.
Proof.
  unfold after_persist.
  destruct (_ && _)%bool; [| split; reflexivity].
  match goal with
  | |- context [save_browser_session ?n ?d ?k ?c ?l ?s ?m w] =>
      destruct (save_browser_session_total n d k c l s m w) as [b [w' [-> [? ?]]]]
  end.
  simpl. split; assumption.
Qed.

Lemma before_write_frame env business_id persist_session w :
  tasks (before_write env business_id persist_session w) = tasks w /\
  task_writes (before_write env business_id persist_session w) = task_writes w.
Proof.
  unfold before_write.
  destruct (course_of env); try (split; reflexivity).
  destruct (Classifier.classify _); [apply after_persist_frame | split; reflexivity].
Qed.

(** The run of the executor on a task that is in [tasks]: one write, of
    the update that belongs to the course, and no exception. *)
(** A run whose course is a classified text got past the statements
    before the [try]. *)
Lemma classified_past_prologue env text :
  course_of env = Classified text -> prologue env = None.
Proof.
  unfold course_of. destruct (prologue env); [discriminate | reflexivity].
Qed.

(** A run that is aborted before the [try]: the exception leaves the
    executor and nothing is changed. *)
Lemma perform_google_auth_aborted env task_id business_id persist_session w msg :
  prologue env = Some msg ->
  perform_google_auth env task_id business_id persist_session w =
  (inl (Exception msg), w).
Proof.
  intros Hp. unfold perform_google_auth, bind, raise_if. rewrite Hp. reflexivity.
Qed.

Lemma perform_google_auth_run env task_id business_id persist_session w t :
  tasks w !! task_id = Some t ->
  prologue env = None ->
  perform_google_auth env task_id business_id persist_session w =
  (inr tt,
   log_task_write task_id (terminal_write env task_id business_id w)
     (set_tasks
        (insert task_id (dict_update t (terminal_write env task_id business_id w)))
        (before_write env business_id persist_session w))).
Proof.
  intros Ht Hp.
  unfold perform_google_auth, before_write, terminal_write, course_of, run_agent.
  rewrite Hp.
  unfold try_except, try_except_timeout, bind, raise_if, ret, raise.
  destruct (makedirs_task env) as [m1|];
    [rewrite (tasks_update_present _ _ _ _ Ht); reflexivity |].
  destruct (agent_created env) as [m2|];
    [rewrite (tasks_update_present _ _ _ _ Ht); reflexivity |].
  destruct (agent_run env) as [[text|]| |m3];
    try (rewrite (tasks_update_present _ _ _ _ Ht); reflexivity).
  destruct (makedirs_final env) as [m4|];
    [rewrite (tasks_update_present _ _ _ _ Ht); reflexivity |].
  destruct (final_screenshot env) as [m5|];
    [rewrite (tasks_update_present _ _ _ _ Ht); reflexivity |].
  destruct (Classifier.classify text) as [|c m].
  - rewrite persist_session_step_run.
    assert (Ht' : tasks (after_persist env business_id persist_session w) !! task_id = Some t)
      by (rewrite (proj1 (after_persist_frame env business_id persist_session w)); exact Ht).
    rewrite (tasks_update_present _ _ _ _ Ht'). reflexivity.
  - rewrite (tasks_update_present _ _ _ _ Ht). reflexivity.
Qed.

(** On a task that is no longer in [tasks] the write of a run that got
    past the statements before the [try] raises [KeyError], also in the
    outermost handler, and the exception leaves the executor; nothing is
    written. *)
Lemma perform_google_auth_unknown_task env task_id business_id persist_session w :
  tasks w !! task_id = None ->
  prologue env = None ->
  perform_google_auth env task_id business_id persist_session w =
  (inl (KeyError task_id), before_write env business_id persist_session w).
Proof.
  intros Ht Hp.
  unfold perform_google_auth, before_write, terminal_write, course_of, run_agent.
  rewrite Hp.
  unfold try_except, try_except_timeout, bind, raise_if, ret, raise.
  destruct (makedirs_task env) as [m1|];
    [rewrite (tasks_update_absent _ _ _ Ht); reflexivity |].
  destruct (agent_created env) as [m2|];
    [rewrite (tasks_update_absent _ _ _ Ht); reflexivity |].
  destruct (agent_run env) as [[text|]| |m3];
    try (rewrite !(tasks_update_absent _ _ _ Ht); reflexivity).
  destruct (makedirs_final env) as [m4|];
    [rewrite (tasks_update_absent _ _ _ Ht); reflexivity |].
  destruct (final_screenshot env) as [m5|];
    [rewrite (tasks_update_absent _ _ _ Ht); reflexivity |].
  destruct (Classifier.classify text) as [|c m].
  - rewrite persist_session_step_run.
    assert (Ht' : tasks (after_persist env business_id persist_session w) !! task_id = None)
      by (rewrite (proj1 (after_persist_frame env business_id persist_session w)); exact Ht).
    rewrite !(tasks_update_absent _ _ _ Ht'). reflexivity.
  - rewrite !(tasks_update_absent _ _ _ Ht). reflexivity.
Qed.

Lemma scan_failures_code items low :
  In (fst (Classifier.scan_failures items low))
     ("LOGIN_FAILED" :: List.map fst items).
Proof.
  induction items as [|[c ps] items IH]; simpl.
  - left. reflexivity.
  - destruct (PyStr.any_in ps low); simpl.
    + right. left. reflexivity.
    + destruct IH as [IH|IH]; [left; exact IH | right; right; exact IH].
Qed.

(** A classified text is a success or carries one of the nine codes. *)
Lemma classify_codes text :
  Classifier.classify text = Classifier.Authenticated \/
  exists c m, Classifier.classify text = Classifier.Rejected c m /\
              In c [ "LOGIN_FAILED"; "WRONG_PASSWORD"; "EMAIL_NOT_FOUND";
                     "SUSPICIOUS_ACTIVITY"; "VERIFICATION_REQUIRED";
                     "TWO_FACTOR_REQUIRED"; "ACCOUNT_DISABLED";
                     "TOO_MANY_ATTEMPTS"; "CAPTCHA_CHALLENGE" ].
Proof.
  unfold Classifier.classify, Classifier.classify_lower.
  destruct (PyStr.any_in Classifier.success_indicators (PyStr.lower text));
    [left; reflexivity | right].
  pose proof (scan_failures_code Classifier.failure_indicators (PyStr.lower text)) as H.
  destruct (Classifier.scan_failures Classifier.failure_indicators (PyStr.lower text))
    as [c m].
  exists c, m. split; [reflexivity | exact H].
Qed.

(** A job run right after its submission: the record is there, so the run
    ends with exactly one write, whatever was stored before. *)
Lemma google_auth_then_execute task_id now env business_id persist_session w :
  prologue env = None ->
  exists job w1 w2,
    run (google_auth task_id now env business_id persist_session) w = (inr (task_id, job), w1) /\
    run job w1 = (inr tt, w2) /\
    task_writes w2 =
      (task_writes w ++ [(task_id, terminal_write env task_id business_id w1)])%list.
Proof.
  intros Hp. eexists. eexists. eexists. split; [reflexivity |].
  unfold run.
  assert (Ht : tasks (set_tasks
                        (insert task_id
                           {| task_status := pending; created_at := now;
                              completed_at := None; task_result := None;
                              message := None |}) w) !! task_id =
               Some {| task_status := pending; created_at := now;
                       completed_at := None; task_result := None; message := None |})
    by (simpl; apply lookup_insert_eq).
  rewrite (perform_google_auth_run _ _ _ _ _ _ Ht Hp).
  split; [reflexivity |].
  simpl. rewrite (proj2 (before_write_frame _ _ _ _)). reflexivity.
Qed.

Lemma after_persist_disabled env business_id w :
  after_persist env business_id (Some false) w = w.
Proof. reflexivity. Qed.

Lemma after_persist_no_cookies env business_id persist_session w :
  cookies (extraction (extracted_at env) (agent_context env) w) = [] ->
  after_persist env business_id persist_session w = w.
Proof.
  intros H. unfold after_persist. rewrite H.
  rewrite bool_decide_eq_true_2 by reflexivity.
  rewrite andb_false_r. reflexivity.
Qed.

Lemma after_persist_disk_failure env business_id persist_session w :
  disk_write env <> Written ->
  session_files (after_persist env business_id persist_session w) !! session_file business_id
    = session_files w !! session_file business_id \/
  session_files (after_persist env business_id persist_session w) !! session_file business_id
    = Some Truncated.
Proof.
  intros Hdisk. unfold after_persist.
  destruct (_ && _)%bool; [| left; reflexivity].
  destruct (disk_write env) as [|msg|msg]; [congruence | left; reflexivity |].
  right. simpl. apply lookup_insert_eq.
Qed.

(** C9. When the final text classifies as success, the record written to
    the task has [session_saved = True], whatever the options, the browser
    and the disk do: also when persistence is switched off, when no
    cookies were extracted (the cookie list is empty or the cookie query
    failed) so that neither tier of the session store is touched, and when
    the disk write fails so that no pickle of the session is written. *)
Theorem success_reports_session_saved_unconditionally
        (env : auth_env) (task_id business_id : string) (persist_session : option bool)
        (w : world) (t : task) (text : string) :
  tasks w !! task_id = Some t ->
  course_of env = Classified text ->
  Classifier.classify text = Classifier.Authenticated ->
  exists w' t' r,
    run (perform_google_auth env task_id business_id persist_session) w = (inr tt, w') /\
    tasks w' !! task_id = Some t' /\
    task_status t' = completed /\
    task_result t' = Some r /\
    success r = true /\
    session_saved r = Some true /\
    (persist_session = Some false ->
       browser_sessions w' = browser_sessions w /\ session_files w' = session_files w) /\
    (context_cookies (agent_context env) = inr [] ->
       browser_sessions w' = browser_sessions w /\ session_files w' = session_files w) /\
    (forall e, context_cookies (agent_context env) = inl e ->
       browser_sessions w' = browser_sessions w /\ session_files w' = session_files w) /\
    (disk_write env <> Written ->
       session_files w' !! session_file business_id
         = session_files w !! session_file business_id \/
       session_files w' !! session_file business_id = Some Truncated).
Proof.
  intros Ht Hcourse Hverdict.
  eexists. exists (dict_update t (terminal_write env task_id business_id w)).
  exists (upd_result (terminal_write env task_id business_id w)).
  split; [unfold run;
          apply (perform_google_auth_run _ _ _ _ _ _ Ht
                   (classified_past_prologue _ _ Hcourse)) |].
  split; [simpl; apply lookup_insert_eq |].
  unfold terminal_write, before_write. rewrite Hcourse, Hverdict.
  do 4 (split; [reflexivity |]).
  split; [| split; [| split]].
  - intros ->. split; reflexivity.
  - intros Hnone. simpl. rewrite after_persist_no_cookies; [split; reflexivity |].
    unfold extraction. rewrite Hnone. reflexivity.
  - intros e Hfail. simpl. rewrite after_persist_no_cookies; [split; reflexivity |].
    unfold extraction. rewrite Hfail. reflexivity.
  - intros Hdisk. simpl. apply after_persist_disk_failure. exact Hdisk.
Qed.

(** Persistence switched off and a disk that would fail: nothing is stored
    in either tier, and the result still says [session_saved = True]. *)
Lemma success_reports_session_saved_unconditionally_witness :
  exists w' t' r,
    run (perform_google_auth
           (with_disk (OpenFails "disk full") (smooth_env "Login successful."))
           "task-1" "biz-1" (Some false)) submitted_world = (inr tt, w') /\
    tasks w' !! "task-1" = Some t' /\
    task_result t' = Some r /\
    session_saved r = Some true /\
    browser_sessions w' = ∅ /\ session_files w' = ∅.
Proof.
  destruct (success_reports_session_saved_unconditionally
              (with_disk (OpenFails "disk full") (smooth_env "Login successful."))
              "task-1" "biz-1" (Some false) submitted_world
              {| task_status := pending; created_at := 0; completed_at := None;
                 task_result := None; message := None |}
              "Login successful.")
    as [w' [t' [r [Hrun [Hlook [_ [Hres [_ [Hflag [Hoff _]]]]]]]]]].
  - reflexivity.
  - reflexivity.
  - vm_compute. reflexivity.
  - destruct (Hoff eq_refl) as [Hmem Hdisk].
    exists w', t', r. repeat split; assumption.
Defined.

(** ** Termination *)

Lemma terminate_task_unknown now task_id w :
  tasks w !! task_id = None ->
  run (terminate_task now task_id) w = (inl (HTTPException 404 "Task not found"), w).
Proof.
  intros H. unfold run, terminate_task, bind, get_world. rewrite H. reflexivity.
Qed.

Lemma terminate_task_pending now task_id t w :
  tasks w !! task_id = Some t ->
  task_status t = pending ->
  run (terminate_task now task_id) w =
  (inr "Task terminated",
   log_task_write task_id (terminated_update now)
     (set_tasks (insert task_id (dict_update t (terminated_update now))) w)).
Proof.
  intros H Hst. unfold run, terminate_task, bind, get_world. rewrite H, Hst.
  rewrite (tasks_update_present _ _ _ _ H). reflexivity.
Qed.

(** Terminating a task that is already terminal changes nothing. *)
Lemma terminate_task_terminal now task_id t w :
  tasks w !! task_id = Some t ->
  task_status t <> pending ->
  run (terminate_task now task_id) w =
  (inr ("Task is already " +:+ status_name (task_status t)), w).
Proof.
  intros H Hst. unfold run, terminate_task, bind, get_world. rewrite H.
  destruct (task_status t); [congruence | reflexivity | reflexivity].
Qed.

(** The executor writes over whatever record is stored under the id: it
    does not look at the status. *)
Lemma executor_ignores_status env task_id business_id persist_session w t :
  tasks w !! task_id = Some t ->
  prologue env = None ->
  tasks (snd (run (perform_google_auth env task_id business_id persist_session) w))
    !! task_id
  = Some (dict_update t (terminal_write env task_id business_id w)).
Proof.
  intros Ht Hp. unfold run. rewrite (perform_google_auth_run _ _ _ _ _ _ Ht Hp).
  simpl. apply lookup_insert_eq.
Qed.

(** C1, at a failing input.  A task is submitted, terminated while pending
    (it is then terminal: failed, TERMINATED, completed at second 5), and
    terminating it again changes nothing.  The agent run of the same task
    then finishes with a success text: the executor's write replaces the
    status, the completion time and the result of the terminal record. *)
Theorem late_executor_write_overwrites_terminated_task :
  tasks terminated_world !! "task-1" = Some terminated_record /\
  run (terminate_task (seconds 9) "task-1") terminated_world =
    (inr "Task is already failed", terminated_world) /\
  run (perform_google_auth (smooth_env "Successfully logged in.")
         "task-1" "biz-1" (Some true)) terminated_world
    = (inr tt,
       snd (run (perform_google_auth (smooth_env "Successfully logged in.")
                   "task-1" "biz-1" (Some true)) terminated_world)) /\
  tasks (snd (run (perform_google_auth (smooth_env "Successfully logged in.")
                     "task-1" "biz-1" (Some true)) terminated_world)) !! "task-1"
    = Some overwritten_record /\
  overwritten_record <> terminated_record.
Proof.
  assert (Hterminated : tasks terminated_world !! "task-1" = Some terminated_record)
    by (vm_compute; reflexivity).
  split; [exact Hterminated |].
  split; [apply (terminate_task_terminal _ _ _ _ Hterminated); discriminate |].
  split; [unfold run;
          rewrite (perform_google_auth_run (smooth_env "Successfully logged in.")
                     _ _ _ _ _ Hterminated eq_refl);
          reflexivity |].
  split; [| discriminate].
  rewrite (executor_ignores_status (smooth_env "Successfully logged in.")
             _ _ _ _ _ Hterminated eq_refl).
  vm_compute. reflexivity.
Qed.

(** C2, at two failing inputs.  The executor is meant to end every run
    with one terminal write; these two runs end with an exception and
    without a write.  First: the task is terminated while pending and, more
    than an hour later, swept by a poll, while the agent is still running;
    when the agent returns, [tasks[task_id].update] raises [KeyError], the
    outermost handler raises it again, and the task log holds the write of
    the termination only.  Second: a statement before the [try] raises (no
    [psutil] module); the exception leaves the executor and the task stays
    pending. *)
Theorem executor_can_end_without_terminal_write :
  tasks swept_world !! "task-1" = None /\
  task_writes swept_world = [("task-1", terminated_update (seconds 5))] /\
  run (perform_google_auth (slow_env "Successfully logged in.")
         "task-1" "biz-1" (Some true)) swept_world
    = (inl (KeyError "task-1"),
       snd (run (perform_google_auth (slow_env "Successfully logged in.")
                   "task-1" "biz-1" (Some true)) swept_world)) /\
  tasks (snd (run (perform_google_auth (slow_env "Successfully logged in.")
                     "task-1" "biz-1" (Some true)) swept_world)) !! "task-1" = None /\
  task_writes (snd (run (perform_google_auth (slow_env "Successfully logged in.")
                           "task-1" "biz-1" (Some true)) swept_world))
    = [("task-1", terminated_update (seconds 5))] /\
  run (perform_google_auth
         (with_prologue (Some "No module named 'psutil'")
            (smooth_env "Successfully logged in."))
         "task-1" "biz-1" (Some true)) submitted_world
    = (inl (Exception "No module named 'psutil'"), submitted_world) /\
  (task_status <$> tasks submitted_world !! "task-1") = Some pending /\
  task_writes submitted_world = [].
Proof.
  assert (Hswept : tasks swept_world !! "task-1" = None) by (vm_compute; reflexivity).
  split; [exact Hswept |].
  split; [vm_compute; reflexivity |].
  unfold run at 1 2 3 4.
  rewrite (perform_google_auth_unknown_task (slow_env "Successfully logged in.")
             _ _ _ _ Hswept eq_refl).
  split; [reflexivity |].
  split; [cbn [snd]; rewrite (proj1 (before_write_frame _ _ _ _)); exact Hswept |].
  split; [cbn [snd]; rewrite (proj2 (before_write_frame _ _ _ _)); vm_compute; reflexivity |].
  split; [apply perform_google_auth_aborted; reflexivity |].
  split; vm_compute; reflexivity.
Qed.


(* ===================================================================== *)
(** * Further properties *)
(* ===================================================================== *)

Example split_examples :
  PyText.split "," "a,b" = ["a"; "b"] /\
  PyText.split "," "a," = ["a"; ""] /\
  PyText.split "," "" = [""] /\
  PyText.split "ab" "xabyabab" = ["x"; "y"; ""; ""] /\
  PyText.split "aa" "aaa" = [""; "a"] /\
  PyText.strip "  a b  " = "a b" /\
  PyText.int "120" = inr 120%nat.
Proof. repeat split; vm_compute; reflexivity. Qed.

Example tracker_step_4 :
  progress_percent
    (track_progress_callback 7 "PROGRESS: Step 4 completed - Found and clicked email field"
       empty_tracking) = Some 32%nat /\
  steps_completed
    (track_progress_callback 7 "PROGRESS: Step 4 completed - Found and clicked email field"
       empty_tracking) = [(7, "Step 4 completed - Found and clicked email field")] /\
  progress_percent
    (track_progress_callback 7 "PROGRESS: Step 12 completed - done" empty_tracking)
    = Some 90%nat.
Proof. repeat split; vm_compute; reflexivity. Qed.

(** ** Task storage, continued *)

Lemma expired_later (now later : Z) (t : task) :
  now <= later -> expired now t -> expired later t.
Proof.
  intros Hle [Hst [finished [Hat Hlt]]].
  split; [exact Hst |]. exists finished. split; [exact Hat | lia].
Qed.

Lemma expired_dec (now : Z) (t : task) : expired now t \/ ~ expired now t.
Proof.
  rewrite <- cleanup_selects_iff.
  destruct (cleanup_selects now t); [left; reflexivity | right; discriminate].
Qed.

(** The sweep, read as a relation between the store before and after. *)
Lemma cleanup_lookup_iff (now : Z) (ts : gmap string task)
      (k : string) (t : task) :
  cleanup_old_tasks now ts !! k = Some t <-> ts !! k = Some t /\ ~ expired now t.
Proof.
  rewrite cleanup_old_tasks_lookup, <- cleanup_selects_iff.
  destruct (ts !! k) as [t0|].
  - destruct (cleanup_selects now t0) eqn:Hsel; split.
    + discriminate.
    + intros [Heq Hn]. injection Heq as ->. congruence.
    + intros Heq. injection Heq as ->. split; [reflexivity | congruence].
    + intros [Heq _]. exact Heq.
  - split; [discriminate | intros [H _]; discriminate].
Qed.

(** X1. Terminating a pending task makes it [failed] with code TERMINATED
    and the termination time as completion time; its creation time and
    every other task and session stay as they were. *)
Theorem terminate_pending_marks_terminated
        (now : Z) (task_id : string) (t : task) (w : world) :
  tasks w !! task_id = Some t ->
  task_status t = pending ->
  exists w',
    run (terminate_task now task_id) w = (inr "Task terminated", w') /\
    tasks w' !! task_id =
      Some {| task_status := failed;
              created_at := created_at t;
              completed_at := Some now;
              task_result := Some (upd_result (terminated_update now));
              message := Some "Task terminated by user" |} /\
    error_code (upd_result (terminated_update now)) = Some "TERMINATED" /\
    (forall other, other <> task_id -> tasks w' !! other = tasks w !! other) /\
    browser_sessions w' = browser_sessions w /\
    session_files w' = session_files w /\
    task_writes w' = (task_writes w ++ [(task_id, terminated_update now)])%list.
Proof.
  intros Ht Hpending. eexists.
  split; [apply (terminate_task_pending now task_id t w Ht Hpending) |].
  split; [simpl; apply lookup_insert_eq |].
  split; [reflexivity |].
  split; [| repeat split].
  intros other Hne. simpl. apply lookup_insert_ne. congruence.
Qed.

Lemma terminate_pending_marks_terminated_witness :
  exists w',
    run (terminate_task (seconds 5) "task-1") submitted_world = (inr "Task terminated", w') /\
    (task_status <$> tasks w' !! "task-1") = Some failed.
Proof.
  destruct (terminate_pending_marks_terminated (seconds 5) "task-1"
              {| task_status := pending; created_at := 0; completed_at := None;
                 task_result := None; message := None |} submitted_world)
    as [w' [Hrun [Hlook _]]].
  - reflexivity.
  - reflexivity.
  - exists w'. split; [exact Hrun |]. rewrite Hlook. reflexivity.
Defined.

Lemma get_task_status_run (now : Z) (task_id : string) (w : world) :
  run (get_task_status now task_id) w =
  (match cleanup_old_tasks now (tasks w) !! task_id with
   | Some t => inr t
   | None => inl (HTTPException 404 "Task not found")
   end,
   set_tasks (cleanup_old_tasks now) w).
Proof.
  unfold run, get_task_status, bind, modify, get_world. simpl.
  destruct (cleanup_old_tasks now (tasks w) !! task_id); reflexivity.
Qed.

(** X2. Polling sweeps first and reads afterwards: the poll answers with
    the record exactly when the id is stored and the record is not a
    terminal one completed more than an hour ago; every other poll is a 404
    "Task not found", also for a known task that has just expired.  After
    any poll the expired tasks are gone from the store and the others are
    untouched. *)
Theorem poll_sweeps_then_reads (now : Z) (task_id : string) (w : world) :
  (forall t, fst (run (get_task_status now task_id) w) = inr t <->
             tasks w !! task_id = Some t /\ ~ expired now t) /\
  (forall e, fst (run (get_task_status now task_id) w) = inl e ->
             e = HTTPException 404 "Task not found" /\
             (tasks w !! task_id = None \/
              exists t, tasks w !! task_id = Some t /\ expired now t)) /\
  (forall k t, tasks (snd (run (get_task_status now task_id) w)) !! k = Some t <->
               tasks w !! k = Some t /\ ~ expired now t) /\
  browser_sessions (snd (run (get_task_status now task_id) w)) = browser_sessions w /\
  task_writes (snd (run (get_task_status now task_id) w)) = task_writes w.
Proof.
  rewrite get_task_status_run. simpl.
  split; [| split; [| split; [| split; reflexivity]]].
  - intros t. rewrite <- cleanup_lookup_iff.
    destruct (cleanup_old_tasks now (tasks w) !! task_id);
      split; intros H; congruence.
  - intros e He.
    destruct (cleanup_old_tasks now (tasks w) !! task_id) as [t|] eqn:Hlook;
      [discriminate |].
    injection He as <-. split; [reflexivity |].
    destruct (tasks w !! task_id) as [t|] eqn:Hw; [right | left; reflexivity].
    exists t. split; [reflexivity |].
    destruct (expired_dec now t) as [Hexp|Hnexp]; [exact Hexp |].
    assert (cleanup_old_tasks now (tasks w) !! task_id = Some t) as Hkept
        by (apply cleanup_lookup_iff; split; assumption).
    congruence.
  - intros k t. apply cleanup_lookup_iff.
Qed.

(** X3. Sweeps compose: a sweep at [later] after a sweep at an earlier
    time leaves the same store as the sweep at [later] alone; in particular
    a second sweep at the same time removes nothing more. *)
Theorem cleanup_absorbs_earlier_sweep (now later : Z) (ts : gmap string task) :
  now <= later ->
  cleanup_old_tasks later (cleanup_old_tasks now ts) = cleanup_old_tasks later ts.
Proof.
  intros Hle. apply map_eq. intros k. apply option_eq. intros t.
  rewrite !cleanup_lookup_iff. split.
  - intros [[Hlook _] Hn]. split; assumption.
  - intros [Hlook Hn]. split; [split; [exact Hlook |] | exact Hn].
    intros Hexp. apply Hn. apply (expired_later now later t Hle Hexp).
Qed.

Lemma cleanup_absorbs_earlier_sweep_witness :
  let ts : gmap string task :=
    <[ "old" := finished_task completed 0 ]>
      (<[ "recent" := finished_task failed (minutes 30) ]> ∅) in
  cleanup_old_tasks (minutes 100) (cleanup_old_tasks (minutes 70) ts) =
  cleanup_old_tasks (minutes 100) ts /\
  cleanup_old_tasks (minutes 70) ts !! "recent" = ts !! "recent" /\
  cleanup_old_tasks (minutes 100) ts !! "recent" = None.
Proof.
  intros ts. split.
  - apply (cleanup_absorbs_earlier_sweep (minutes 70) (minutes 100) ts).
    vm_compute. discriminate.
  - rewrite !cleanup_old_tasks_lookup. split; vm_compute; reflexivity.
Defined.

(** X4. A submitted job stays visible while it is pending: polled at any
    later (or earlier) time, whatever else is in the store, the fresh task
    is reported with status [pending], no completion time and no result. *)
Theorem submitted_task_polls_pending
        (task_id : string) (now poll_time : Z) (w : world) :
  exists w',
    run (create_task task_id now ;;; get_task_status poll_time task_id) w =
    (inr {| task_status := pending; created_at := now; completed_at := None;
            task_result := None; message := None |}, w') /\
    task_writes w' = task_writes w.
Proof.
  unfold run, create_task, modify, ret, bind. cbv beta iota zeta.
  pose proof (get_task_status_run poll_time task_id
                (set_tasks
                   (insert task_id
                      {| task_status := pending; created_at := now; completed_at := None;
                         task_result := None; message := None |}) w)) as Hrun.
  unfold run in Hrun. rewrite Hrun. clear Hrun.
  assert (cleanup_old_tasks poll_time
            (tasks (set_tasks
                      (insert task_id
                         {| task_status := pending; created_at := now;
                            completed_at := None; task_result := None;
                            message := None |}) w)) !! task_id
          = Some {| task_status := pending; created_at := now; completed_at := None;
                    task_result := None; message := None |}) as ->.
  { apply cleanup_lookup_iff. split; [simpl; apply lookup_insert_eq |].
    intros [Hst _]. apply Hst. reflexivity. }
  eexists. split; reflexivity.
Qed.

(** ** The executor, continued *)

Lemma perform_google_auth_frame env task_id business_id persist_session w :
  forall other, other <> task_id ->
    tasks (snd (run (perform_google_auth env task_id business_id persist_session) w))
      !! other = tasks w !! other.
Proof.
  intros other Hne. unfold run.
  destruct (prologue env) as [msg|] eqn:Hp;
    [rewrite (perform_google_auth_aborted _ _ _ _ _ _ Hp); reflexivity |].
  destruct (tasks w !! task_id) as [t|] eqn:Ht.
  - rewrite (perform_google_auth_run _ _ _ _ _ _ Ht Hp). simpl.
    rewrite lookup_insert_ne by congruence.
    rewrite (proj1 (before_write_frame _ _ _ _)). reflexivity.
  - rewrite (perform_google_auth_unknown_task _ _ _ _ _ Ht Hp). simpl.
    rewrite (proj1 (before_write_frame _ _ _ _)). reflexivity.
Qed.

(** X5. A run of the executor touches no task but its own, never creates
    a task record, and keeps the creation time of the record it writes.  A
    run that gets past the statements before the [try] leaves its record
    in a terminal status; a run that is aborted there leaves the record as
    it was. *)
Theorem executor_touches_only_its_task
        (env : auth_env) (task_id business_id : string) (persist_session : option bool)
        (w : world) :
  (forall other, other <> task_id ->
     tasks (snd (run (perform_google_auth env task_id business_id persist_session) w))
       !! other = tasks w !! other) /\
  (forall t',
     tasks (snd (run (perform_google_auth env task_id business_id persist_session) w))
       !! task_id = Some t' ->
     exists t, tasks w !! task_id = Some t /\ created_at t' = created_at t /\
               (prologue env = None -> task_status t' <> pending) /\
               (forall msg, prologue env = Some msg -> t' = t)).
Proof.
  split; [apply perform_google_auth_frame |].
  intros t'. unfold run.
  destruct (prologue env) as [msg|] eqn:Hp.
  { rewrite (perform_google_auth_aborted _ _ _ _ _ _ Hp). simpl. intros Ht.
    exists t'. split; [exact Ht |]. split; [reflexivity |].
    split; [discriminate | reflexivity]. }
  destruct (tasks w !! task_id) as [t|] eqn:Ht.
  - rewrite (perform_google_auth_run _ _ _ _ _ _ Ht Hp). simpl.
    rewrite lookup_insert_eq. intros Heq. injection Heq as <-.
    exists t. split; [reflexivity |]. split; [reflexivity |].
    split; [| discriminate]. intros _.
    simpl. unfold terminal_write.
    destruct (course_of env); [| destruct (Classifier.classify _) | |]; discriminate.
  - rewrite (perform_google_auth_unknown_task _ _ _ _ _ Ht Hp). simpl.
    rewrite (proj1 (before_write_frame _ _ _ _)). congruence.
Qed.

Lemma terminal_write_any_world env task_id business_id w1 w2 :
  terminal_write env task_id business_id w1 = terminal_write env task_id business_id w2.
Proof.
  unfold terminal_write.
  destruct (course_of env); try reflexivity.
  destruct (Classifier.classify _); [| reflexivity].
  unfold success_update, extraction.
  destruct (context_cookies (agent_context env)); reflexivity.
Qed.

(** X6. The executor never consults the session store: a run that gets
    past the statements before the [try], on two process states that both
    hold the task, whatever sessions they hold in memory and on disk,
    writes the same update.  (A stored session is never loaded or applied
    by the job, so the reuse flag has no effect.) *)
Theorem executor_ignores_stored_sessions
        (env : auth_env) (task_id business_id : string) (persist_session : option bool)
        (w1 w2 : world) (t1 t2 : task) :
  prologue env = None ->
  tasks w1 !! task_id = Some t1 ->
  tasks w2 !! task_id = Some t2 ->
  exists u,
    task_writes (snd (run (perform_google_auth env task_id business_id persist_session) w1))
      = (task_writes w1 ++ [(task_id, u)])%list /\
    task_writes (snd (run (perform_google_auth env task_id business_id persist_session) w2))
      = (task_writes w2 ++ [(task_id, u)])%list /\
    tasks (snd (run (perform_google_auth env task_id business_id persist_session) w1))
      !! task_id = Some (dict_update t1 u) /\
    tasks (snd (run (perform_google_auth env task_id business_id persist_session) w2))
      !! task_id = Some (dict_update t2 u).
Proof.
  intros Hp H1 H2. exists (terminal_write env task_id business_id w1). unfold run.
  rewrite (perform_google_auth_run _ _ _ _ _ _ H1 Hp),
    (perform_google_auth_run _ _ _ _ _ _ H2 Hp).
  rewrite (terminal_write_any_world env task_id business_id w2 w1). simpl.
  rewrite !(proj2 (before_write_frame _ _ _ _)), !lookup_insert_eq.
  repeat split; reflexivity.
Qed.

Lemma executor_ignores_stored_sessions_witness :
  exists u,
    task_writes (snd (run (perform_google_auth (smooth_env "Login successful.")
                             "task-1" "biz-1" (Some true)) submitted_world))
      = [("task-1", u)] /\
    task_writes (snd (run (perform_google_auth (smooth_env "Login successful.")
                             "task-1" "biz-1" (Some true))
                        (set_browser_sessions
                           (insert "biz-1" (saved_record 0 empty_world [sid_cookie]
                                              None None None))
                           submitted_world)))
      = [("task-1", u)].
Proof.
  destruct (executor_ignores_stored_sessions (smooth_env "Login successful.")
              "task-1" "biz-1" (Some true) submitted_world
              (set_browser_sessions
                 (insert "biz-1" (saved_record 0 empty_world [sid_cookie] None None None))
                 submitted_world)
              {| task_status := pending; created_at := 0; completed_at := None;
                 task_result := None; message := None |}
              {| task_status := pending; created_at := 0; completed_at := None;
                 task_result := None; message := None |})
    as [u [Hw1 [Hw2 _]]].
  - reflexivity.
  - reflexivity.
  - reflexivity.
  - exists u. split; [exact Hw1 | exact Hw2].
Defined.

Lemma string_length_app (s1 s2 : string) :
  String.length (s1 +:+ s2) = (String.length s1 + String.length s2)%nat.
Proof.
  induction s1 as [|c s1 IH]; [reflexivity |].
  rewrite append_cons. simpl. rewrite IH. reflexivity.
Qed.

Lemma append_nil_r (s : string) : s +:+ "" = s.
Proof.
  induction s as [|c s IH]; [reflexivity |]. rewrite append_cons. congruence.
Qed.

Lemma substring_prefix (n : nat) (s : string) :
  exists rest, s = String.substring 0 n s +:+ rest.
Proof.
  revert s. induction n as [|n IH]; intros s.
  - exists s. destruct s; reflexivity.
  - destruct s as [|c s].
    + exists "". reflexivity.
    + destruct (IH s) as [rest Hrest]. exists rest.
      simpl. rewrite append_cons. congruence.
Qed.

Lemma substring_length (n : nat) (s : string) :
  String.length (String.substring 0 n s) = Nat.min n (String.length s).
Proof.
  revert s. induction n as [|n IH]; intros s.
  - destruct s; reflexivity.
  - destruct s as [|c s]; [reflexivity |]. simpl. rewrite IH. reflexivity.
Qed.

(** X7. The "details" of a classified failure are the first 500 characters
    of the agent's text: a prefix of it, never longer than 500, and the
    whole text when that has at most 500 characters. *)
Theorem failure_details_are_bounded
        (env : auth_env) (task_id business_id : string) (persist_session : option bool)
        (w : world) (t : task) (text code msg : string) :
  tasks w !! task_id = Some t ->
  course_of env = Classified text ->
  Classifier.classify text = Classifier.Rejected code msg ->
  exists t' r d,
    tasks (snd (run (perform_google_auth env task_id business_id persist_session) w))
      !! task_id = Some t' /\
    task_result t' = Some r /\
    error_code r = Some code /\ error r = Some msg /\
    details r = Some d /\
    (String.length d <= 500)%nat /\
    String.length d = Nat.min 500 (String.length text) /\
    (exists rest, text = d +:+ rest) /\
    ((String.length text <= 500)%nat -> d = text).
Proof.
  intros Ht Hcourse Hverdict. unfold run.
  rewrite (perform_google_auth_run _ _ _ _ _ _ Ht
             (classified_past_prologue _ _ Hcourse)). simpl.
  rewrite lookup_insert_eq. unfold terminal_write. rewrite Hcourse, Hverdict.
  eexists. eexists. exists (PyStr.take 500 text).
  split; [reflexivity |]. split; [reflexivity |].
  split; [reflexivity |]. split; [reflexivity |]. split; [reflexivity |].
  unfold PyStr.take.
  pose proof (substring_length 500 text) as Hlen.
  destruct (substring_prefix 500 text) as [rest Hrest].
  split; [lia |]. split; [exact Hlen |]. split; [exists rest; exact Hrest |].
  intros Hshort.
  assert (String.length rest = 0%nat) as Hnil.
  { apply (f_equal String.length) in Hrest.
    rewrite string_length_app in Hrest. lia. }
  destruct rest; [| discriminate].
  rewrite append_nil_r in Hrest. congruence.
Qed.

Lemma failure_details_are_bounded_witness :
  exists t' r,
    tasks (snd (run (perform_google_auth (smooth_env "The password is incorrect.")
                       "task-1" "biz-1" (Some true)) submitted_world)) !! "task-1"
      = Some t' /\
    task_result t' = Some r /\
    details r = Some "The password is incorrect.".
Proof.
  destruct (failure_details_are_bounded (smooth_env "The password is incorrect.")
              "task-1" "biz-1" (Some true) submitted_world
              {| task_status := pending; created_at := 0; completed_at := None;
                 task_result := None; message := None |}
              "The password is incorrect." "WRONG_PASSWORD"
              "Authentication failed: Wrong Password")
    as [t' [r [d [Hlook [Hres [_ [_ [Hdetails [_ [_ [_ Hwhole]]]]]]]]]]].
  - reflexivity.
  - reflexivity.
  - vm_compute. reflexivity.
  - exists t', r. split; [exact Hlook |]. split; [exact Hres |].
    rewrite Hdetails. f_equal. apply Hwhole. vm_compute. lia.
Defined.

(** X8. An executor whose task record is gone (terminated and then swept
    while the agent was still running) cannot report: in a run that gets
    past the statements before the [try] the write raises [KeyError], the
    outermost handler raises it again, the exception leaves the executor,
    and no task is written. *)
Theorem executor_on_removed_task_raises
        (env : auth_env) (task_id business_id : string) (persist_session : option bool)
        (w : world) :
  prologue env = None ->
  tasks w !! task_id = None ->
  exists w',
    run (perform_google_auth env task_id business_id persist_session) w
      = (inl (KeyError task_id), w') /\
    tasks w' = tasks w /\
    task_writes w' = task_writes w.
Proof.
  intros Hp Ht. eexists. split.
  - unfold run. apply (perform_google_auth_unknown_task _ _ _ _ _ Ht Hp).
  - apply before_write_frame.
Qed.

Lemma executor_on_removed_task_raises_witness :
  exists w',
    run (perform_google_auth (smooth_env "Login successful.") "task-1" "biz-1" (Some true))
        empty_world = (inl (KeyError "task-1"), w') /\
    tasks w' = ∅.
Proof.
  destruct (executor_on_removed_task_raises (smooth_env "Login successful.")
              "task-1" "biz-1" (Some true) empty_world)
    as [w' [Hrun [Htasks _]]].
  - reflexivity.
  - reflexivity.
  - exists w'. split; [exact Hrun | exact Htasks].
Defined.

(** ** Session storage, continued *)

Lemma files_of_set_files f w : session_files (set_session_files f w) = f (session_files w).
Proof. reflexivity. Qed.

Lemma files_of_set_sessions f w : session_files (set_browser_sessions f w) = session_files w.
Proof. reflexivity. Qed.

Lemma sessions_of_set_files f w :
  browser_sessions (set_session_files f w) = browser_sessions w.
Proof. reflexivity. Qed.

Lemma sessions_of_set_sessions f w :
  browser_sessions (set_browser_sessions f w) = f (browser_sessions w).
Proof. reflexivity. Qed.

Ltac world_fields :=
  rewrite ?files_of_set_files, ?files_of_set_sessions,
    ?sessions_of_set_files, ?sessions_of_set_sessions.

Lemma save_memory_lookup now disk k cs ls ss md w :
  browser_sessions (snd (save_browser_session now disk k cs ls ss md w)) !! k
  = Some (saved_record now w cs ls ss md).
Proof. destruct disk; simpl; apply lookup_insert_eq. Qed.

Lemma save_memory_other now disk k cs ls ss md w k' :
  k' <> k ->
  browser_sessions (snd (save_browser_session now disk k cs ls ss md w)) !! k'
  = browser_sessions w !! k'.
Proof. intros Hne. destruct disk; simpl; apply lookup_insert_ne; congruence. Qed.

(** X9. An authenticated job that persists its session (persistence not
    switched off, at least one cookie extracted) leaves a session that the
    session check finds at once, whatever the disk did: the check reports
    the number of cookies that the task result reports, and the session is
    unexpired for the seven days after the save. *)
Theorem authenticated_job_leaves_checkable_session
        (env : auth_env) (task_id business_id : string) (persist_session : option bool)
        (w : world) (t : task) (text : string) (cs : list cookie) (now : Z) :
  tasks w !! task_id = Some t ->
  course_of env = Classified text ->
  Classifier.classify text = Classifier.Authenticated ->
  persist_session <> Some false ->
  context_cookies (agent_context env) = inr cs ->
  cs <> [] ->
  exists w' t' r c,
    run (perform_google_auth env task_id business_id persist_session) w = (inr tt, w') /\
    tasks w' !! task_id = Some t' /\ task_result t' = Some r /\
    cookies_count r = Some (length cs) /\
    run (check_session now business_id) w' = (inr c, w') /\
    has_session c = true /\
    check_cookies_count c = Some (length cs) /\
    (is_expired c = Some false <-> now - saved_at env <= days 7).
Proof.
  intros Ht Hcourse Hverdict Hpersist Hcookies Hnonempty.
  eexists. eexists. eexists. eexists.
  split; [unfold run;
          apply (perform_google_auth_run _ _ _ _ _ _ Ht
                   (classified_past_prologue _ _ Hcourse)) |].
  split; [simpl; apply lookup_insert_eq |].
  unfold terminal_write, before_write. rewrite Hcourse, Hverdict.
  split; [reflexivity |].
  assert (Hcs : cookies (extraction (extracted_at env) (agent_context env) w) = cs)
    by (unfold extraction; rewrite Hcookies; reflexivity).
  split; [simpl; rewrite Hcs; reflexivity |].
  assert (Hcond : (default true persist_session &&
                   negb (bool_decide
                           (cookies (extraction (extracted_at env) (agent_context env) w)
                            = [])))%bool = true).
  { rewrite Hcs. rewrite bool_decide_eq_false_2 by exact Hnonempty.
    destruct persist_session as [[|]|]; [reflexivity | congruence | reflexivity]. }
  split.
  - apply (check_session_found now business_id
             (saved_record (saved_at env) w cs
                (Some (local_storage (extraction (extracted_at env) (agent_context env) w)))
                (Some (session_storage (extraction (extracted_at env) (agent_context env) w)))
                None)).
    apply load_from_memory. simpl. unfold after_persist. rewrite Hcond.
    rewrite save_memory_lookup, Hcs. reflexivity.
  - simpl. split; [reflexivity |]. split; [reflexivity |].
    rewrite expiration_check_iso, Z.gtb_ltb.
    destruct (Z.ltb_spec (days 7) (now - saved_at env)); split; intros; try lia; congruence.
Qed.

Lemma authenticated_job_leaves_checkable_session_witness :
  exists w' c,
    run (perform_google_auth
           (with_disk (OpenFails "disk full") (smooth_env "Login successful."))
           "task-1" "biz-1" None) submitted_world = (inr tt, w') /\
    run (check_session (days 3) "biz-1") w' = (inr c, w') /\
    check_cookies_count c = Some 2%nat /\
    is_expired c = Some false.
Proof.
  destruct (authenticated_job_leaves_checkable_session
              (with_disk (OpenFails "disk full") (smooth_env "Login successful."))
              "task-1" "biz-1" None submitted_world
              {| task_status := pending; created_at := 0; completed_at := None;
                 task_result := None; message := None |}
              "Login successful." [sid_cookie; hsid_cookie] (days 3))
    as [w' [t' [r [c [Hrun [_ [_ [_ [Hcheck [_ [Hcount Hfresh]]]]]]]]]]].
  - reflexivity.
  - reflexivity.
  - vm_compute. reflexivity.
  - discriminate.
  - reflexivity.
  - discriminate.
  - exists w', c. split; [exact Hrun |]. split; [exact Hcheck |].
    split; [exact Hcount |]. apply Hfresh. vm_compute. discriminate.
Defined.

(** X10. [load_browser_session] never raises and reads memory before
    disk: the value is the record in [browser_sessions] when there is one
    (whatever the file holds), else the record of a complete pickle file,
    else [None] (no file, or a file that does not unpickle).  Afterwards
    the in-memory entry of the key is the value returned; files, tasks and
    the entries of other keys are untouched. *)
Theorem load_reads_memory_then_disk (k : string) (w : world) :
  exists o w',
    run (load_browser_session k) w = (inr o, w') /\
    o = match browser_sessions w !! k with
        | Some d => Some d
        | None =>
            match session_files w !! session_file k with
            | Some (Pickled d) => Some d
            | Some Truncated => None
            | None => None
            end
        end /\
    browser_sessions w' !! k = o /\
    (forall k', k' <> k -> browser_sessions w' !! k' = browser_sessions w !! k') /\
    session_files w' = session_files w /\
    tasks w' = tasks w /\ task_writes w' = task_writes w.
Proof.
  destruct (browser_sessions w !! k) as [d|] eqn:Hmem.
  - exists (Some d), w. split; [apply load_from_memory; exact Hmem |].
    repeat split; try reflexivity. exact Hmem.
  - destruct (session_files w !! session_file k) as [[d|]|] eqn:Hdisk.
    + exists (Some d). eexists. split; [apply load_from_disk; assumption |].
      split; [reflexivity |]. split; [simpl; apply lookup_insert_eq |].
      split; [| repeat split].
      intros k' Hne. simpl. apply lookup_insert_ne. congruence.
    + exists None, w. split; [apply load_truncated; assumption |].
      repeat split; try reflexivity. exact Hmem.
    + exists None, w. split; [apply load_nothing; assumption |].
      repeat split; try reflexivity. exact Hmem.
Qed.

(** X11. Loading is idempotent: a second load of the same key returns
    what the first returned and changes nothing. *)
Theorem load_twice_is_load_once (k : string) (w : world) :
  run (load_browser_session k) (snd (run (load_browser_session k) w)) =
  (fst (run (load_browser_session k) w), snd (run (load_browser_session k) w)).
Proof.
  destruct (browser_sessions w !! k) as [d|] eqn:Hmem.
  - rewrite (load_from_memory k d w Hmem). simpl. apply load_from_memory. exact Hmem.
  - destruct (session_files w !! session_file k) as [[d|]|] eqn:Hdisk.
    + rewrite (load_from_disk k d w Hmem Hdisk). simpl.
      apply load_from_memory. simpl. apply lookup_insert_eq.
    + rewrite (load_truncated k w Hmem Hdisk). simpl. apply load_truncated; assumption.
    + rewrite (load_nothing k w Hmem Hdisk). simpl. apply load_nothing; assumption.
Qed.

Lemma append_inj_l (p s1 s2 : string) : p +:+ s1 = p +:+ s2 -> s1 = s2.
Proof.
  induction p as [|c p IH]; [exact (fun H => H) |].
  rewrite !append_cons. intros H. apply IH. congruence.
Qed.

Lemma append_inj_r (s1 s2 q : string) : s1 +:+ q = s2 +:+ q -> s1 = s2.
Proof.
  revert s2. induction s1 as [|c s1 IH]; intros s2 H.
  - destruct s2 as [|c2 s2]; [reflexivity |].
    apply (f_equal String.length) in H.
    rewrite !string_length_app in H. simpl in H. lia.
  - destruct s2 as [|c2 s2].
    + apply (f_equal String.length) in H.
      rewrite !string_length_app in H. simpl in H. lia.
    + rewrite !append_cons in H. injection H as -> H. f_equal. apply IH. exact H.
Qed.

Lemma fields_plain (s : string) :
  avoids "/" s = true -> PyPath.fields s = [s].
Proof.
  induction s as [|c s IH]; [reflexivity |].
  simpl. intros H. apply andb_true_iff in H as [Hc Hs].
  apply negb_true_iff in Hc. rewrite Hc, (IH Hs). reflexivity.
Qed.

Lemma avoids_append c0 a b : avoids c0 (a +:+ b) = (avoids c0 a && avoids c0 b)%bool.
Proof.
  induction a as [|c a IH]; [reflexivity |].
  rewrite append_cons. simpl. rewrite IH, andb_assoc. reflexivity.
Qed.

Lemma pickle_name_kept (k : string) : PyPath.kept (k +:+ ".pickle") = true.
Proof.
  destruct k as [|c k]; [reflexivity |].
  rewrite append_cons. unfold PyPath.kept. simpl.
  destruct (Ascii.eqb c "."); [| reflexivity].
  destruct k; reflexivity.
Qed.

Lemma pickle_name_relative (k : string) :
  avoids "/" k = true -> String.prefix "/" (k +:+ ".pickle") = false.
Proof.
  destruct k as [|c k]; [reflexivity |].
  rewrite append_cons. cbn [avoids]. intros H. apply andb_true_iff in H as [Hc _].
  apply negb_true_iff in Hc.
  destruct (String.prefix "/" (String c (k +:+ ".pickle"))) eqn:Hprefix; [| reflexivity].
  apply prefix_iff_append in Hprefix as [rest Hrest].
  change ("/" +:+ rest) with (String "/" rest) in Hrest.
  injection Hrest as -> _. rewrite Ascii.eqb_refl in Hc. discriminate.
Qed.

(** For a business id without a slash the session file is the file of
    that name in the session directory. *)
Lemma session_file_plain (k : string) :
  avoids "/" k = true -> session_file k = "browser_sessions/" +:+ k +:+ ".pickle".
Proof.
  intros Hk. unfold session_file, PyPath.under, PyPath.parts.
  rewrite (pickle_name_relative k Hk).
  rewrite fields_plain by (rewrite avoids_append, Hk; reflexivity).
  simpl. rewrite pickle_name_kept. reflexivity.
Qed.

(** Different ids without slashes have different files. *)
Lemma session_file_inj (k k' : string) :
  avoids "/" k = true -> avoids "/" k' = true ->
  session_file k = session_file k' -> k = k'.
Proof.
  intros Hk Hk' H. rewrite (session_file_plain k Hk), (session_file_plain k' Hk') in H.
  apply append_inj_l in H. apply append_inj_r in H. exact H.
Qed.

Lemma load_value (k : string) (w : world) :
  fst (run (load_browser_session k) w) =
  inr match browser_sessions w !! k with
      | Some d => Some d
      | None =>
          match session_files w !! session_file k with
          | Some (Pickled d) => Some d
          | Some Truncated => None
          | None => None
          end
      end.
Proof.
  destruct (browser_sessions w !! k) as [d|] eqn:Hmem.
  - rewrite (load_from_memory k d w Hmem). reflexivity.
  - destruct (session_files w !! session_file k) as [[d|]|] eqn:Hdisk.
    + rewrite (load_from_disk k d w Hmem Hdisk). reflexivity.
    + rewrite (load_truncated k w Hmem Hdisk). reflexivity.
    + rewrite (load_nothing k w Hmem Hdisk). reflexivity.
Qed.

Lemma save_files_other now disk k cs ls ss md w k' :
  session_file k' <> session_file k ->
  session_files (snd (save_browser_session now disk k cs ls ss md w)) !! session_file k'
  = session_files w !! session_file k'.
Proof.
  intros Hne.
  destruct disk;
    [ pose proof (save_written now k cs ls ss md w) as Hrun
    | pose proof (save_open_fails now msg k cs ls ss md w) as Hrun
    | pose proof (save_dump_fails now msg k cs ls ss md w) as Hrun ];
    unfold run in Hrun; rewrite Hrun; cbn [snd];
    rewrite ?files_of_set_files, ?files_of_set_sessions;
    try reflexivity; apply lookup_insert_ne; congruence.
Qed.

(** X12. Sessions of different accounts do not interfere as long as the
    business ids contain no slash: whatever a save under one such id does,
    in memory and on disk, a load of another such id returns what it would
    have returned before, in the running process and after a restart. *)
Theorem save_leaves_other_keys_alone
        (now : Z) (disk : write_outcome) (k k' : string) (cs : list cookie)
        (ls ss md : option (gmap string string)) (w : world) :
  avoids "/" k = true ->
  avoids "/" k' = true ->
  k' <> k ->
  fst (run (load_browser_session k')
         (snd (run (save_browser_session now disk k cs ls ss md) w)))
    = fst (run (load_browser_session k') w) /\
  fst (run (load_browser_session k')
         (restart (snd (run (save_browser_session now disk k cs ls ss md) w))))
    = fst (run (load_browser_session k') (restart w)).
Proof.
  intros Hk Hk' Hne.
  assert (Hfile : session_file k' <> session_file k)
    by (intros Heq; apply Hne; apply (session_file_inj k' k Hk' Hk Heq)).
  rewrite !load_value. unfold run. split.
  - rewrite (save_memory_other _ _ _ _ _ _ _ _ _ Hne).
    rewrite (save_files_other _ _ _ _ _ _ _ _ _ Hfile). reflexivity.
  - unfold restart. rewrite !sessions_of_set_sessions, !files_of_set_sessions.
    rewrite !lookup_empty.
    rewrite (save_files_other _ _ _ _ _ _ _ _ _ Hfile). reflexivity.
Qed.

Lemma save_leaves_other_keys_alone_witness :
  let w0 := snd (run (save_browser_session 1000 Written "biz-1" [sid_cookie]
                        None None None) empty_world) in
  fst (run (load_browser_session "biz-1")
         (snd (run (save_browser_session 2000 (DumpFails "disk full") "biz-2"
                      [hsid_cookie] None None None) w0)))
    = fst (run (load_browser_session "biz-1") w0).
Proof.
  intros w0.
  apply (save_leaves_other_keys_alone 2000 (DumpFails "disk full") "biz-2" "biz-1"
           [hsid_cookie] None None None w0).
  - reflexivity.
  - reflexivity.
  - discriminate.
Defined.

(** X13. A save that fails inside [pickle.dump] has already truncated the
    file: once the in-memory dictionary is gone, the key loads as [None],
    also when an earlier save had stored a session durably.  A save that
    fails on opening the file leaves the durable record as it was. *)
Theorem failed_dump_loses_the_durable_session
        (now : Z) (msg : string) (k : string) (cs : list cookie)
        (ls ss md : option (gmap string string)) (w : world) :
  fst (run (load_browser_session k)
         (restart (snd (run (save_browser_session now (DumpFails msg) k cs ls ss md) w))))
    = inr None /\
  fst (run (load_browser_session k)
         (restart (snd (run (save_browser_session now (OpenFails msg) k cs ls ss md) w))))
    = fst (run (load_browser_session k) (restart w)).
Proof.
  rewrite !load_value. unfold run. simpl. rewrite !lookup_empty.
  rewrite lookup_insert_eq. split; reflexivity.
Qed.

Example failed_dump_after_good_save :
  let w0 := snd (run (save_browser_session 1000 Written "biz-1" [sid_cookie]
                        None None None) empty_world) in
  (exists d, fst (run (load_browser_session "biz-1") (restart w0)) = inr (Some d)) /\
  fst (run (load_browser_session "biz-1")
         (restart (snd (run (save_browser_session 2000 (DumpFails "disk full") "biz-1"
                               [sid_cookie; hsid_cookie] None None None) w0))))
    = inr None.
Proof.
  intros w0. split.
  - eexists. vm_compute. reflexivity.
  - vm_compute. reflexivity.
Qed.

(** X14. [check_session] never raises.  Without a loadable session it
    answers [has_session = False] with no further field.  With one it
    answers the cookie count and an expiration flag that is the strict
    seven-day test for a timestamp that parses, [True] for any other text
    but "unknown", and [False] for "unknown" and for a record without
    timestamp. *)
Theorem check_session_outcomes (now : Z) (k : string) (w : world) :
  exists c w',
    run (check_session now k) w = (inr c, w') /\
    snd (run (load_browser_session k) w) = w' /\
    match fst (run (load_browser_session k) w) with
    | inr (Some d) =>
        has_session c = true /\
        check_cookies_count c = Some (length (cookies d)) /\
        check_error c = None /\
        is_expired c =
          Some match last_updated d with
               | Some (IsoOf t) => bool_decide (days 7 < now - t)
               | Some (NotIso text) => negb (String.eqb text "unknown")
               | None => false
               end
    | _ =>
        has_session c = false /\ check_cookies_count c = None /\ is_expired c = None /\
        check_message c = "No session found for this business"
    end.
Proof.
  destruct (load_total k w) as [o [w' Hload]].
  destruct o as [d|].
  - eexists. exists w'. split; [apply (check_session_found now k d w w' Hload) |].
    rewrite Hload. simpl. split; [reflexivity |].
    split; [reflexivity |]. split; [reflexivity |]. split; [reflexivity |].
    f_equal. destruct (last_updated d) as [[t|text]|]; simpl.
    + rewrite expiration_check_iso, Z.gtb_ltb.
      destruct (Z.ltb_spec (days 7) (now - t)).
      * rewrite bool_decide_eq_true_2 by assumption. reflexivity.
      * rewrite bool_decide_eq_false_2 by lia. reflexivity.
    + unfold expiration_check. simpl. destruct (String.eqb text "unknown"); reflexivity.
    + reflexivity.
  - eexists. exists w'. split.
    + unfold run in *. unfold check_session, try_except, bind. rewrite Hload. reflexivity.
    + rewrite Hload. simpl. repeat split.
Qed.

(** ** The outcome classifier, continued *)

Lemma classify_authenticated_iff (text : string) :
  Classifier.classify text = Classifier.Authenticated <->
  PyStr.any_in Classifier.success_indicators (PyStr.lower text) = true.
Proof.
  unfold Classifier.classify, Classifier.classify_lower.
  destruct (PyStr.any_in Classifier.success_indicators (PyStr.lower text)).
  - split; reflexivity.
  - destruct (Classifier.scan_failures _ _). split; discriminate.
Qed.

(** X15. Text without any phrase of the tables, the empty text included,
    is the generic failure LOGIN_FAILED, never a success. *)
Theorem classifier_defaults_to_login_failed (text : string) :
  PyStr.any_in Classifier.success_indicators (PyStr.lower text) = false ->
  (forall c ps, In (c, ps) Classifier.failure_indicators ->
                PyStr.any_in ps (PyStr.lower text) = false) ->
  Classifier.classify text =
  Classifier.Rejected "LOGIN_FAILED" "Failed to log in to Google".
Proof.
  intros Hsuccess Hnone. unfold Classifier.classify, Classifier.classify_lower.
  rewrite Hsuccess, (scan_failures_default _ _ Hnone). reflexivity.
Qed.

Lemma classifier_defaults_to_login_failed_witness :
  Classifier.classify "" = Classifier.Rejected "LOGIN_FAILED" "Failed to log in to Google".
Proof.
  apply (classifier_defaults_to_login_failed "").
  - vm_compute. reflexivity.
  - intros c ps Hin. unfold Classifier.failure_indicators in Hin. simpl in Hin.
    repeat (destruct Hin as [Hin|Hin];
            [injection Hin as <- <-; vm_compute; reflexivity |]).
    destruct Hin.
Defined.

Lemma scan_failures_sound items low :
  Classifier.scan_failures items low = ("LOGIN_FAILED", "Failed to log in to Google") \/
  exists c ps,
    In (c, ps) items /\ PyStr.any_in ps low = true /\
    Classifier.scan_failures items low =
    (c, "Authentication failed: " +:+ PyStr.title (PyStr.replace_char "_" " " c)).
Proof.
  induction items as [|[c ps] items IH]; simpl.
  - left. reflexivity.
  - destruct (PyStr.any_in ps low) eqn:Hhit.
    + right. exists c, ps. split; [left; reflexivity |]. split; [exact Hhit | reflexivity].
    + destruct IH as [IH | [c' [ps' [Hin [Hhit' Heq]]]]]; [left; exact IH | right].
      exists c', ps'. split; [right; exact Hin |]. split; [exact Hhit' | exact Heq].
Qed.

(** X16. The classifier never reports a specific code without evidence:
    a verdict is a success backed by a success phrase in the lower-cased
    text, or the generic LOGIN_FAILED, or a code of the table one of whose
    phrases occurs in the lower-cased text, with the message derived from
    the code. *)
Theorem classifier_codes_are_backed_by_phrases (text : string) :
  (Classifier.classify text = Classifier.Authenticated /\
   exists p, In p Classifier.success_indicators /\
             PyStr.contains (PyStr.lower text) p = true) \/
  Classifier.classify text =
    Classifier.Rejected "LOGIN_FAILED" "Failed to log in to Google" \/
  (exists c ps p,
      In (c, ps) Classifier.failure_indicators /\ In p ps /\
      PyStr.contains (PyStr.lower text) p = true /\
      Classifier.classify text =
        Classifier.Rejected c
          ("Authentication failed: " +:+ PyStr.title (PyStr.replace_char "_" " " c))).
Proof.
  unfold Classifier.classify, Classifier.classify_lower.
  destruct (PyStr.any_in Classifier.success_indicators (PyStr.lower text)) eqn:Hs.
  - left. split; [reflexivity |]. apply any_in_true_iff. exact Hs.
  - right.
    destruct (scan_failures_sound Classifier.failure_indicators (PyStr.lower text))
      as [-> | [c [ps [Hin [Hhit ->]]]]]; [left; reflexivity | right].
    apply any_in_true_iff in Hhit as [p [Hp Hcontains]].
    exists c, ps, p. repeat split; assumption.
Qed.

Lemma lower_app (s1 s2 : string) :
  PyStr.lower (s1 +:+ s2) = PyStr.lower s1 +:+ PyStr.lower s2.
Proof.
  induction s1 as [|c s1 IH]; [reflexivity |].
  rewrite append_cons. simpl. rewrite append_cons, IH. reflexivity.
Qed.

Lemma append_assoc (s1 s2 s3 : string) :
  (s1 +:+ s2) +:+ s3 = s1 +:+ (s2 +:+ s3).
Proof.
  induction s1 as [|c s1 IH]; [reflexivity |].
  rewrite !append_cons, IH. reflexivity.
Qed.

Lemma contains_in_context (s p before after : string) :
  PyStr.contains s p = true ->
  PyStr.contains (before +:+ s +:+ after) p = true.
Proof.
  rewrite !contains_iff_occurs. intros [x [y ->]].
  exists (before +:+ x), (y +:+ after). rewrite !append_assoc. reflexivity.
Qed.

(** X17. A success verdict is stable under context: if a text classifies
    as success, so does every text that contains it, whatever is put before
    and after it (failure phrases included). *)
Theorem classifier_success_survives_context (text before after : string) :
  Classifier.classify text = Classifier.Authenticated ->
  Classifier.classify (before +:+ text +:+ after) = Classifier.Authenticated.
Proof.
  rewrite !classify_authenticated_iff, !any_in_true_iff.
  intros [p [Hin Hcontains]]. exists p. split; [exact Hin |].
  rewrite !lower_app. apply contains_in_context. exact Hcontains.
Qed.

Lemma classifier_success_survives_context_witness :
  Classifier.classify ("Wrong password at first. " +:+ "Login successful." +:+
                       " Then a captcha appeared.") = Classifier.Authenticated.
Proof.
  apply (classifier_success_survives_context "Login successful.").
  vm_compute. reflexivity.
Defined.

(** ** The progress callback *)

Section SplitFacts.
Import PyText.

Lemma split_from_cons sep k c s :
  split_from sep k (String c s) =
  match k with
  | S k' => split_from sep k' s
  | O =>
      if String.prefix sep (String c s)
      then "" :: split_from sep (String.length sep - 1) s
      else match split_from sep 0 s with
           | field :: fields => String c field :: fields
           | [] => [String c ""]
           end
  end.
Proof. reflexivity. Qed.

Lemma split_from_nonempty sep k s : split_from sep k s <> [].
Proof.
  revert k. induction s as [|c s IH]; intros k.
  - discriminate.
  - rewrite split_from_cons. destruct k as [|k]; [| apply IH].
    destruct (String.prefix sep (String c s)); [discriminate |].
    destruct (split_from sep 0 s); discriminate.
Qed.

Lemma split_from_skip_all sep x s :
  split_from sep (String.length x) (x +:+ s) = split_from sep 0 s.
Proof.
  induction x as [|c x IH]; [reflexivity |].
  rewrite append_cons. simpl String.length. rewrite split_from_cons. exact IH.
Qed.

(** [(sep + s).split(sep) == [""] + s.split(sep)] *)
Lemma split_after_separator c0 sep' s :
  split (String c0 sep') (String c0 sep' +:+ s) = "" :: split (String c0 sep') s.
Proof.
  unfold split. rewrite append_cons, split_from_cons.
  assert (String.prefix (String c0 sep') (String c0 (sep' +:+ s)) = true) as ->.
  { apply prefix_iff_append. exists s. rewrite append_cons. reflexivity. }
  replace (String.length (String c0 sep') - 1)%nat with (String.length sep')
    by (simpl; lia).
  rewrite split_from_skip_all. reflexivity.
Qed.

Lemma prefix_other_head c0 sep' c s :
  Ascii.eqb c c0 = false -> String.prefix (String c0 sep') (String c s) = false.
Proof.
  intros Hne. simpl. destruct (Ascii.ascii_dec c0 c) as [->|]; [| reflexivity].
  rewrite Ascii.eqb_refl in Hne. discriminate.
Qed.

(** The first field runs over every character that cannot start the
    separator. *)
Lemma first_field_app c0 sep' a s :
  avoids c0 a = true ->
  item 0 (split (String c0 sep') (a +:+ s)) = a +:+ item 0 (split (String c0 sep') s).
Proof.
  induction a as [|c a IH]; intros Ha.
  - reflexivity.
  - simpl in Ha. apply andb_true_iff in Ha as [Hc Ha].
    apply negb_true_iff in Hc. specialize (IH Ha).
    rewrite !append_cons. unfold split in *. rewrite split_from_cons.
    rewrite (prefix_other_head c0 sep' c _ Hc).
    pose proof (split_from_nonempty (String c0 sep') 0 (a +:+ s)) as Hne.
    destruct (split_from (String c0 sep') 0 (a +:+ s)) as [|f fs]; [congruence |].
    unfold item in *. simpl in *. congruence.
Qed.

Lemma first_field_at_separator c0 sep' s :
  item 0 (split (String c0 sep') (String c0 sep' +:+ s)) = "".
Proof. rewrite split_after_separator. reflexivity. Qed.

Lemma rstrip_app a b :
  ends_unspaced a = true -> rstrip (a +:+ b) = a +:+ rstrip b.
Proof.
  induction a as [|c a IH]; intros Ha; [discriminate |].
  rewrite append_cons. simpl. destruct a as [|c' a].
  - simpl in Ha. apply negb_true_iff in Ha. rewrite Ha, append_nil_l. reflexivity.
  - rewrite (IH Ha), append_cons. rewrite andb_false_r. reflexivity.
Qed.

Lemma digits_avoid c0 ds :
  is_digit c0 = false -> all_digits ds = true -> avoids c0 ds = true.
Proof.
  intros Hc0. induction ds as [|c ds IH]; [reflexivity |].
  simpl. intros H. apply andb_true_iff in H as [Hc Hds].
  rewrite (IH Hds), andb_true_r. apply negb_true_iff.
  destruct (Ascii.eqb c c0) eqn:Heq; [| reflexivity].
  apply Ascii.eqb_eq in Heq. subst c. congruence.
Qed.

Lemma digits_unspaced ds :
  isdigit ds = true -> ends_unspaced (ds +:+ " completed -") = true.
Proof.
  intros _. induction ds as [|c ds IH]; [reflexivity |].
  rewrite append_cons. simpl. destruct (ds +:+ " completed -") eqn:Hd; [| exact IH].
  destruct ds; discriminate.
Qed.

Lemma avoids_app c0 a b : avoids c0 (a +:+ b) = (avoids c0 a && avoids c0 b)%bool.
Proof.
  induction a as [|c a IH]; [reflexivity |].
  rewrite append_cons. simpl. rewrite IH, andb_assoc. reflexivity.
Qed.

End SplitFacts.

Section TrackerFacts.
Import PyText.

Lemma ends_unspaced_app p x :
  x <> "" -> ends_unspaced (p +:+ x) = ends_unspaced x.
Proof.
  intros Hx. induction p as [|c p IH]; [reflexivity |].
  rewrite append_cons. simpl. destruct (p +:+ x) eqn:Hpx; [| exact IH].
  destruct p; [rewrite append_nil_l in Hpx; congruence | discriminate].
Qed.

Lemma item_1_after_separator c0 sep' s :
  item 1 (split (String c0 sep') (String c0 sep' +:+ s)) =
  item 0 (split (String c0 sep') s).
Proof. rewrite split_after_separator. reflexivity. Qed.

Lemma track_success_keeps_progress message tr :
  progress_percent (track_success message tr) = progress_percent tr /\
  steps_completed (track_success message tr) = steps_completed tr.
Proof.
  unfold track_success.
  destruct (PyStr.any_in tracker_success_phrases (PyStr.lower message)); split; reflexivity.
Qed.

(** The line that the callback reads off a well-formed progress marker,
    and the step number it reads off that line. *)
Lemma progress_line_of_marker ds desc :
  isdigit ds = true ->
  exists tail,
    item 0 (split newline
              (strip (item 1 (split "PROGRESS:"
                                ("PROGRESS: Step " +:+ ds +:+ " completed - " +:+ desc)))))
    = "Step " +:+ ds +:+ " completed -" +:+ tail.
Proof.
  intros Hds.
  assert (Hall : all_digits ds = true)
    by (unfold isdigit in Hds; apply andb_true_iff in Hds; tauto).
  change ("PROGRESS: Step " +:+ ds +:+ " completed - " +:+ desc)
    with ("PROGRESS:" +:+ (" Step " +:+ ds +:+ " completed - " +:+ desc)).
  rewrite item_1_after_separator.
  replace (" Step " +:+ ds +:+ " completed - " +:+ desc)
    with ((" Step " +:+ ds +:+ " completed - ") +:+ desc)
    by (rewrite !append_assoc; reflexivity).
  rewrite first_field_app.
  2:{ rewrite !avoids_app, (digits_avoid "P" ds eq_refl Hall). reflexivity. }
  set (d1 := item 0 (split "PROGRESS:" desc)).
  assert (Hstrip :
            strip ((" Step " +:+ ds +:+ " completed - ") +:+ d1)
            = ("Step " +:+ ds +:+ " completed -") +:+ rstrip (" " +:+ d1)).
  { unfold strip.
    change (lstrip ((" Step " +:+ ds +:+ " completed - ") +:+ d1))
      with (("Step " +:+ ds +:+ " completed - ") +:+ d1).
    replace (("Step " +:+ ds +:+ " completed - ") +:+ d1)
      with (("Step " +:+ ds +:+ " completed -") +:+ (" " +:+ d1)).
    - apply rstrip_app. rewrite ends_unspaced_app.
      + apply digits_unspaced. exact Hds.
      + destruct ds; discriminate.
    - rewrite !append_assoc. reflexivity. }
  rewrite Hstrip. unfold newline. rewrite first_field_app.
  2:{ rewrite !avoids_app, (digits_avoid (ascii_of_nat 10) ds eq_refl Hall). reflexivity. }
  eexists. rewrite !append_assoc. reflexivity.
Qed.

Lemma step_number_of_line ds tail :
  isdigit ds = true ->
  item 0 (split " " (item 1 (split "Step " ("Step " +:+ ds +:+ " completed -" +:+ tail))))
  = ds.
Proof.
  intros Hds.
  assert (Hall : all_digits ds = true)
    by (unfold isdigit in Hds; apply andb_true_iff in Hds; tauto).
  rewrite item_1_after_separator.
  replace (ds +:+ " completed -" +:+ tail)
    with ((ds +:+ " completed -") +:+ tail) by (rewrite !append_assoc; reflexivity).
  rewrite first_field_app.
  2:{ rewrite avoids_app, (digits_avoid "S" ds eq_refl Hall). reflexivity. }
  replace ((ds +:+ " completed -") +:+ item 0 (split "Step " tail))
    with (ds +:+ (" " +:+ ("completed -" +:+ item 0 (split "Step " tail))))
    by (rewrite !append_assoc; reflexivity).
  rewrite first_field_app by (apply digits_avoid; [reflexivity | exact Hall]).
  rewrite first_field_at_separator. apply append_nil_r.
Qed.

End TrackerFacts.

(** X18. A progress marker of the announced shape, "PROGRESS: Step N
    completed - description" with N a non-empty string of at most 4300
    decimal digits (the limit beyond which [int] raises) and any
    description, is recorded as one more step whose line starts with
    "Step N completed -", and sets the estimate to [min(90, 8 N)]. *)
Theorem progress_marker_sets_percent
        (now : Z) (ds desc : string) (tr : tracking) :
  PyText.isdigit ds = true ->
  (String.length ds <= PyText.int_max_str_digits)%nat ->
  exists tail,
    steps_completed
      (track_progress_callback now
         ("PROGRESS: Step " +:+ ds +:+ " completed - " +:+ desc) tr)
      = (steps_completed tr ++ [(now, "Step " +:+ ds +:+ " completed -" +:+ tail)])%list /\
    progress_percent
      (track_progress_callback now
         ("PROGRESS: Step " +:+ ds +:+ " completed - " +:+ desc) tr)
      = Some (Nat.min 90 (PyText.decimal ds * 8)).
Proof.
  intros Hds Hlen.
  destruct (progress_line_of_marker ds desc Hds) as [tail Hline].
  exists tail. unfold track_progress_callback, track_progress.
  assert (PyStr.contains ("PROGRESS: Step " +:+ ds +:+ " completed - " +:+ desc)
            "PROGRESS:" = true) as ->.
  { apply contains_iff_occurs.
    exists "", (" Step " +:+ ds +:+ " completed - " +:+ desc). reflexivity. }
  rewrite Hline. cbv beta iota zeta.
  assert (PyStr.contains ("Step " +:+ ds +:+ " completed -" +:+ tail) "Step " = true) as ->.
  { apply contains_iff_occurs. exists "", (ds +:+ " completed -" +:+ tail). reflexivity. }
  assert (PyStr.contains ("Step " +:+ ds +:+ " completed -" +:+ tail) " completed" = true)
    as ->.
  { apply contains_iff_occurs. exists ("Step " +:+ ds), (" -" +:+ tail).
    rewrite !append_assoc. reflexivity. }
  rewrite (step_number_of_line ds tail Hds), Hds.
  unfold PyText.int. rewrite (proj2 (Nat.leb_le _ _) Hlen).
  change (true && true)%bool with true. cbv beta iota.
  match goal with
  | |- context [track_success ?m ?x] =>
      destruct (track_success_keeps_progress m x) as [-> ->]
  end.
  split; reflexivity.
Qed.

Lemma progress_marker_sets_percent_witness :
  progress_percent
    (track_progress_callback 7
       ("PROGRESS: Step " +:+ "4" +:+ " completed - " +:+ "Found and clicked email field")
       empty_tracking) = Some 32%nat /\
  progress_percent
    (track_progress_callback 7
       ("PROGRESS: Step " +:+ "12" +:+ " completed - " +:+ "done") empty_tracking)
    = Some 90%nat.
Proof.
  split.
  - destruct (progress_marker_sets_percent 7 "4" "Found and clicked email field"
                empty_tracking) as [tail [_ Hpercent]].
    + reflexivity.
    + vm_compute. lia.
    + rewrite Hpercent. reflexivity.
  - destruct (progress_marker_sets_percent 7 "12" "done" empty_tracking)
      as [tail [_ Hpercent]].
    + reflexivity.
    + vm_compute. lia.
    + rewrite Hpercent. reflexivity.
Defined.

Lemma track_progress_shape now message tr :
  (forall p, progress_percent tr = Some p -> (p <= 90)%nat) ->
  (forall p, progress_percent (snd (track_progress now message tr)) = Some p ->
             (p <= 90)%nat) /\
  (exists added,
      steps_completed (snd (track_progress now message tr))
        = (steps_completed tr ++ added)%list /\
      length added = if PyStr.contains message "PROGRESS:" then 1%nat else 0%nat) /\
  (success_detected tr = true ->
   success_detected (snd (track_progress now message tr)) = true).
Proof.
  intros Hbound. unfold track_progress.
  destruct (PyStr.contains message "PROGRESS:").
  2:{ split; [exact Hbound |]. split; [| exact (fun H => H)].
      exists []. split; [rewrite app_nil_r; reflexivity | reflexivity]. }
  cbv zeta.
  destruct (_ && _)%bool.
  2:{ split; [exact Hbound |]. split; [| exact (fun H => H)].
      eexists. split; reflexivity. }
  destruct (PyText.isdigit _).
  2:{ split; [exact Hbound |]. split; [| exact (fun H => H)].
      eexists. split; reflexivity. }
  destruct (PyText.int _) as [e|n].
  - split; [exact Hbound |]. split; [| exact (fun H => H)].
    eexists. split; reflexivity.
  - split; [| split; [| exact (fun H => H)]].
    + intros p Heq. injection Heq as <-. unfold step_percent. apply Nat.le_min_l.
    + eexists. split; reflexivity.
Qed.

(** X19. Whatever the message, the callback keeps the trace in shape: the
    estimate stays at most 90, the recorded steps are kept and at most one
    is added (exactly one when the message contains "PROGRESS:"), and a
    detected success is never taken back. *)
Theorem progress_callback_keeps_trace_in_shape
        (now : Z) (message : string) (tr : tracking) :
  (forall p, progress_percent tr = Some p -> (p <= 90)%nat) ->
  (forall p, progress_percent (track_progress_callback now message tr) = Some p ->
             (p <= 90)%nat) /\
  (exists added,
      steps_completed (track_progress_callback now message tr)
        = (steps_completed tr ++ added)%list /\
      length added = if PyStr.contains message "PROGRESS:" then 1%nat else 0%nat) /\
  (success_detected tr = true ->
   success_detected (track_progress_callback now message tr) = true).
Proof.
  intros Hbound.
  destruct (track_progress_shape now message tr Hbound) as [Hp [Hs Hd]].
  unfold track_progress_callback.
  destruct (track_progress now message tr) as [[e|[]] tr1]; simpl in Hp, Hs, Hd.
  - split; [exact Hp |]. split; [exact Hs | exact Hd].
  - destruct (track_success_keeps_progress message tr1) as [Hp' Hs'].
    rewrite Hp', Hs'. split; [exact Hp |]. split; [exact Hs |].
    intros Hdetected. unfold track_success.
    destruct (PyStr.any_in tracker_success_phrases (PyStr.lower message));
      [reflexivity | apply Hd; exact Hdetected].
Qed.

Lemma progress_callback_keeps_trace_in_shape_witness :
  exists p,
    progress_percent
      (track_progress_callback 7 "PROGRESS: Step 999 completed - far too many"
         empty_tracking) = Some p /\
    (p <= 90)%nat.
Proof.
  exists 90%nat.
  assert (Hp : progress_percent
                 (track_progress_callback 7 "PROGRESS: Step 999 completed - far too many"
                    empty_tracking) = Some 90%nat) by (vm_compute; reflexivity).
  split; [exact Hp |].
  destruct (progress_callback_keeps_trace_in_shape 7
              "PROGRESS: Step 999 completed - far too many" empty_tracking)
    as [Hbound _].
  - intros p H. discriminate.
  - apply (Hbound 90%nat Hp).
Defined.

Lemma tracker_phrases_are_success_indicators p :
  In p tracker_success_phrases -> In p Classifier.success_indicators.
Proof.
  unfold tracker_success_phrases, Classifier.success_indicators. simpl.
  intros [<-|[<-|[<-|[<-|[]]]]]; tauto.
Qed.

(** X20. The early success flag agrees with the final verdict: a message
    on which the callback raises [success_detected] is one that the
    outcome classifier, given the same text as final result, classifies as
    success. *)
Theorem early_success_flag_implies_success_verdict
        (now : Z) (message : string) (tr : tracking) :
  success_detected tr = false ->
  success_detected (track_progress_callback now message tr) = true ->
  Classifier.classify message = Classifier.Authenticated.
Proof.
  intros Hbefore Hafter. apply classify_authenticated_iff.
  destruct (PyStr.any_in tracker_success_phrases (PyStr.lower message)) eqn:Hany.
  - apply any_in_true_iff in Hany as [p [Hin Hcontains]].
    apply any_in_true_iff. exists p.
    split; [apply tracker_phrases_are_success_indicators; exact Hin | exact Hcontains].
  - exfalso.
    assert (Hkept : success_detected (snd (track_progress now message tr)) = false).
    { unfold track_progress.
      destruct (PyStr.contains message "PROGRESS:"); [| exact Hbefore].
      cbv zeta. destruct (_ && _)%bool; [| exact Hbefore].
      destruct (PyText.isdigit _); [| exact Hbefore].
      destruct (PyText.int _); exact Hbefore. }
    unfold track_progress_callback, track_success in Hafter. rewrite Hany in Hafter.
    destruct (track_progress now message tr) as [[e|[]] tr1]; simpl in Hkept; congruence.
Qed.

Lemma early_success_flag_implies_success_verdict_witness :
  Classifier.classify "Reached Google account page" = Classifier.Authenticated.
Proof.
  apply (early_success_flag_implies_success_verdict 7 "Reached Google account page"
           empty_tracking).
  - reflexivity.
  - vm_compute. reflexivity.
Defined.

(** ** Applying a session to a browser *)

Lemma add_cookies_fold b cs fx :
  cookies_added (fold_left (add_cookie b) cs fx)
    = (cookies_added fx ++ List.filter (accepts_cookie b) cs)%list /\
  scripts_evaluated (fold_left (add_cookie b) cs fx) = scripts_evaluated fx.
Proof.
  revert fx. induction cs as [|c cs IH]; intros fx; simpl.
  - rewrite app_nil_r. split; reflexivity.
  - destruct (IH (add_cookie b fx c)) as [-> ->].
    unfold add_cookie, accepts_cookie.
    destruct (has_page b), (add_cookies_raises b c); simpl;
      rewrite <- ?app_assoc; split; reflexivity.
Qed.

Lemma set_items_fold b storage kvs fx :
  cookies_added (fold_left (set_item b storage) kvs fx) = cookies_added fx /\
  scripts_evaluated (fold_left (set_item b storage) kvs fx)
    = (scripts_evaluated fx ++
       List.filter (fun script => negb (evaluate_raises b script))
         (List.map (fun kv => set_item_script storage (fst kv) (snd kv)) kvs))%list.
Proof.
  revert fx. induction kvs as [|kv kvs IH]; intros fx; simpl.
  - rewrite app_nil_r. split; reflexivity.
  - destruct (IH (set_item b storage fx kv)) as [-> ->].
    unfold set_item.
    destruct (evaluate_raises b (set_item_script storage (fst kv) (snd kv))); simpl;
      rewrite <- ?app_assoc; split; reflexivity.
Qed.

Lemma apply_storage_effects b storage items fx :
  cookies_added (apply_storage b storage items fx) = cookies_added fx /\
  forall script,
    In script (scripts_evaluated (apply_storage b storage items fx)) <->
    In script (scripts_evaluated fx) \/
    (has_page b = true /\ page_has_evaluate b = true /\
     evaluate_raises b script = false /\
     exists key value, items !! key = Some value /\
                       script = set_item_script storage key value).
Proof.
  unfold apply_storage.
  destruct (negb (bool_decide (items = ∅)) && has_page b && page_has_evaluate b)%bool
    eqn:Hcond.
  - apply andb_true_iff in Hcond as [Hcond Heval].
    apply andb_true_iff in Hcond as [_ Hpage].
    destruct (set_items_fold b storage (map_to_list items) fx) as [-> ->].
    split; [reflexivity |]. intros script.
    rewrite in_app_iff, filter_In, in_map_iff, negb_true_iff. split.
    + intros [H | [[[key value] [<- Hin]] Hok]]; [left; exact H | right].
      apply list_elem_of_In, elem_of_map_to_list in Hin.
      repeat split; try assumption. exists key, value. split; [exact Hin | reflexivity].
    + intros [H | [_ [_ [Hok [key [value [Hin ->]]]]]]]; [left; exact H | right].
      split; [| exact Hok]. exists (key, value). split; [reflexivity |].
      apply list_elem_of_In, elem_of_map_to_list. exact Hin.
  - split; [reflexivity |]. intros script. split; [intros H; left; exact H |].
    intros [H | [Hpage [Heval [_ [key [value [Hin _]]]]]]]; [exact H | exfalso].
    rewrite Hpage, Heval, !andb_true_r in Hcond. apply negb_false_iff in Hcond.
    apply bool_decide_eq_true_1 in Hcond. subst items.
    rewrite lookup_empty in Hin. discriminate.
Qed.

(** X21. A session is applied exactly when it has at least one cookie:
    [apply_session_to_browser] returns [True] for such a session, whatever
    the browser refuses, and [False] for no session or a session without
    cookies, in which case nothing at all is sent to the browser, not even
    the stored local and session storage. *)
Theorem apply_session_needs_cookies
        (b : browser_instance) (s : option session_data) (fx : browser_effects) :
  (fst (apply_session_to_browser b s fx) = true <->
   exists d, s = Some d /\ cookies d <> []) /\
  (fst (apply_session_to_browser b s fx) = false ->
   snd (apply_session_to_browser b s fx) = fx).
Proof.
  unfold apply_session_to_browser. destruct s as [d|]; simpl.
  - destruct (bool_decide (cookies d = [])) eqn:Hd; simpl.
    + apply bool_decide_eq_true_1 in Hd. split; [| reflexivity].
      split; [discriminate |]. intros [d' [Heq Hne]]. injection Heq as <-. contradiction.
    + apply bool_decide_eq_false_1 in Hd. split; [| discriminate].
      split; [| reflexivity]. intros _. exists d. split; [reflexivity | exact Hd].
  - split; [| reflexivity]. split; [discriminate |]. intros [d [Heq _]]. discriminate.
Qed.

(** X22. Applying a session is best effort, item by item.  The cookies
    that the browser accepts are added in the order of the session, a
    refused cookie neither stops the loop nor changes the result.  A
    storage item reaches the browser exactly when the browser has a page
    with [evaluate] and does not refuse the item's script; no other script
    is sent. *)
Theorem apply_session_is_best_effort
        (b : browser_instance) (d : session_data) (fx : browser_effects) :
  cookies d <> [] ->
  fst (apply_session_to_browser b (Some d) fx) = true /\
  cookies_added (snd (apply_session_to_browser b (Some d) fx))
    = (cookies_added fx ++ List.filter (accepts_cookie b) (cookies d))%list /\
  (forall script,
     In script (scripts_evaluated (snd (apply_session_to_browser b (Some d) fx))) <->
     In script (scripts_evaluated fx) \/
     (has_page b = true /\ page_has_evaluate b = true /\
      evaluate_raises b script = false /\
      exists key value,
        (local_storage d !! key = Some value /\
         script = set_item_script "localStorage" key value) \/
        (session_storage d !! key = Some value /\
         script = set_item_script "sessionStorage" key value))).
Proof.
  intros Hne. unfold apply_session_to_browser.
  rewrite bool_decide_eq_false_2 by exact Hne. simpl.
  split; [reflexivity |].
  set (fx1 := fold_left (add_cookie b) (cookies d) fx).
  set (fx2 := apply_storage b "localStorage" (local_storage d) fx1).
  destruct (add_cookies_fold b (cookies d) fx) as [Hc1 Hs1]. fold fx1 in Hc1, Hs1.
  destruct (apply_storage_effects b "localStorage" (local_storage d) fx1) as [Hc2 Hs2].
  fold fx2 in Hc2, Hs2.
  destruct (apply_storage_effects b "sessionStorage" (session_storage d) fx2)
    as [Hc3 Hs3].
  split; [rewrite Hc3, Hc2, Hc1; reflexivity |].
  intros script. rewrite Hs3, Hs2, Hs1. split.
  - intros [[H | [Hp [He [Hok [k [v [Hin Hsc]]]]]]] | [Hp [He [Hok [k [v [Hin Hsc]]]]]]].
    + left. exact H.
    + right. repeat split; try assumption. exists k, v. left. split; assumption.
    + right. repeat split; try assumption. exists k, v. right. split; assumption.
  - intros [H | [Hp [He [Hok [k [v [[Hin Hsc] | [Hin Hsc]]]]]]]].
    + left. left. exact H.
    + left. right. repeat split; try assumption. exists k, v. split; assumption.
    + right. repeat split; try assumption. exists k, v. split; assumption.
Qed.

(** ** Properties kept by the operations *)

Section Keeps.
Context {P : world -> Prop}.

Lemma keeps_ret {A} (a : A) : keeps P (ret a).
Proof. intros w Hw. exact Hw. Qed.

Lemma keeps_raise {A} (e : exn) : keeps P (@raise A e).
Proof. intros w Hw. exact Hw. Qed.

Lemma keeps_raise_if (o : option string) : keeps P (raise_if o).
Proof. destruct o; [apply keeps_raise | apply keeps_ret]. Qed.

Lemma keeps_bind {A B} (m : M A) (k : A -> M B) :
  keeps P m -> (forall a, keeps P (k a)) -> keeps P (bind m k).
Proof.
  intros Hm Hk w Hw. unfold bind. specialize (Hm w Hw).
  destruct (m w) as [[e|a] w']; simpl in *; [exact Hm | apply Hk; exact Hm].
Qed.

Lemma keeps_try_except {A} (body : M A) (handler : exn -> M A) :
  keeps P body -> (forall e, keeps P (handler e)) -> keeps P (try_except body handler).
Proof.
  intros Hm Hh w Hw. unfold try_except. specialize (Hm w Hw).
  destruct (body w) as [[e|a] w']; simpl in *; [apply Hh; exact Hm | exact Hm].
Qed.

Lemma keeps_try_except_timeout {A} (body handler : M A) :
  keeps P body -> keeps P handler -> keeps P (try_except_timeout body handler).
Proof.
  intros Hm Hh w Hw. unfold try_except_timeout. specialize (Hm w Hw).
  destruct (body w) as [[[]|a] w']; simpl in *; try exact Hm. apply Hh. exact Hm.
Qed.

Lemma keeps_extract (now : Z) (ctx : browsing_context) :
  keeps P (extract_browser_session now ctx).
Proof. intros w Hw. rewrite extract_browser_session_run. exact Hw. Qed.

End Keeps.

Lemma save_keeps_sessions_usable now disk k cs ls ss md :
  cs <> [] -> keeps sessions_usable (save_browser_session now disk k cs ls ss md).
Proof.
  intros Hcs w [Hmem Hdisk].
  assert (Hrec : session_usable (saved_record now w cs ls ss md))
    by (split; [exact Hcs | exists now; reflexivity]).
  assert (Hmem' : forall k' d,
             <[k := saved_record now w cs ls ss md]> (browser_sessions w) !! k' = Some d ->
             session_usable d).
  { intros k' d. destruct (decide (k = k')) as [<-|Hne].
    - rewrite lookup_insert_eq. intros Heq. injection Heq as <-. exact Hrec.
    - rewrite lookup_insert_ne by exact Hne. apply Hmem. }
  destruct disk as [|msg|msg];
    cbn [save_browser_session] ;
    [ pose proof (save_written now k cs ls ss md w) as Hrun
    | pose proof (save_open_fails now msg k cs ls ss md w) as Hrun
    | pose proof (save_dump_fails now msg k cs ls ss md w) as Hrun ];
    unfold run in Hrun; rewrite Hrun; unfold sessions_usable;
    cbn [snd]; world_fields;
    (split; [exact Hmem' |]).
  - intros path d. destruct (decide (session_file k = path)) as [<-|Hne].
    + rewrite lookup_insert_eq. intros Heq. injection Heq as <-. exact Hrec.
    + rewrite lookup_insert_ne by exact Hne. apply Hdisk.
  - exact Hdisk.
  - intros path d. destruct (decide (session_file k = path)) as [<-|Hne].
    + rewrite lookup_insert_eq. discriminate.
    + rewrite lookup_insert_ne by exact Hne. apply Hdisk.
Qed.

Lemma load_keeps_sessions_usable k : keeps sessions_usable (load_browser_session k).
Proof.
  intros w [Hmem Hdisk].
  destruct (browser_sessions w !! k) as [d|] eqn:Hk.
  - pose proof (load_from_memory k d w Hk) as H. unfold run in H. rewrite H.
    split; assumption.
  - destruct (session_files w !! session_file k) as [[d|]|] eqn:Hf.
    + pose proof (load_from_disk k d w Hk Hf) as H. unfold run in H. rewrite H.
      unfold sessions_usable. cbn [snd]. world_fields.
      split; [| exact Hdisk].
      intros k' d'. destruct (decide (k = k')) as [<-|Hne].
      * rewrite lookup_insert_eq. intros Heq. injection Heq as <-.
        apply (Hdisk _ _ Hf).
      * rewrite lookup_insert_ne by exact Hne. apply Hmem.
    + pose proof (load_truncated k w Hk Hf) as H. unfold run in H. rewrite H.
      split; assumption.
    + pose proof (load_nothing k w Hk Hf) as H. unfold run in H. rewrite H.
      split; assumption.
Qed.

Lemma save_keeps_tasks ts log now disk k cs ls ss md :
  keeps (tasks_are ts log) (save_browser_session now disk k cs ls ss md).
Proof.
  intros w [Ht Hl].
  destruct (save_browser_session_total now disk k cs ls ss md w) as [b [w' [-> [? ?]]]].
  simpl. split; congruence.
Qed.

Lemma load_keeps_tasks ts log k : keeps (tasks_are ts log) (load_browser_session k).
Proof.
  intros w [Ht Hl].
  destruct (browser_sessions w !! k) as [d|] eqn:Hk.
  - pose proof (load_from_memory k d w Hk) as H. unfold run in H. rewrite H.
    split; assumption.
  - destruct (session_files w !! session_file k) as [[d|]|] eqn:Hf.
    + pose proof (load_from_disk k d w Hk Hf) as H. unfold run in H. rewrite H.
      split; assumption.
    + pose proof (load_truncated k w Hk Hf) as H. unfold run in H. rewrite H.
      split; assumption.
    + pose proof (load_nothing k w Hk Hf) as H. unfold run in H. rewrite H.
      split; assumption.
Qed.

Lemma validation_text_keeps {P : world -> Prop} env : keeps P (validation_text env).
Proof.
  unfold validation_text.
  destruct (validation_run env) as [[text|]| |msg];
    first [apply keeps_ret | apply keeps_raise].
Qed.

Lemma refresh_keeps_sessions_usable env k :
  keeps sessions_usable (refresh_session env k).
Proof.
  unfold refresh_session. apply keeps_bind; [apply keeps_extract |].
  intros updated. destruct (bool_decide (cookies updated = [])) eqn:Hc;
    [apply keeps_ret |].
  apply bool_decide_eq_false_1 in Hc.
  apply keeps_bind; [apply save_keeps_sessions_usable; exact Hc | intros _].
  destruct (x_session_id env) as [[|c rest]|]; try apply keeps_ret.
  apply keeps_bind; [apply save_keeps_sessions_usable; exact Hc | intros _].
  apply keeps_ret.
Qed.

Lemma refresh_keeps_tasks ts log env k : keeps (tasks_are ts log) (refresh_session env k).
Proof.
  unfold refresh_session. apply keeps_bind; [apply keeps_extract |].
  intros updated. destruct (bool_decide (cookies updated = [])); [apply keeps_ret |].
  apply keeps_bind; [apply save_keeps_tasks | intros _].
  destruct (x_session_id env) as [[|c rest]|]; try apply keeps_ret.
  apply keeps_bind; [apply save_keeps_tasks | intros _].
  apply keeps_ret.
Qed.

Lemma validate_keeps (P : world -> Prop) env k :
  keeps P (load_browser_session k) ->
  keeps P (refresh_session env k) ->
  keeps P (validate_session env k).
Proof.
  intros Hload Hrefresh. unfold validate_session.
  apply keeps_try_except; [| intros e; apply keeps_ret].
  apply keeps_bind; [exact Hload |].
  intros [s|]; [| apply keeps_ret].
  apply keeps_bind; [apply keeps_raise_if | intros _].
  destruct (negb _); [apply keeps_ret |].
  apply keeps_bind; [apply validation_text_keeps | intros final_text].
  apply keeps_bind; [apply keeps_raise_if | intros _].
  apply keeps_bind; [apply keeps_raise_if | intros _].
  destruct (PyStr.any_in logged_in_indicators final_text); [| apply keeps_ret].
  apply keeps_bind; [exact Hrefresh | intros _]. apply keeps_ret.
Qed.

(** ** Invariants of the running process *)

Lemma terminal_write_consistent env task_id business_id w t :
  task_consistent (dict_update t (terminal_write env task_id business_id w)).
Proof.
  unfold terminal_write.
  destruct (course_of env) as [msg0|text| |msg].
  - unfold task_consistent. simpl. do 2 eexists.
    split; [reflexivity |]. split; [reflexivity |]. split; [reflexivity |].
    exists "AUTH_ERROR". split; [reflexivity | right; left; reflexivity].
  - destruct (classify_codes text) as [-> | [c [m [-> Hin]]]].
    + unfold task_consistent. simpl. do 2 eexists.
      split; [reflexivity |]. split; [reflexivity |]. left. repeat split.
    + unfold task_consistent. simpl. do 2 eexists.
      split; [reflexivity |]. split; [reflexivity |]. right.
      split; [reflexivity |]. exists c. split; [reflexivity | exact Hin].
  - unfold task_consistent. simpl. do 2 eexists.
    split; [reflexivity |]. split; [reflexivity |]. split; [reflexivity |].
    exists "TIMEOUT". split; [reflexivity | left; reflexivity].
  - unfold task_consistent. simpl. do 2 eexists.
    split; [reflexivity |]. split; [reflexivity |]. split; [reflexivity |].
    exists "AUTH_ERROR". split; [reflexivity | right; left; reflexivity].
Qed.

Lemma terminated_update_consistent now t :
  task_consistent (dict_update t (terminated_update now)).
Proof.
  unfold task_consistent. simpl. do 2 eexists.
  split; [reflexivity |]. split; [reflexivity |]. split; [reflexivity |].
  exists "TERMINATED". split; [reflexivity | right; right; left; reflexivity].
Qed.

Lemma insert_consistent (ts : gmap string task) k t :
  (forall id t0, ts !! id = Some t0 -> task_consistent t0) ->
  task_consistent t ->
  forall id t0, <[k := t]> ts !! id = Some t0 -> task_consistent t0.
Proof.
  intros Hts Ht id t0. destruct (decide (k = id)) as [<-|Hne].
  - rewrite lookup_insert_eq. intros Heq. injection Heq as <-. exact Ht.
  - rewrite lookup_insert_ne by exact Hne. apply Hts.
Qed.

Lemma check_session_keeps (P : world -> Prop) now k :
  keeps P (load_browser_session k) -> keeps P (check_session now k).
Proof.
  intros Hload. unfold check_session.
  apply keeps_try_except; [| intros e; apply keeps_ret].
  apply keeps_bind; [exact Hload |]. intros [s|]; apply keeps_ret.
Qed.

Lemma terminate_task_effect now task_id w :
  snd (run (terminate_task now task_id) w) = w \/
  exists t, tasks w !! task_id = Some t /\
            snd (run (terminate_task now task_id) w) =
            log_task_write task_id (terminated_update now)
              (set_tasks (insert task_id (dict_update t (terminated_update now))) w).
Proof.
  destruct (tasks w !! task_id) as [t|] eqn:Ht.
  - destruct (task_status t) eqn:Hst.
    + right. exists t. split; [reflexivity |].
      rewrite (terminate_task_pending now task_id t w Ht Hst). reflexivity.
    + left. rewrite (terminate_task_terminal now task_id t w Ht); [reflexivity |].
      congruence.
    + left. rewrite (terminate_task_terminal now task_id t w Ht); [reflexivity |].
      congruence.
  - left. rewrite (terminate_task_unknown now task_id w Ht). reflexivity.
Qed.

Lemma perform_google_auth_effect env task_id business_id persist_session w :
  snd (run (perform_google_auth env task_id business_id persist_session) w)
    = before_write env business_id persist_session w \/
  exists t, tasks w !! task_id = Some t /\
            snd (run (perform_google_auth env task_id business_id persist_session) w) =
            log_task_write task_id (terminal_write env task_id business_id w)
              (set_tasks
                 (insert task_id (dict_update t (terminal_write env task_id business_id w)))
                 (before_write env business_id persist_session w)).
Proof.
  unfold run. destruct (prologue env) as [msg|] eqn:Hp.
  { left. rewrite (perform_google_auth_aborted _ _ _ _ _ _ Hp).
    unfold before_write, course_of. rewrite Hp. reflexivity. }
  destruct (tasks w !! task_id) as [t|] eqn:Ht.
  - right. exists t. split; [reflexivity |].
    rewrite (perform_google_auth_run _ _ _ _ _ _ Ht Hp). reflexivity.
  - left. rewrite (perform_google_auth_unknown_task _ _ _ _ _ Ht Hp). reflexivity.
Qed.

(** X23. Every task that the process ever stores is consistent: while
    pending it has neither completion time nor result, and once terminal
    it has both, with [failed] carrying an unsuccessful result coded
    TIMEOUT, AUTH_ERROR or TERMINATED and [completed] carrying either a
    success or one of the nine classifier codes.  This holds after any
    sequence of submissions, job runs, polls, terminations, session checks,
    session validations and restarts. *)
Theorem stored_tasks_are_consistent (w : world) :
  reachable w -> tasks_consistent w.
Proof.
  induction 1 as [ua | e w Hreach IH]; unfold tasks_consistent in *.
  - intros id t. simpl. rewrite lookup_empty. discriminate.
  - destruct e as [task_id now | env task_id business_id persist_session
                   | now task_id | now task_id | now business_id
                   | env business_id | ]; unfold handle.
    + apply insert_consistent; [exact IH |]. split; reflexivity.
    + destruct (perform_google_auth_effect env task_id business_id persist_session w)
        as [-> | [t [Ht ->]]].
      * rewrite (proj1 (before_write_frame _ _ _ _)). exact IH.
      * simpl. rewrite (proj1 (before_write_frame _ _ _ _)).
        apply insert_consistent; [exact IH | apply terminal_write_consistent].
    + rewrite get_task_status_run. simpl. intros id t Hlook.
      apply cleanup_lookup_iff in Hlook as [Hlook _]. apply (IH _ _ Hlook).
    + destruct (terminate_task_effect now task_id w) as [-> | [t [Ht ->]]];
        [exact IH |].
      simpl. apply insert_consistent; [exact IH | apply terminated_update_consistent].
    + unfold run.
      destruct (check_session_keeps (tasks_are (tasks w) (task_writes w)) now business_id
                  (load_keeps_tasks _ _ business_id) w) as [-> _];
        [split; reflexivity | exact IH].
    + unfold run.
      destruct (validate_keeps (tasks_are (tasks w) (task_writes w)) env business_id
                  (load_keeps_tasks _ _ business_id)
                  (refresh_keeps_tasks _ _ env business_id) w) as [-> _];
        [split; reflexivity | exact IH].
    + intros id t. simpl. rewrite lookup_empty. discriminate.
Qed.

Lemma stored_tasks_are_consistent_witness :
  exists t,
    tasks sample_running !! "task-1" = Some t /\
    task_status t = completed /\
    task_consistent t.
Proof.
  assert (Hreach : reachable sample_running).
  { unfold sample_running. do 4 apply reachable_step. apply (reachable_start None). }
  pose proof (stored_tasks_are_consistent sample_running Hreach) as Hall.
  exists overwritten_record.
  assert (Hlook : tasks sample_running !! "task-1" = Some overwritten_record)
    by (vm_compute; reflexivity).
  split; [exact Hlook |]. split; [reflexivity |]. apply (Hall "task-1" _ Hlook).
Defined.

Lemma sessions_usable_ext w w' :
  browser_sessions w' = browser_sessions w ->
  session_files w' = session_files w ->
  sessions_usable w -> sessions_usable w'.
Proof. unfold sessions_usable. intros -> ->. exact (fun H => H). Qed.

Lemma after_persist_keeps_sessions_usable env business_id persist_session w :
  sessions_usable w -> sessions_usable (after_persist env business_id persist_session w).
Proof.
  intros Hw. unfold after_persist.
  destruct (default true persist_session) ; [| exact Hw]. simpl.
  destruct (bool_decide _) eqn:Hc; [exact Hw |]. simpl.
  apply bool_decide_eq_false_1 in Hc.
  apply (save_keeps_sessions_usable _ _ _ _ _ _ _ Hc w Hw).
Qed.

Lemma before_write_keeps_sessions_usable env business_id persist_session w :
  sessions_usable w -> sessions_usable (before_write env business_id persist_session w).
Proof.
  intros Hw. unfold before_write.
  destruct (course_of env); try exact Hw.
  destruct (Classifier.classify _); [| exact Hw].
  apply after_persist_keeps_sessions_usable. exact Hw.
Qed.

Lemma reachable_sessions_usable (w : world) : reachable w -> sessions_usable w.
Proof.
  induction 1 as [ua | e w Hreach IH].
  - split; intros ? ?; simpl; rewrite lookup_empty; discriminate.
  - destruct e as [task_id now | env task_id business_id persist_session
                   | now task_id | now task_id | now business_id
                   | env business_id | ]; unfold handle.
    + apply (sessions_usable_ext w); [reflexivity | reflexivity | exact IH].
    + destruct (perform_google_auth_effect env task_id business_id persist_session w)
        as [-> | [t [Ht ->]]].
      * apply before_write_keeps_sessions_usable. exact IH.
      * apply (sessions_usable_ext (before_write env business_id persist_session w));
          [reflexivity | reflexivity |].
        apply before_write_keeps_sessions_usable. exact IH.
    + rewrite get_task_status_run.
      apply (sessions_usable_ext w); [reflexivity | reflexivity | exact IH].
    + destruct (terminate_task_effect now task_id w) as [-> | [t [Ht ->]]];
        [exact IH |].
      apply (sessions_usable_ext w); [reflexivity | reflexivity | exact IH].
    + unfold run. apply check_session_keeps; [apply load_keeps_sessions_usable | exact IH].
    + unfold run.
      apply validate_keeps;
        [apply load_keeps_sessions_usable | apply refresh_keeps_sessions_usable | exact IH].
    + destruct IH as [_ Hdisk]. split; [| exact Hdisk].
      intros k d. simpl. rewrite lookup_empty. discriminate.
Qed.

(** X24. The endpoints never store a session without cookies or with a
    timestamp that does not parse.  After any sequence of submissions, job
    runs, polls, terminations, session checks, validations and restarts,
    every session that [load_browser_session] returns has at least one
    cookie and a parseable [last_updated]; so applying it to a browser
    returns [True], and the session check reports a positive cookie count
    and the strict seven-day expiration test. *)
Theorem stored_sessions_are_usable (w : world) (k : string) (d : session_data) :
  reachable w ->
  fst (run (load_browser_session k) w) = inr (Some d) ->
  cookies d <> [] /\
  (exists t, last_updated d = Some (isoformat t)) /\
  (forall b fx, fst (apply_session_to_browser b (Some d) fx) = true) /\
  (forall now, exists c w' t,
      run (check_session now k) w = (inr c, w') /\
      has_session c = true /\
      check_cookies_count c = Some (length (cookies d)) /\
      (0 < length (cookies d))%nat /\
      last_updated d = Some (isoformat t) /\
      is_expired c = Some (bool_decide (days 7 < now - t))).
Proof.
  intros Hreach Hload.
  destruct (reachable_sessions_usable w Hreach) as [Hmem Hdisk].
  assert (Husable : session_usable d).
  { rewrite load_value in Hload. injection Hload as Hload.
    destruct (browser_sessions w !! k) as [d0|] eqn:Hk.
    - injection Hload as <-. apply (Hmem _ _ Hk).
    - destruct (session_files w !! session_file k) as [[d0|]|] eqn:Hf;
        try discriminate.
      injection Hload as <-. apply (Hdisk _ _ Hf). }
  destruct Husable as [Hcookies [t Hstamp]].
  split; [exact Hcookies |]. split; [exists t; exact Hstamp |]. split.
  - intros b fx. unfold apply_session_to_browser.
    rewrite bool_decide_eq_false_2 by exact Hcookies. reflexivity.
  - intros now. destruct (load_total k w) as [o [w' Hrun]].
    rewrite Hrun in Hload. simpl in Hload. injection Hload as ->.
    eexists. exists w', t. split; [apply (check_session_found now k d w w' Hrun) |].
    simpl. split; [reflexivity |]. split; [reflexivity |].
    split; [destruct (cookies d); [congruence | simpl; lia] |].
    split; [exact Hstamp |]. rewrite Hstamp. simpl. unfold isoformat.
    rewrite expiration_check_iso, Z.gtb_ltb. f_equal.
    destruct (Z.ltb_spec (days 7) (now - t)).
    + rewrite bool_decide_eq_true_2 by assumption. reflexivity.
    + rewrite bool_decide_eq_false_2 by lia. reflexivity.
Qed.

Lemma stored_sessions_are_usable_witness :
  exists d,
    fst (run (load_browser_session "biz-1") sample_history) = inr (Some d) /\
    browser_sessions sample_history = ∅ /\
    cookies d <> [] /\
    (forall b fx, fst (apply_session_to_browser b (Some d) fx) = true).
Proof.
  assert (Hreach : reachable sample_history).
  { unfold sample_history. do 5 apply reachable_step. apply (reachable_start None). }
  eexists. split; [vm_compute; reflexivity |]. split; [reflexivity |].
  match goal with
  | |- cookies ?d <> [] /\ _ =>
      destruct (stored_sessions_are_usable sample_history "biz-1" d Hreach)
        as [Hcookies [_ [Happly _]]]
  end.
  - vm_compute. reflexivity.
  - split; [exact Hcookies | exact Happly].
Defined.

(** ** Session validation *)

Lemma apply_session_value b d fx :
  fst (apply_session_to_browser b (Some d) fx) = negb (bool_decide (cookies d = [])).
Proof.
  unfold apply_session_to_browser. destruct (bool_decide (cookies d = [])); reflexivity.
Qed.

Lemma refresh_session_total env k w :
  exists w', refresh_session env k w = (inr tt, w').
Proof.
  unfold refresh_session, bind. rewrite extract_browser_session_run.
  destruct (bool_decide _); [eexists; reflexivity |].
  destruct (save_browser_session_total (first_saved_at env) (first_disk_write env) k
              (cookies (extraction (validation_extracted_at env) (validation_context env) w))
              (Some (local_storage
                       (extraction (validation_extracted_at env) (validation_context env) w)))
              (Some (session_storage
                       (extraction (validation_extracted_at env) (validation_context env) w)))
              None w) as [b1 [w1 [-> _]]].
  destruct (x_session_id env) as [[|c rest]|]; try (eexists; reflexivity).
  destruct (save_browser_session_total (second_saved_at env) (second_disk_write env) k
              (cookies (extraction (validation_extracted_at env) (validation_context env) w))
              (Some (local_storage
                       (extraction (validation_extracted_at env) (validation_context env) w)))
              (Some (session_storage
                       (extraction (validation_extracted_at env) (validation_context env) w)))
              (Some {[ "associated_session_id" := String c rest ]}) w1)
    as [b2 [w2 [-> _]]].
  eexists. reflexivity.
Qed.

(** X25. [validate_session] never raises and never touches a task.  It
    answers [valid = True] exactly when a session with at least one cookie
    loads for the key, the validation agent is created, its run returns a
    text whose lower-cased form contains one of the five logged-in phrases,
    and the screenshot steps succeed; a time-out, an exception, a missing
    session or a session without cookies all give [valid = False].  (The
    phrase test is a substring test, so "not logged in" counts as logged
    in.) *)
Theorem validate_session_verdict (env : validate_env) (k : string) (w : world) :
  exists v w',
    run (validate_session env k) w = (inr v, w') /\
    tasks w' = tasks w /\ task_writes w' = task_writes w /\
    (valid v = true <->
     exists d text,
       fst (run (load_browser_session k) w) = inr (Some d) /\
       cookies d <> [] /\
       validation_agent_created env = None /\
       validation_run env = Returns (Some text) /\
       PyStr.any_in logged_in_indicators (PyStr.lower text) = true /\
       validation_makedirs env = None /\
       validation_screenshot env = None).
Proof.
  assert (Hframe := validate_keeps (tasks_are (tasks w) (task_writes w)) env k
                      (load_keeps_tasks _ _ k) (refresh_keeps_tasks _ _ env k) w
                      (conj eq_refl eq_refl)).
  destruct Hframe as [Htasks Hlog].
  destruct (load_total k w) as [o [w0 Hload]].
  assert (Hverdict :
            exists v w',
              validate_session env k w = (inr v, w') /\
              (valid v = true <->
               exists d text,
                 fst (run (load_browser_session k) w) = inr (Some d) /\
                 cookies d <> [] /\
                 validation_agent_created env = None /\
                 validation_run env = Returns (Some text) /\
                 PyStr.any_in logged_in_indicators (PyStr.lower text) = true /\
                 validation_makedirs env = None /\
                 validation_screenshot env = None)).
  { rewrite Hload. unfold run in Hload.
    unfold validate_session, try_except, bind. rewrite Hload.
    destruct o as [d|].
    2:{ do 2 eexists. split; [reflexivity |]. split; [discriminate |].
        intros [d' [text' [Hl _]]]. discriminate. }
    destruct (validation_agent_created env) as [m1|] eqn:Hagent.
    { do 2 eexists. split; [reflexivity |]. split; [discriminate |].
      intros [d' [text' [_ [_ [Ha _]]]]]. discriminate. }
    unfold raise_if, ret. cbv beta iota.
    rewrite apply_session_value, negb_involutive.
    destruct (bool_decide (cookies d = [])) eqn:Hcookies.
    { apply bool_decide_eq_true_1 in Hcookies.
      do 2 eexists. split; [reflexivity |]. split; [discriminate |].
      intros [d' [text' [Hl [Hc _]]]]. simpl in Hl. injection Hl as <-. contradiction. }
    apply bool_decide_eq_false_1 in Hcookies.
    unfold validation_text.
    destruct (validation_run env) as [[text|]| |m2] eqn:Hrun;
      try (do 2 eexists; split; [reflexivity |]; split; [discriminate |];
           intros [d' [text' [_ [_ [_ [Hr _]]]]]]; discriminate).
    unfold ret, raise. cbv beta iota.
    destruct (validation_makedirs env) as [m3|] eqn:Hmk.
    { do 2 eexists. split; [reflexivity |]. split; [discriminate |].
      intros [d' [text' [_ [_ [_ [_ [_ [Hm _]]]]]]]]. discriminate. }
    destruct (validation_screenshot env) as [m4|] eqn:Hshot.
    { do 2 eexists. split; [reflexivity |]. split; [discriminate |].
      intros [d' [text' [_ [_ [_ [_ [_ [_ Hs]]]]]]]]. discriminate. }
    destruct (PyStr.any_in logged_in_indicators (PyStr.lower text)) eqn:Hany.
    - destruct (refresh_session_total env k w0) as [w1 Hrefresh]. rewrite Hrefresh.
      do 2 eexists. split; [reflexivity |]. split; [| reflexivity].
      intros _. exists d, text. repeat split; assumption || reflexivity.
    - do 2 eexists. split; [reflexivity |]. split; [discriminate |].
      intros [d' [text' [_ [_ [_ [Hr [Ha _]]]]]]]. injection Hr as <-. congruence. }
  destruct Hverdict as [v [w' [Hrun Hiff]]].
  exists v, w'. unfold run. rewrite Hrun in Htasks, Hlog.
  split; [exact Hrun |]. split; [exact Htasks |]. split; [exact Hlog | exact Hiff].
Qed.

Lemma save_user_agent now disk k cs ls ss md w :
  browser_user_agent (snd (save_browser_session now disk k cs ls ss md w))
  = browser_user_agent w.
Proof. destruct disk; reflexivity. Qed.

(** X26. A successful validation refreshes the stored session: when the
    session validates and the browser yields at least one cookie, the
    in-memory record of the key afterwards holds the cookies just
    extracted, whatever the disk does; with a non-empty X-Session-ID
    header the record is the one of the second save, tagged with the
    header value as "associated_session_id", and otherwise the one of the
    first save, with empty metadata. *)
Theorem validation_refreshes_session
        (env : validate_env) (k : string) (w : world)
        (d : session_data) (text : string) (cs : list cookie) :
  fst (run (load_browser_session k) w) = inr (Some d) ->
  cookies d <> [] ->
  validation_agent_created env = None ->
  validation_run env = Returns (Some text) ->
  PyStr.any_in logged_in_indicators (PyStr.lower text) = true ->
  validation_makedirs env = None ->
  validation_screenshot env = None ->
  context_cookies (validation_context env) = inr cs ->
  cs <> [] ->
  exists v w' rec,
    run (validate_session env k) w = (inr v, w') /\
    valid v = true /\
    validation_message v = "Session is valid and working" /\
    browser_sessions w' !! k = Some rec /\
    cookies rec = cs /\
    match x_session_id env with
    | Some (String c rest) =>
        metadata rec = {[ "associated_session_id" := String c rest ]} /\
        last_updated rec = Some (isoformat (second_saved_at env))
    | _ =>
        metadata rec = ∅ /\
        last_updated rec = Some (isoformat (first_saved_at env))
    end.
Proof.
  intros Hload Hcookies Hagent Hrun Hany Hmk Hshot Hctx Hcs.
  destruct (load_total k w) as [o [w0 Hl]].
  rewrite Hl in Hload. simpl in Hload. injection Hload as ->.
  unfold run in *. unfold validate_session, try_except, bind.
  rewrite Hl, Hagent. unfold raise_if, ret. cbv beta iota.
  rewrite apply_session_value, negb_involutive.
  rewrite (bool_decide_eq_false_2 _ Hcookies).
  unfold validation_text. rewrite Hrun. unfold ret. cbv beta iota.
  rewrite Hmk, Hshot, Hany.
  assert (Hextracted :
            cookies (extraction (validation_extracted_at env) (validation_context env) w0)
            = cs)
    by (unfold extraction; rewrite Hctx; reflexivity).
  unfold refresh_session, bind. rewrite extract_browser_session_run.
  rewrite Hextracted. rewrite (bool_decide_eq_false_2 _ Hcs).
  destruct (save_browser_session_total (first_saved_at env) (first_disk_write env) k cs
              (Some (local_storage
                       (extraction (validation_extracted_at env) (validation_context env) w0)))
              (Some (session_storage
                       (extraction (validation_extracted_at env) (validation_context env) w0)))
              None w0) as [b1 [w1 [Hs1 _]]].
  pose proof (save_memory_lookup (first_saved_at env) (first_disk_write env) k cs
                (Some (local_storage
                         (extraction (validation_extracted_at env) (validation_context env) w0)))
                (Some (session_storage
                         (extraction (validation_extracted_at env) (validation_context env) w0)))
                None w0) as Hm1.
  rewrite Hs1 in Hm1 |- *. simpl in Hm1.
  destruct (x_session_id env) as [[|c rest]|].
  - do 3 eexists. split; [reflexivity |]. split; [reflexivity |].
    split; [reflexivity |]. split; [exact Hm1 |]. repeat split.
  - destruct (save_browser_session_total (second_saved_at env) (second_disk_write env) k cs
                (Some (local_storage
                         (extraction (validation_extracted_at env) (validation_context env) w0)))
                (Some (session_storage
                         (extraction (validation_extracted_at env) (validation_context env) w0)))
                (Some {[ "associated_session_id" := String c rest ]}) w1)
      as [b2 [w2 [Hs2 _]]].
    pose proof (save_memory_lookup (second_saved_at env) (second_disk_write env) k cs
                  (Some (local_storage
                           (extraction (validation_extracted_at env) (validation_context env) w0)))
                  (Some (session_storage
                           (extraction (validation_extracted_at env) (validation_context env) w0)))
                  (Some {[ "associated_session_id" := String c rest ]}) w1) as Hm2.
    rewrite Hs2 in Hm2 |- *. simpl in Hm2.
    do 3 eexists. split; [reflexivity |]. split; [reflexivity |].
    split; [reflexivity |]. split; [exact Hm2 |]. repeat split.
  - do 3 eexists. split; [reflexivity |]. split; [reflexivity |].
    split; [reflexivity |]. split; [exact Hm1 |]. repeat split.
Qed.

Lemma validation_refreshes_session_witness :
  exists v w' rec,
    run (validate_session (smooth_validation "You are not logged in." (Some "abc123"))
           "biz-1") (week_old_world 0) = (inr v, w') /\
    valid v = true /\
    browser_sessions w' !! "biz-1" = Some rec /\
    cookies rec = [sid_cookie; hsid_cookie] /\
    metadata rec = {[ "associated_session_id" := "abc123" ]}.
Proof.
  destruct (validation_refreshes_session
              (smooth_validation "You are not logged in." (Some "abc123")) "biz-1"
              (week_old_world 0)
              (saved_record 0 empty_world [sid_cookie] None None None)
              "You are not logged in." [sid_cookie; hsid_cookie])
    as [v [w' [rec [Hrun [Hvalid [_ [Hlook [Hcookies [Hmeta _]]]]]]]]].
  - reflexivity.
  - discriminate.
  - reflexivity.
  - reflexivity.
  - vm_compute. reflexivity.
  - reflexivity.
  - reflexivity.
  - reflexivity.
  - discriminate.
  - exists v, w', rec. repeat split; assumption.
Defined.

Lemma apply_session_is_best_effort_witness :
  cookies_added
    (snd (apply_session_to_browser picky_browser
            (Some (saved_record 0 empty_world [hsid_cookie; sid_cookie]
                     (Some {[ "theme" := "dark" ]}) None None))
            no_effects)) = [sid_cookie] /\
  In "localStorage.setItem('theme', 'dark')"
     (scripts_evaluated
        (snd (apply_session_to_browser picky_browser
                (Some (saved_record 0 empty_world [hsid_cookie; sid_cookie]
                         (Some {[ "theme" := "dark" ]}) None None))
                no_effects))).
Proof.
  destruct (apply_session_is_best_effort picky_browser
              (saved_record 0 empty_world [hsid_cookie; sid_cookie]
                 (Some {[ "theme" := "dark" ]}) None None) no_effects)
    as [_ [Hcookies Hscripts]].
  - discriminate.
  - split.
    + rewrite Hcookies. reflexivity.
    + apply Hscripts. right. repeat split.
      exists "theme", "dark". left. split; reflexivity.
Defined.

(* ===================================================================== *)
(** * The report of the executor, as stored *)
(* ===================================================================== *)

(** X27. A run of the executor that gets past the statements before the
    [try], on a task that is in [tasks], does not raise, performs exactly
    one write to the task and leaves this record under the task's id: the
    creation time is kept, [completed_at] is the clock at the write, and
    the result is set.  The status is [completed] exactly when the agent
    returned a text that reached the classifier, with [success] and
    [error_code] those of the verdict on that text; it is [failed] after a
    timeout (code TIMEOUT) and after an exception (code AUTH_ERROR, with
    the exception's text in the message). *)
Theorem executor_stores_its_report
        (env : auth_env) (task_id business_id : string) (persist_session : option bool)
        (w : world) (t : task) :
  prologue env = None ->
  tasks w !! task_id = Some t ->
  exists u t' r w',
    run (perform_google_auth env task_id business_id persist_session) w = (inr tt, w') /\
    task_writes w' = (task_writes w ++ [(task_id, u)])%list /\
    tasks w' !! task_id = Some t' /\
    created_at t' = created_at t /\
    completed_at t' = Some (finished_at env) /\
    task_result t' = Some r /\
    upd_status u = task_status t' /\
    upd_result u = r /\
    (forall text, course_of env = Classified text ->
       task_status t' = completed /\
       success r = is_authenticated (Classifier.classify text) /\
       error_code r = Classifier.verdict_code (Classifier.classify text)) /\
    (course_of env = DeadlineElapsed ->
       task_status t' = failed /\ success r = false /\
       error_code r = Some "TIMEOUT" /\
       message t' = Some "Authentication task timed out") /\
    (forall msg, course_of env = UnexpectedException msg ->
       task_status t' = failed /\ success r = false /\
       error_code r = Some "AUTH_ERROR" /\
       message t' = Some ("Error during authentication: " +:+ msg)) /\
    (task_status t' = completed <-> exists text, course_of env = Classified text).
Proof.
  intros Hp Ht.
  exists (terminal_write env task_id business_id w),
         (dict_update t (terminal_write env task_id business_id w)),
         (upd_result (terminal_write env task_id business_id w)).
  eexists.
  split; [unfold run; apply (perform_google_auth_run _ _ _ _ _ _ Ht Hp) |].
  destruct (before_write_frame env business_id persist_session w) as [Htasks Hlog].
  split; [simpl; rewrite Hlog; reflexivity |].
  split; [simpl; apply lookup_insert_eq |].
  split; [reflexivity |].
  assert (Hcourse : course_of env <> AbortedBeforeTry
                                       match course_of env with
                                       | AbortedBeforeTry m => m
                                       | _ => ""
                                       end).
  { unfold course_of. rewrite Hp.
    destruct (makedirs_task env); [discriminate |].
    destruct (agent_created env); [discriminate |].
    destruct (agent_run env) as [[text|]| |m]; try discriminate.
    destruct (makedirs_final env); [discriminate |].
    destruct (final_screenshot env); discriminate. }
  unfold terminal_write.
  destruct (course_of env) as [m0|text| |msg].
  - exfalso. apply Hcourse. reflexivity.
  - destruct (Classifier.classify text) eqn:Hverdict.
    + split; [reflexivity |]. split; [reflexivity |]. split; [reflexivity |].
      split; [reflexivity |].
      split.
      { intros text' Heq. injection Heq as <-. rewrite Hverdict.
        split; [reflexivity |]. split; reflexivity. }
      split; [discriminate |]. split; [discriminate |].
      split; [intros _; exists text; reflexivity | intros _; reflexivity].
    + split; [reflexivity |]. split; [reflexivity |]. split; [reflexivity |].
      split; [reflexivity |].
      split.
      { intros text' Heq. injection Heq as <-. rewrite Hverdict.
        split; [reflexivity |]. split; reflexivity. }
      split; [discriminate |]. split; [discriminate |].
      split; [intros _; exists text; reflexivity | intros _; reflexivity].
  - split; [reflexivity |]. split; [reflexivity |]. split; [reflexivity |].
    split; [reflexivity |].
    split; [discriminate |].
    split; [intros _; split; [reflexivity |]; split; [reflexivity |]; split; reflexivity |].
    split; [discriminate |].
    split; [discriminate | intros [text H]; discriminate].
  - split; [reflexivity |]. split; [reflexivity |]. split; [reflexivity |].
    split; [reflexivity |].
    split; [discriminate |]. split; [discriminate |].
    split.
    { intros msg' Heq. injection Heq as <-.
      split; [reflexivity |]. split; [reflexivity |]. split; reflexivity. }
    split; [discriminate | intros [text H]; discriminate].
Qed.

Lemma executor_stores_its_report_witness :
  exists t' r w',
    run (perform_google_auth (smooth_env "Wrong password. Try again.")
           "task-1" "biz-1" (Some true)) submitted_world = (inr tt, w') /\
    tasks w' !! "task-1" = Some t' /\
    task_status t' = completed /\
    created_at t' = 0 /\
    task_result t' = Some r /\
    success r = false /\
    error_code r = Some "WRONG_PASSWORD".
Proof.
  destruct (executor_stores_its_report (smooth_env "Wrong password. Try again.")
              "task-1" "biz-1" (Some true) submitted_world
              {| task_status := pending; created_at := 0; completed_at := None;
                 task_result := None; message := None |})
    as [u [t' [r [w' [Hrun [_ [Hlook [Hcreated [_ [Hres [_ [_ [Hclass _]]]]]]]]]]]]].
  - reflexivity.
  - reflexivity.
  - destruct (Hclass "Wrong password. Try again." eq_refl) as [Hst [Hsucc Hcode]].
    exists t', r, w'.
    split; [exact Hrun |]. split; [exact Hlook |]. split; [exact Hst |].
    split; [exact Hcreated |]. split; [exact Hres |].
    split; [rewrite Hsucc; vm_compute; reflexivity |].
    rewrite Hcode. vm_compute. reflexivity.
Defined.

(* ===================================================================== *)
(** * Session files of different ids *)
(* ===================================================================== *)

Example session_file_examples :
  session_file "biz-1" = "browser_sessions/biz-1.pickle" /\
  session_file "./biz-1" = "browser_sessions/biz-1.pickle" /\
  session_file "a//b" = "browser_sessions/a/b.pickle" /\
  session_file "a/./b" = "browser_sessions/a/b.pickle" /\
  session_file "a/" = "browser_sessions/a/.pickle" /\
  session_file "" = "browser_sessions/.pickle" /\
  session_file "." = "browser_sessions/..pickle" /\
  session_file "../browser_sessions/biz-1"
    = "browser_sessions/../browser_sessions/biz-1.pickle" /\
  session_file "/etc/x" = "/etc/x.pickle" /\
  session_file "//etc/x" = "//etc/x.pickle" /\
  session_file "///etc/x" = "/etc/x.pickle" /\
  session_file "/" = "/.pickle".
Proof. vm_compute. repeat split. Qed.

Lemma fields_after_dot_slash (s : string) :
  PyPath.fields ("./" +:+ s) = "." :: PyPath.fields s.
Proof. reflexivity. Qed.

Lemma relative_pickle_name (k : string) :
  String.prefix "/" k = false -> String.prefix "/" (k +:+ ".pickle") = false.
Proof.
  intros Hk.
  destruct (String.prefix "/" (k +:+ ".pickle")) eqn:Hprefix; [| reflexivity].
  apply prefix_iff_append in Hprefix as [rest Hrest].
  destruct k as [|c k]; [discriminate |].
  rewrite append_cons in Hrest.
  change ("/" +:+ rest) with (String "/" rest) in Hrest.
  injection Hrest as -> _.
  assert (String.prefix "/" (String "/" k) = true) as Htrue
    by (apply prefix_iff_append; exists k; reflexivity).
  congruence.
Qed.

Lemma session_file_dot_slash (k : string) :
  String.prefix "/" k = false -> session_file ("./" +:+ k) = session_file k.
Proof.
  intros Hk. unfold session_file, PyPath.under.
  rewrite (relative_pickle_name k Hk).
  assert (Hname : ("./" +:+ k) +:+ ".pickle" = "./" +:+ (k +:+ ".pickle"))
    by reflexivity.
  rewrite Hname.
  assert (Hrel : String.prefix "/" ("./" +:+ (k +:+ ".pickle")) = false)
    by reflexivity.
  rewrite Hrel. unfold PyPath.parts. rewrite fields_after_dot_slash. reflexivity.
Qed.

(** X28. The name of a session file goes through [pathlib], which drops a
    leading "./".  For an id [k] that does not start with "/", the ids "./k"
    and [k] are two keys of the in-memory dictionary and one file on disk:
    after a save under "./k" that returns [True] and a restart, a load of
    [k], which was never saved in this process, returns the record saved
    under "./k". *)
Theorem dotted_id_shares_the_session_file
        (now : Z) (disk : write_outcome) (k : string) (cs : list cookie)
        (ls ss md : option (gmap string string)) (w w1 : world) :
  String.prefix "/" k = false ->
  run (save_browser_session now disk ("./" +:+ k) cs ls ss md) w = (inr true, w1) ->
  "./" +:+ k <> k /\
  session_file ("./" +:+ k) = session_file k /\
  browser_sessions (restart w1) !! k = None /\
  exists d w2,
    run (load_browser_session k) (restart w1) = (inr (Some d), w2) /\
    cookies d = cs /\
    browser_sessions w2 !! k = Some d.
Proof.
  intros Hk Hsave.
  destruct disk as [|msg|msg];
    [rewrite save_written in Hsave
    | rewrite save_open_fails in Hsave; discriminate
    | rewrite save_dump_fails in Hsave; discriminate].
  injection Hsave as <-.
  split.
  { intros Heq. apply (f_equal String.length) in Heq.
    rewrite string_length_app in Heq. simpl in Heq. lia. }
  split; [apply session_file_dot_slash; exact Hk |].
  split; [simpl; apply lookup_empty |].
  exists (saved_record now w cs ls ss md). eexists.
  split.
  - apply load_from_disk.
    + simpl. apply lookup_empty.
    + simpl. rewrite <- (session_file_dot_slash k Hk). apply lookup_insert_eq.
  - split; [reflexivity |]. simpl. apply lookup_insert_eq.
Qed.

Lemma dotted_id_shares_the_session_file_witness :
  session_file "./biz-1" = session_file "biz-1" /\
  exists d w2,
    run (load_browser_session "biz-1")
      (restart (snd (run (save_browser_session 7 Written "./biz-1" [sid_cookie]
                            None None None) empty_world)))
    = (inr (Some d), w2) /\
    cookies d = [sid_cookie].
Proof.
  destruct (dotted_id_shares_the_session_file 7 Written "biz-1" [sid_cookie]
              None None None empty_world
              (snd (run (save_browser_session 7 Written "./biz-1" [sid_cookie]
                           None None None) empty_world)))
    as [_ [Hfile [_ [d [w2 [Hload [Hcookies _]]]]]]].
  - reflexivity.
  - reflexivity.
  - split; [exact Hfile |]. exists d, w2. split; [exact Hload | exact Hcookies].
Defined.
